(** * ng_link: the neuroglancer state builder, embedded and verified

    A shallow embedding of [src/ng_link/ng_layer.py] and
    [src/ng_link/ng_state.py].  Python values are a universal type
    [pyval]; dictionaries are association lists in insertion order;
    Python floats are IEEE binary64 values and numpy's [float16] is IEEE
    binary16, both through the Standard Library's [SpecFloat]; raised
    exceptions are the left summand of a sum.  Behaviour of the
    interpreter and of external libraries that the sources do not contain
    (pint's unit registry, [repr], string to number parsing) is a record
    of functions, [PyRuntime], over which every definition that needs it
    is parametrised. *)

From Stdlib Require Import String Ascii List ZArith Lia Bool.
From Stdlib Require Import Floats.SpecFloat.
From Stdlib Require Import Numbers.DecimalString Numbers.DecimalZ.
Import ListNotations.
Open Scope string_scope.
Set Warnings "-register-all".

(* ===================================================================== *)
(** * Python strings *)
(* ===================================================================== *)

Module PyStr.

(** [s.startswith(p)] *)
Definition startswith (s p : string) : bool := String.prefix p s.

(** [s.endswith(suf)] *)
Definition endswith (s suf : string) : bool :=
  let n := String.length s in
  let m := String.length suf in
  (m <=? n)%nat && String.eqb (substring (n - m) m s) suf.

(** [s.split(c)] for a one-character separator: never empty. *)
Fixpoint split (c : ascii) (s : string) : list string :=
  match s with
  | EmptyString => [EmptyString]
  | String a s' =>
      if Ascii.eqb a c then EmptyString :: split c s'
      else match split c s' with
           | [] => [String a EmptyString]
           | h :: t => String a h :: t
           end
  end.

(** [sep.join(parts)] *)
Fixpoint join (sep : string) (parts : list string) : string :=
  match parts with
  | [] => EmptyString
  | [p] => p
  | p :: rest => p ++ sep ++ join sep rest
  end.

(** The scan of [s.replace(old, new)] for a non-empty [old]: occurrences
    are taken left to right and do not overlap; [skip] counts the
    characters of an occurrence still to be passed over. *)
Fixpoint replace_from (old new : string) (skip : nat) (s : string) : string :=
  match s with
  | EmptyString => EmptyString
  | String a s' =>
      match skip with
      | S k => replace_from old new k s'
      | O =>
          if String.prefix old s
          then new ++ replace_from old new (String.length old - 1) s'
          else String a (replace_from old new 0 s')
      end
  end.

(** [s.replace(old, new)]; the sources only call it with a non-empty
    [old], and an empty one is left alone here. *)
Definition replace (old new s : string) : string :=
  match old with
  | EmptyString => s
  | _ => replace_from old new 0 s
  end.

(** [s.rfind(c)]: the index of the last occurrence of the character. *)
Fixpoint rfind_from (c : ascii) (i : nat) (s : string) : option nat :=
  match s with
  | EmptyString => None
  | String a s' =>
      match rfind_from c (S i) s' with
      | Some j => Some j
      | None => if Ascii.eqb a c then Some i else None
      end
  end.

Definition rfind (c : ascii) (s : string) : option nat := rfind_from c 0 s.

(** The double quote, as a one-character string. *)
Definition dquote : string :=
  String (Ascii false true false false false true false false) EmptyString.

(** The line feed. *)
Definition newline_char : ascii :=
  Ascii false true false true false false false false.

Definition newline : string := String newline_char EmptyString.

(** [str(n)] of an integer. *)
Definition of_Z (z : Z) : string := NilZero.string_of_int (Z.to_int z).

End PyStr.

(* ===================================================================== *)
(** * pathlib's pure POSIX paths *)
(* ===================================================================== *)

Module PyPath.

(** A parsed path: its root (empty, one slash or two) and its parts:
    the components between slashes, the empty ones and ["."] dropped. *)
Record path := mkpath { root : string; parts : list string }.

Definition slash : ascii := "/"%char.

Definition is_component (c : string) : bool :=
  negb (String.eqb c "") && negb (String.eqb c ".").

(** POSIX keeps exactly two leading slashes; any other run is one. *)
Definition root_of (s : string) : string :=
  if PyStr.startswith s "/" then
    if PyStr.startswith s "//" && negb (PyStr.startswith s "///")
    then "//" else "/"
  else "".

(** [Path(s)] *)
Definition parse (s : string) : path :=
  mkpath (root_of s) (filter is_component (PyStr.split slash s)).

(** [str(p)] *)
Definition to_str (p : path) : string :=
  match root p, parts p with
  | EmptyString, [] => "."
  | r, ps => r ++ PyStr.join "/" ps
  end.

(** [p.name]: the final part, empty when the path has none. *)
Definition name (p : path) : string := last (parts p) "".

(** [p.stem]: the name without its last suffix; a dot that starts or
    ends the name is no suffix separator. *)
Definition stem (p : path) : string :=
  let n := name p in
  match PyStr.rfind "."%char n with
  | Some i =>
      if (0 <? i)%nat && (i <? String.length n - 1)%nat
      then substring 0 i n else n
  | None => n
  end.

(** [p.joinpath(other)] for a string [other]: an absolute [other]
    replaces [p]. *)
Definition joinpath (p : path) (other : string) : path :=
  let q := parse other in
  match root q with
  | EmptyString => mkpath (root p) (parts p ++ parts q)
  | _ => q
  end.

End PyPath.

(* ===================================================================== *)
(** * Numbers: Python floats and numpy's half precision *)
(* ===================================================================== *)

Module PyNum.

(** A Python float is an IEEE binary64 value, a [float16] cell an IEEE
    binary16 value; both are [spec_float]s, told apart by the precision
    and exponent bound their operations are given. *)
Definition prec64 : Z := 53.
Definition emax64 : Z := 1024.
Definition prec16 : Z := 11.
Definition emax16 : Z := 16.

(** The binary64 value nearest to [m * 2^e] (ties to even). *)
Definition f64 (m e : Z) : spec_float := binary_normalize prec64 emax64 m e false.

(** The binary16 value nearest to [m * 2^e] (ties to even). *)
Definition f16 (m e : Z) : spec_float := binary_normalize prec16 emax16 m e false.

(** C's cast from double to half, numpy's [npy_double_to_half]: round to
    nearest, ties to even; magnitudes from 65520 on become infinite. *)
Definition half_of_double (x : spec_float) : spec_float :=
  match x with
  | S754_finite s m e => binary_round prec16 emax16 s m e
  | _ => x
  end.

(** A half read back as a Python float ([tolist]): exact. *)
Definition double_of_half (x : spec_float) : spec_float :=
  match x with
  | S754_finite s m e => binary_round prec64 emax64 s m e
  | _ => x
  end.

(** [float(n)] of a Python int: [None] stands for the [OverflowError] of
    an int too large for a double. *)
Definition double_of_Z (z : Z) : option spec_float :=
  match f64 z 0 with
  | S754_infinity _ => None
  | x => Some x
  end.

Definition is_zero (x : spec_float) : bool :=
  match x with S754_zero _ => true | _ => false end.

(** The integer part of a finite float, toward zero ([int(x)]). *)
Definition trunc (x : spec_float) : option Z :=
  match x with
  | S754_zero _ => Some 0%Z
  | S754_finite s m e =>
      let a := match e with
               | Zneg p => Z.shiftr (Zpos m) (Zpos p)
               | _ => Z.shiftl (Zpos m) e
               end in
      Some (if s then Z.opp a else a)
  | _ => None
  end.

End PyNum.

(* ===================================================================== *)
(** * Python values, dictionaries and exceptions *)
(* ===================================================================== *)

(** The values the configuration is made of.  A [dict] is its items in
    insertion order, keyed by strings as in a JSON document. *)
Inductive pyval : Type :=
  | PNone
  | PBool (b : bool)
  | PInt (z : Z)
  | PFloat (x : spec_float)
  | PStr (s : string)
  | PList (l : list pyval)
  | PDict (d : list (string * pyval)).

Definition pydict : Type := list (string * pyval).

(** The exception classes the sources raise or meet; [LibError] is an
    exception class of an external library, by name. *)
Inductive exc_class : Type :=
  | TypeError | KeyError | ValueError | NotImplementedError
  | AttributeError | IndexError | OverflowError
  | LibError (name : string).

(** A raised exception: its class and, where the sources give one, its
    message (the interpreter's own messages are left empty). *)
Record exc : Type := Raise { exc_cls : exc_class; exc_msg : string }.

(** A computation that returns or raises. *)
Definition res (A : Type) : Type := (exc + A)%type.

Definition ok {A : Type} (a : A) : res A := inr a.
Definition raise {A : Type} (c : exc_class) (msg : string) : res A :=
  inl (Raise c msg).

Definition bind {A B : Type} (m : res A) (k : A -> res B) : res B :=
  match m with
  | inl e => inl e
  | inr a => k a
  end.

Notation "x <- m ;; k" := (bind m (fun x => k))
  (at level 61, m at next level, right associativity).

(** [try: m  except cls: h] *)
Definition try_except {A : Type} (m : res A) (catches : exc_class -> bool)
    (h : res A) : res A :=
  match m with
  | inl e => if catches (exc_cls e) then h else inl e
  | inr a => inr a
  end.

Definition is_KeyError (c : exc_class) : bool :=
  match c with KeyError => true | _ => false end.

Module PyDict.

(** [d[k]] read: the value under the key, if any. *)
Fixpoint get (d : pydict) (k : string) : option pyval :=
  match d with
  | [] => None
  | (k', v) :: rest => if String.eqb k' k then Some v else get rest k
  end.

(** [k in d] *)
Definition mem (d : pydict) (k : string) : bool :=
  match get d k with Some _ => true | None => false end.

(** [d[k] = v]: a key already present keeps its place, a new one goes
    last. *)
Fixpoint set (d : pydict) (k : string) (v : pyval) : pydict :=
  match d with
  | [] => [(k, v)]
  | (k', v') :: rest =>
      if String.eqb k' k then (k', v) :: rest else (k', v') :: set rest k v
  end.

Definition keys (d : pydict) : list string := map fst d.
Definition values (d : pydict) : list pyval := map snd d.

(** A dictionary holds a key once. *)
Definition wf (d : pydict) : Prop := NoDup (keys d).

End PyDict.

(* ===================================================================== *)
(** * The interpreter and the libraries around the sources *)
(* ===================================================================== *)

(** What the sources call and do not contain.  Each field is a function
    of the Python runtime or of an installed package, on the arguments
    the embedding does not compute itself. *)
Record PyRuntime : Type := {
  (** pint: [(voxel_size * UnitRegistry()[unit]).to(dest_metric).m] *)
  pint_to : pyval -> pyval -> string -> res pyval;
  (** [repr] of a float, a list or a dict *)
  py_repr : pyval -> string;
  (** [int(s)] of a string *)
  int_of_str : string -> res Z;
  (** [float(s)] of a string *)
  float_of_str : string -> res spec_float;
  (** [dict(x)] of an [x] that is not a dict *)
  dict_of_iterable : pyval -> res pydict;
  (** numpy's cast to [float16] of a string, a list or a dict *)
  np_half_other : pyval -> res spec_float
}.

Module Builtins.
Section WithRuntime.
Variable rt : PyRuntime.

(** [str(v)], also what an f-string puts for [{v}]. *)
Definition py_str (v : pyval) : string :=
  match v with
  | PNone => "None"
  | PBool true => "True"
  | PBool false => "False"
  | PInt z => PyStr.of_Z z
  | PStr s => s
  | _ => py_repr rt v
  end.

(** [bool(v)] *)
Definition py_bool (v : pyval) : bool :=
  match v with
  | PNone => false
  | PBool b => b
  | PInt z => negb (z =? 0)%Z
  | PFloat x => negb (PyNum.is_zero x)
  | PStr s => negb (String.eqb s "")
  | PList l => match l with [] => false | _ => true end
  | PDict d => match d with [] => false | _ => true end
  end.

(** [int(v)] *)
Definition py_int (v : pyval) : res Z :=
  match v with
  | PBool b => ok (if b then 1 else 0)%Z
  | PInt z => ok z
  | PFloat x =>
      match PyNum.trunc x with
      | Some z => ok z
      | None => match x with
                | S754_nan => raise ValueError ""
                | _ => raise OverflowError ""
                end
      end
  | PStr s => int_of_str rt s
  | _ => raise TypeError ""
  end.

(** [float(v)] *)
Definition py_float (v : pyval) : res spec_float :=
  match v with
  | PBool b => ok (PyNum.f64 (if b then 1 else 0) 0)
  | PInt z =>
      match PyNum.double_of_Z z with
      | Some x => ok x
      | None => raise OverflowError ""
      end
  | PFloat x => ok x
  | PStr s => float_of_str rt s
  | _ => raise TypeError ""
  end.

(** [dict(v)] *)
Definition py_dict (v : pyval) : res pydict :=
  match v with
  | PDict d => ok d
  | _ => dict_of_iterable rt v
  end.

(** [v[k]] for a string key. *)
Definition getitem (v : pyval) (k : string) : res pyval :=
  match v with
  | PDict d =>
      match PyDict.get d k with
      | Some x => ok x
      | None => raise KeyError ""
      end
  | _ => raise TypeError ""
  end.

(** An index as Python reads it: a negative one counts from the end. *)
Definition norm_index (i n : Z) : res Z :=
  let j := if (i <? 0)%Z then (i + n)%Z else i in
  if (0 <=? j)%Z && (j <? n)%Z then ok j else raise IndexError "".

(** [v[i]] for an integer index. *)
Definition getitem_int (v : pyval) (i : Z) : res pyval :=
  match v with
  | PList l =>
      j <- norm_index i (Z.of_nat (length l)) ;;
      match nth_error l (Z.to_nat j) with
      | Some x => ok x
      | None => raise IndexError ""
      end
  | PStr s =>
      j <- norm_index i (Z.of_nat (String.length s)) ;;
      ok (PStr (substring (Z.to_nat j) 1 s))
  | PDict _ => raise KeyError ""
  | _ => raise TypeError ""
  end.

(** [v == s] for a string literal [s]. *)
Definition eq_str (v : pyval) (s : string) : bool :=
  match v with
  | PStr s' => String.eqb s' s
  | _ => false
  end.

(** [Path(v)]: pathlib takes a string. *)
Definition py_path (v : pyval) : res PyPath.path :=
  match v with
  | PStr s => ok (PyPath.parse s)
  | _ => raise TypeError ""
  end.

(** [for x in v]: the values a loop over [v] goes through: the items
    of a list, the keys of a dict, the characters of a string. *)
Definition py_iter (v : pyval) : res (list pyval) :=
  match v with
  | PList l => ok l
  | PDict d => ok (map PStr (PyDict.keys d))
  | PStr s =>
      ok (map (fun c => PStr (String c EmptyString)) (list_ascii_of_string s))
  | _ => raise TypeError ""
  end.

End WithRuntime.
End Builtins.

(* ===================================================================== *)
(** * numpy: a two-dimensional [float16] array *)
(* ===================================================================== *)

Module Numpy.

(** The array's shape and its cells, row after row. *)
Record ndarray : Type := mkarray { nrows : Z; ncols : Z; cells : list spec_float }.

(** [np.zeros((n_rows, n_cols), np.float16)] *)
Definition zeros (n_rows n_cols : Z) : res ndarray :=
  if (n_rows <? 0)%Z || (n_cols <? 0)%Z
  then raise ValueError ""
  else ok (mkarray n_rows n_cols
             (repeat (S754_zero false) (Z.to_nat (n_rows * n_cols)))).

(** [a.flat[:stop:step] = v], the cells from index [i] on. *)
Fixpoint flat_assign (i stop step : Z) (v : spec_float) (cs : list spec_float)
    : list spec_float :=
  match cs with
  | [] => []
  | c :: rest =>
      (if (i <? stop)%Z && (i mod step =? 0)%Z then v else c)
        :: flat_assign (i + 1) stop step v rest
  end.

(** [np.fill_diagonal(a, v)] of a 2-d array: every [ncols + 1]-th cell
    before cell [ncols * ncols], so that a tall array does not wrap. *)
Definition fill_diagonal (a : ndarray) (v : spec_float) : ndarray :=
  mkarray (nrows a) (ncols a)
    (flat_assign 0 (ncols a * ncols a) (ncols a + 1) v (cells a)).

Fixpoint list_set {A : Type} (n : nat) (x : A) (l : list A) : list A :=
  match l, n with
  | [], _ => []
  | _ :: rest, O => x :: rest
  | y :: rest, S k => y :: list_set k x rest
  end.

Section WithRuntime.
Variable rt : PyRuntime.

(** The cast of an assigned value to [float16]: numpy takes [float(v)]
    and rounds the double to half precision; [None] becomes NaN. *)
Definition half_of_value (v : pyval) : res spec_float :=
  match v with
  | PNone => ok S754_nan
  | PBool b => ok (PyNum.f16 (if b then 1 else 0) 0)
  | PInt z =>
      match PyNum.double_of_Z z with
      | Some x => ok (PyNum.half_of_double x)
      | None => raise OverflowError ""
      end
  | PFloat x => ok (PyNum.half_of_double x)
  | _ => np_half_other rt v
  end.

(** [a[r][c] = v]: both indices are checked, then the value is cast. *)
Definition setitem (a : ndarray) (r c : Z) (v : pyval) : res ndarray :=
  r' <- Builtins.norm_index r (nrows a) ;;
  c' <- Builtins.norm_index c (ncols a) ;;
  h <- half_of_value v ;;
  ok (mkarray (nrows a) (ncols a)
        (list_set (Z.to_nat (r' * ncols a + c')) h (cells a))).

End WithRuntime.

Fixpoint chunks {A : Type} (n w : nat) (cs : list A) : list (list A) :=
  match n with
  | O => []
  | S k => firstn w cs :: chunks k w (skipn w cs)
  end.

(** [a.tolist()]: the rows, each cell a Python float. *)
Definition tolist (a : ndarray) : list (list spec_float) :=
  chunks (Z.to_nat (nrows a)) (Z.to_nat (ncols a))
    (map PyNum.double_of_half (cells a)).

End Numpy.

(* ===================================================================== *)
(** * ng_layer.py *)
(* ===================================================================== *)

Module ng_layer.

(** The object of class [NgLayer]: its private [__layer_state] and its
    public attributes. *)
Record NgLayer : Type := mkNgLayer {
  layer_state : pydict;
  image_config : pyval;
  mount_service : string;
  bucket_path : string;
  image_type : string;
  output_dimensions : pydict;
  image_source : pyval
}.

Definition with_layer_state (self : NgLayer) (ls : pydict) : NgLayer :=
  mkNgLayer ls (image_config self) (mount_service self) (bucket_path self)
    (image_type self) (output_dimensions self) (image_source self).

(** [self.__layer_state[k] = v] *)
Definition set_state (self : NgLayer) (k : string) (v : pyval) : NgLayer :=
  with_layer_state self (PyDict.set (layer_state self) k v).

Definition default_n_cols : Z := 6.
Definition default_n_rows : Z := 5.

(** The matrix as the value the layer state holds. *)
Definition matrix_value (m : list (list spec_float)) : pyval :=
  PList (map (fun row => PList (map PFloat row)) m).

(** [helper_reverse_dictionary]: the items are entered into a new dict
    from the last to the first; an argument without [keys] (the default
    [None] of [output_dimensions]) ends in an [AttributeError]. *)
Definition helper_reverse_dictionary (dictionary : pyval) : res pydict :=
  match dictionary with
  | PDict d =>
      ok (fold_left (fun new_dict kv => PyDict.set new_dict (fst kv) (snd kv))
            (rev d) [])
  | _ => raise AttributeError ""
  end.

Definition in_list (s : string) (l : list string) : bool :=
  existsb (String.eqb s) l.

(** The object as [__init__] has it before the source is fixed: an empty
    layer state, and [image_source] not set yet. *)
Definition new_object (image_config : pyval) (mount_service bucket_path : string)
    (image_type : string) (output_dimensions : pydict) : NgLayer :=
  mkNgLayer [] image_config mount_service bucket_path image_type
    output_dimensions PNone.

Definition not_implemented_format : string :=
  "This format has not been implemented yet for visualization".

Section WithRuntime.
Variable rt : PyRuntime.

(** The loop [for delta in deltas] of the helper below. *)
Fixpoint set_deltas (translation_matrix : Numpy.ndarray) (start_point : Z)
    (deltas : list pyval) : res Numpy.ndarray :=
  match deltas with
  | [] => ok translation_matrix
  | delta :: rest =>
      m <- Numpy.setitem rt translation_matrix start_point (-1) delta ;;
      set_deltas m (start_point - 1) rest
  end.

(** [helper_create_ng_translation_matrix] *)
Definition helper_create_ng_translation_matrix
    (delta_x delta_y delta_z : pyval) (n_cols n_rows : Z)
    : res (list (list spec_float)) :=
  translation_matrix <- Numpy.zeros n_rows n_cols ;;
  let translation_matrix :=
    Numpy.fill_diagonal translation_matrix (PyNum.f16 1 0) in
  let deltas := [delta_x; delta_y; delta_z] in
  let start_point := (n_rows - 1)%Z in
  if (start_point <? Z.of_nat (length deltas))%Z
  then raise ValueError
         "N size of transformation matrix is not enough for deltas"
  else
    m <- set_deltas translation_matrix start_point deltas ;;
    ok (Numpy.tolist m).

(** The first step of [__set_s3_path]: a path that does not start with
    the mount service's scheme is put under the bucket, as pathlib
    writes it. *)
Definition scheme_prefixed (mount_service bucket_path p : string) : string :=
  if negb (PyStr.startswith p (mount_service ++ "://"))
  then mount_service ++ "://" ++ bucket_path ++ "/"
         ++ PyPath.to_str (PyPath.parse p)
  else p.

(** [NgLayer.__set_s3_path]; a source that is no string has no
    [startswith]. *)
Definition __set_s3_path (self : NgLayer) (orig_source_path : pyval)
    : res string :=
  match orig_source_path with
  | PStr p =>
      let s3_path :=
        scheme_prefixed (mount_service self) (bucket_path self) p in
      if PyStr.endswith s3_path ".zarr"
      then ok ("zarr://" ++ s3_path)
      else raise NotImplementedError not_implemented_format
  | _ => raise AttributeError ""
  end.

(** One key of one tile of [__set_sources_paths]. *)
Definition set_source_key (self : NgLayer) (source : pydict)
    (new_dict : pydict) (key : string) : res pydict :=
  let is_tm := String.eqb key "transform_matrix" in
  tm <- (if is_tm then Builtins.getitem (PDict source) "transform_matrix"
         else ok PNone) ;;
  match is_tm, tm with
  | true, PDict _ =>
      dx <- Builtins.getitem tm "delta_x" ;;
      dy <- Builtins.getitem tm "delta_y" ;;
      dz <- Builtins.getitem tm "delta_z" ;;
      m <- helper_create_ng_translation_matrix dx dy dz
             default_n_cols default_n_rows ;;
      ok (PyDict.set new_dict "transform"
            (PDict [("matrix", matrix_value m);
                    ("outputDimensions", PDict (output_dimensions self))]))
  | true, PList _ =>
      ok (PyDict.set new_dict "transform"
            (PDict [("matrix", tm);
                    ("outputDimensions", PDict (output_dimensions self))]))
  | _, _ =>
      if String.eqb key "url" then
        u <- Builtins.getitem (PDict source) "url" ;;
        p <- __set_s3_path self u ;;
        ok (PyDict.set new_dict "url" (PStr p))
      else
        v <- Builtins.getitem (PDict source) key ;;
        ok (PyDict.set new_dict key v)
  end.

Fixpoint set_source_keys (self : NgLayer) (source : pydict)
    (new_dict : pydict) (keys : list string) : res pydict :=
  match keys with
  | [] => ok new_dict
  | key :: rest =>
      d <- set_source_key self source new_dict key ;;
      set_source_keys self source d rest
  end.

(** [NgLayer.__set_sources_paths]; a tile that is no dict has no
    [keys]. *)
Fixpoint __set_sources_paths (self : NgLayer) (sources_paths : list pyval)
    : res (list pyval) :=
  match sources_paths with
  | [] => ok []
  | source :: rest =>
      new_dict <- match source with
                  | PDict s => set_source_keys self s [] (PyDict.keys s)
                  | _ => raise AttributeError ""
                  end ;;
      new_source_path <- __set_sources_paths self rest ;;
      ok (PDict new_dict :: new_source_path)
  end.

(** [NgLayer.__fix_image_source] *)
Definition __fix_image_source (self : NgLayer) (source_path : pyval)
    : res pyval :=
  match source_path with
  | PList l => r <- __set_sources_paths self l ;; ok (PList r)
  | PStr _ => p <- __set_s3_path self source_path ;; ok (PStr p)
  | _ => ok PNone
  end.

(** The property setters. *)
Definition opacity_setter (self : NgLayer) (opacity : pyval) : res NgLayer :=
  x <- Builtins.py_float rt opacity ;;
  ok (set_state self "opacity" (PFloat x)).

Definition shader_setter (self : NgLayer) (shader_config : pyval) : NgLayer :=
  set_state self "shader" (PStr (Builtins.py_str rt shader_config)).

Definition shader_control_setter (self : NgLayer) (shader_control_config : pyval)
    : res NgLayer :=
  d <- Builtins.py_dict rt shader_control_config ;;
  ok (set_state self "shaderControls" (PDict d)).

Definition image_channel_setter (self : NgLayer) (channel : pyval)
    : res NgLayer :=
  c <- Builtins.py_int rt channel ;;
  ok (set_state self "localDimensions"
        (PDict [("c'", PList [PInt (c + 1); PStr ""])])).

Definition visible_setter (self : NgLayer) (visible : pyval) : NgLayer :=
  set_state self "visible" (PBool (Builtins.py_bool visible)).

(** The property getters: each reads its key of the layer state.  The
    getter of [image_channel] reads the key ["c"] of [localDimensions]. *)
Definition opacity (self : NgLayer) : res pyval :=
  Builtins.getitem (PDict (layer_state self)) "opacity".

Definition shader (self : NgLayer) : res pyval :=
  Builtins.getitem (PDict (layer_state self)) "shader".

Definition shader_control (self : NgLayer) : res pyval :=
  Builtins.getitem (PDict (layer_state self)) "shaderControls".

Definition image_channel (self : NgLayer) : res pyval :=
  ld <- Builtins.getitem (PDict (layer_state self)) "localDimensions" ;;
  Builtins.getitem ld "c".

Definition visible (self : NgLayer) : res pyval :=
  Builtins.getitem (PDict (layer_state self)) "visible".

(** The setter of the property [layer_state]; its getter is the field
    [layer_state] itself. *)
Definition layer_state_setter (self : NgLayer) (new_layer_state : pyval)
    : res NgLayer :=
  d <- Builtins.py_dict rt new_layer_state ;;
  ok (with_layer_state self d).

(** The default of [shaderControls]. *)
Definition default_shader_control : pyval :=
  PDict [("normalized", PDict [("range", PList [PInt 0; PInt 200])])].

(** The channel the default name is made of:
    [self.__layer_state["localDimensions"]["c'"][0]], the empty string
    on a [KeyError]. *)
Definition name_channel (self : NgLayer) : res pyval :=
  try_except
    (ld <- Builtins.getitem (PDict (layer_state self)) "localDimensions" ;;
     c <- Builtins.getitem ld "c'" ;;
     Builtins.getitem_int c 0)
    is_KeyError
    (ok (PStr "")).

(** [NgLayer.set_default_values] *)
Definition set_default_values (self : NgLayer) (image_config : pydict)
    (overwrite : bool) : res NgLayer :=
  if overwrite then
    self <- image_channel_setter self (PInt 0) ;;
    self <- shader_control_setter self default_shader_control ;;
    let self := visible_setter self (PBool true) in
    p <- Builtins.py_path (image_source self) ;;
    let self := set_state self "name" (PStr (PyPath.stem p)) in
    ok (set_state self "type" (PStr (image_type self)))
  else if negb (Nat.eqb (length image_config) 0) then
    self <- (if negb (PyDict.mem image_config "channel")
             then image_channel_setter self (PInt 0) else ok self) ;;
    self <- (if negb (PyDict.mem image_config "shaderControls")
             then shader_control_setter self default_shader_control
             else ok self) ;;
    let self := if negb (PyDict.mem image_config "visible")
                then visible_setter self (PBool true) else self in
    self <- (if negb (PyDict.mem image_config "name") then
               channel <- name_channel self ;;
               match image_source self with
               | PStr s =>
                   ok (set_state self "name"
                         (PStr (PyPath.stem (PyPath.parse s) ++ "_"
                                  ++ Builtins.py_str rt channel)))
               | src =>
                   tile <- Builtins.getitem_int src 0 ;;
                   url <- Builtins.getitem tile "url" ;;
                   p <- Builtins.py_path url ;;
                   ok (set_state self "name"
                         (PStr (PyPath.stem p ++ "_"
                                  ++ Builtins.py_str rt channel)))
               end
             else ok self) ;;
    ok (if negb (PyDict.mem image_config "type")
        then set_state self "type" (PStr (image_type self)) else self)
  else ok self.

(** [NgLayer.__create_shader] *)
Definition __create_shader (shader_config : pyval) : res string :=
  color <- Builtins.getitem shader_config "color" ;;
  emitter <- Builtins.getitem shader_config "emitter" ;;
  vec <- Builtins.getitem shader_config "vec" ;;
  let ui_controls :=
    [ "#uicontrol " ++ Builtins.py_str rt vec ++ " color color(default="
        ++ PyStr.dquote ++ Builtins.py_str rt color ++ PyStr.dquote ++ ")";
      "#uicontrol invlerp normalized" ] in
  let emit_color :=
    "void main() {" ++ PyStr.newline
      ++ "emit" ++ Builtins.py_str rt emitter ++ "(color * normalized());"
      ++ PyStr.newline ++ "}" in
  let shader_string :=
    fold_left (fun acc ui_control => acc ++ ui_control ++ PyStr.newline)
      ui_controls "" in
  ok (shader_string ++ emit_color).

(** The body of the loop of [update_state]: one item of the
    configuration. *)
Definition update_param (self : NgLayer) (param : string) (value : pyval)
    : res NgLayer :=
  let self := if in_list param ["type"; "name"; "blend"]
              then set_state self param (PStr (Builtins.py_str rt value))
              else self in
  let self := if in_list param ["visible"]
              then visible_setter self value else self in
  self <- (if String.eqb param "shader" then
             s <- __create_shader value ;;
             ok (shader_setter self (PStr s))
           else ok self) ;;
  self <- (if String.eqb param "channel"
           then image_channel_setter self value else ok self) ;;
  self <- (if String.eqb param "shaderControls"
           then shader_control_setter self value else ok self) ;;
  self <- (if String.eqb param "opacity"
           then opacity_setter self value else ok self) ;;
  ok (if String.eqb param "source" then
        match value with
        | PStr s => set_state self param (PStr s)
        | PList _ => set_state self param value
        | _ => self
        end
      else self).

Fixpoint update_items (self : NgLayer) (items : pydict) : res NgLayer :=
  match items with
  | [] => ok self
  | (param, value) :: rest =>
      self <- update_param self param value ;;
      update_items self rest
  end.

(** [NgLayer.update_state] *)
Definition update_state (self : NgLayer) (image_config : pydict)
    : res NgLayer :=
  self <- update_items self image_config ;;
  set_default_values self image_config false.

(** [NgLayer.__init__].  [image_config["source"] = self.image_source]
    writes into the caller's dict, which [self.image_config] aliases:
    the object holds the configuration with its source fixed. *)
Definition __init__ (image_config : pyval) (mount_service bucket_path : string)
    (image_type : string) (output_dimensions : pyval) : res NgLayer :=
  od <- helper_reverse_dictionary output_dimensions ;;
  let self := new_object image_config mount_service bucket_path image_type od in
  source <- Builtins.getitem image_config "source" ;;
  src <- __fix_image_source self source ;;
  match image_config with
  | PDict d =>
      let d := PyDict.set d "source" src in
      let self :=
        mkNgLayer [] (PDict d) mount_service bucket_path image_type od src in
      update_state self d
  | _ => raise TypeError ""
  end.

(** The call [NgLayer(...)]: an argument the caller leaves out is
    [None] here; [image_config], [mount_service] and [bucket_path] have
    no default, and a call without one of them is a [TypeError] before
    the constructor's body runs. *)
Definition NgLayer_call (image_config : option pyval)
    (mount_service bucket_path : option string) (image_type : option string)
    (output_dimensions : option pyval) : res NgLayer :=
  match image_config, mount_service, bucket_path with
  | Some cfg, Some ms, Some bp =>
      __init__ cfg ms bp
        (match image_type with Some t => t | None => "image" end)
        (match output_dimensions with Some d => d | None => PNone end)
  | _, _, _ => raise TypeError ""
  end.

End WithRuntime.
End ng_layer.

(* ===================================================================== *)
(** * ng_state.py *)
(* ===================================================================== *)

Module ng_state.

(** The object of class [NgState]; [__state], [__dimensions] and
    [__layers] are its private attributes. *)
Record NgState : Type := mkNgState {
  input_config : pyval;
  output_json : PyPath.path;
  verbose : bool;
  mount_service : string;
  bucket_path : string;
  base_url : string;
  json_name : string;
  __state : pydict;
  __dimensions : pydict;
  __layers : list pyval
}.

Definition with_state (self : NgState) (st : pydict) : NgState :=
  mkNgState (input_config self) (output_json self) (verbose self)
    (mount_service self) (bucket_path self) (base_url self) (json_name self)
    st (__dimensions self) (__layers self).

Definition with_dimensions (self : NgState) (dims : pydict) : NgState :=
  mkNgState (input_config self) (output_json self) (verbose self)
    (mount_service self) (bucket_path self) (base_url self) (json_name self)
    (__state self) dims (__layers self).

Definition with_layers (self : NgState) (ls : list pyval) : NgState :=
  mkNgState (input_config self) (output_json self) (verbose self)
    (mount_service self) (bucket_path self) (base_url self) (json_name self)
    (__state self) (__dimensions self) ls.

(** How a method ends: it returns, or it raises, and either way the
    object is left as the method had made it by then. *)
Inductive outcome (A : Type) : Type :=
  | Returned (a : A) (self : NgState)
  | Raised (e : exc) (self : NgState).
Arguments Returned {A} a self.
Arguments Raised {A} e self.

Definition method (A : Type) : Type := NgState -> outcome A.

Definition mret {A : Type} (a : A) : method A := fun self => Returned a self.

Definition mbind {A B : Type} (m : method A) (k : A -> method B) : method B :=
  fun self =>
    match m self with
    | Returned a self' => k a self'
    | Raised e self' => Raised e self'
    end.

(** A computation that does not touch the object. *)
Definition lift {A : Type} (r : res A) : method A :=
  fun self =>
    match r with
    | inr a => Returned a self
    | inl e => Raised e self
    end.

Definition get_self : method NgState := fun self => Returned self self.
Definition put_self (s : NgState) : method unit := fun _ => Returned tt s.

Notation "x <~ m ;; k" := (mbind m (fun x => k))
  (at level 61, m at next level, right associativity).

(** The object after the method, whichever way it ended. *)
Definition final {A : Type} (o : outcome A) : NgState :=
  match o with
  | Returned _ s => s
  | Raised _ s => s
  end.

Definition default_base_url : string := "https://neuroglancer-demo.appspot.com/".
Definition default_json_name : string := "process_output.json".

(** [NgState.__fix_output_json_path] *)
Definition __fix_output_json_path (output_json : string) : PyPath.path :=
  PyPath.parse
    (PyStr.replace "////" "//" (PyStr.replace "/home/jupyter/" "" output_json)).

Definition is_xyz (c : ascii) : bool :=
  let n := nat_of_ascii c in
  ((120 <=? n) && (n <=? 122) || (88 <=? n) && (n <=? 90))%nat.

(** [re.search(r"([x-zX-Z])$", axis)]: the name ends in one of the six
    letters; [$] also matches before a line feed that ends the name. *)
Definition regex_axis_search (axis : string) : bool :=
  match rev (list_ascii_of_string axis) with
  | [] => false
  | c :: before =>
      is_xyz c
      || (Ascii.eqb c PyStr.newline_char
          && match before with
             | c' :: _ => is_xyz c'
             | [] => false
             end)
  end.

(** [NgState.get_url_link] *)
Definition get_url_link (self : NgState) : string :=
  let dataset_name := PyPath.parse (PyPath.stem (output_json self)) in
  let json_path := PyPath.to_str (PyPath.joinpath dataset_name (json_name self)) in
  let json_path :=
    mount_service self ++ "://" ++ bucket_path self ++ "/" ++ json_path in
  base_url self ++ "#!" ++ json_path.

(** The getter of the property [state]: the document, built anew at
    every read. *)
Definition state (self : NgState) : pydict :=
  let actual_state := [("ng_link", PStr (get_url_link self))] in
  let dims :=
    fold_left (fun d kv => PyDict.set d (fst kv) (snd kv)) (__dimensions self) [] in
  let actual_state := PyDict.set actual_state "dimensions" (PDict dims) in
  let actual_state := PyDict.set actual_state "layers" (PList (__layers self)) in
  let actual_state := PyDict.set actual_state "showAxisLines" (PBool true) in
  let actual_state := PyDict.set actual_state "showScaleBar" (PBool true) in
  actual_state.

(** The setters of [show_axis_lines] and [show_scale_bar]. *)
Definition show_axis_lines_setter (new_show_axis_lines : pyval) : method unit :=
  fun self =>
    Returned tt
      (with_state self
         (PyDict.set (__state self) "showAxisLines"
            (PBool (Builtins.py_bool new_show_axis_lines)))).

Definition show_scale_bar_setter (new_show_scale_bar : pyval) : method unit :=
  fun self =>
    Returned tt
      (with_state self
         (PyDict.set (__state self) "showScaleBar"
            (PBool (Builtins.py_bool new_show_scale_bar)))).

(** The getters of the two flags: [self.__state[...]]. *)
Definition show_axis_lines (self : NgState) : res pyval :=
  Builtins.getitem (PDict (__state self)) "showAxisLines".

Definition show_scale_bar (self : NgState) : res pyval :=
  Builtins.getitem (PDict (__state self)) "showScaleBar".

(** [NgLayer] has no attribute [create]: reading it off an instance is
    an [AttributeError]. *)
Definition NgLayer_create (layer : ng_layer.NgLayer) (config : pydict)
    : res ng_layer.NgLayer :=
  raise AttributeError "".

Section WithRuntime.
Variable rt : PyRuntime.

(** [NgState.__unpack_axis] *)
Definition __unpack_axis (axis_values : pyval) (dest_metric : string)
    : res pyval :=
  if negb (ng_layer.in_list dest_metric ["meters"; "seconds"])
  then raise NotImplementedError (dest_metric ++ " has not been implemented")
  else
    voxel_size <- Builtins.getitem axis_values "voxel_size" ;;
    unit <- Builtins.getitem axis_values "unit" ;;
    magnitude <- pint_to rt voxel_size unit dest_metric ;;
    let neuroglancer_metric :=
      if String.eqb dest_metric "meters" then PStr "m"
      else if String.eqb dest_metric "seconds" then PStr "s"
      else PNone in
    ok (PList [magnitude; neuroglancer_metric]).

(** The body of the loop of the [dimensions] setter: the entry of one
    axis; a name of none of the three kinds is passed over. *)
Definition dimensions_axis (dims : pydict) (axis : string) (axis_values : pyval)
    : res pydict :=
  if regex_axis_search axis then
    r <- __unpack_axis axis_values "meters" ;;
    ok (PyDict.set dims axis r)
  else if String.eqb axis "t" then
    r <- __unpack_axis axis_values "seconds" ;;
    ok (PyDict.set dims axis r)
  else if String.eqb axis "c'" then
    voxel_size <- Builtins.getitem axis_values "voxel_size" ;;
    unit <- Builtins.getitem axis_values "unit" ;;
    ok (PyDict.set dims axis (PList [voxel_size; unit]))
  else ok dims.

Fixpoint dimensions_items (items : pydict) : method unit :=
  match items with
  | [] => mret tt
  | (axis, axis_values) :: rest =>
      self <~ get_self ;;
      dims <~ lift (dimensions_axis (__dimensions self) axis axis_values) ;;
      _ <~ put_self (with_dimensions self dims) ;;
      dimensions_items rest
  end.

(** The setter of the property [dimensions]. *)
Definition dimensions_setter (new_dimensions : pyval) : method unit :=
  match new_dimensions with
  | PDict d => dimensions_items d
  | _ =>
      lift (raise ValueError
              ("Dimensions accepts only dict. Received: "
                 ++ Builtins.py_str rt new_dimensions))
  end.

(** The [config] the [layers] setter prepares for one layer. *)
Definition layer_config (self : NgState) (layer : pyval) : res pydict :=
  t <- Builtins.getitem layer "type" ;;
  if Builtins.eq_str t "image" then
    layer_type <- Builtins.getitem layer "type" ;;
    ok [("image_config", layer);
        ("mount_service", PStr (mount_service self));
        ("bucket_path", PStr (bucket_path self));
        ("output_dimensions", PDict (__dimensions self));
        ("layer_type", layer_type)]
  else
    t <- Builtins.getitem layer "type" ;;
    if Builtins.eq_str t "annotation" then
      annotation_source <- Builtins.getitem layer "source" ;;
      annotation_locations <- Builtins.getitem layer "annotations" ;;
      layer_type <- Builtins.getitem layer "type" ;;
      limits <- match layer with
                | PDict d =>
                    if PyDict.mem d "limits"
                    then Builtins.getitem layer "limits" else ok PNone
                | _ => raise TypeError ""
                end ;;
      ok [("annotation_source", annotation_source);
          ("annotation_locations", annotation_locations);
          ("layer_type", layer_type);
          ("output_dimensions", PDict (__dimensions self));
          ("limits", limits)]
    else ok [].

(** The body of the loop of the [layers] setter:
    [self.__layers.append(NgLayer().create(config).layer_state)]. *)
Definition layers_append (layer : pyval) : method unit :=
  self <~ get_self ;;
  config <~ lift (layer_config self layer) ;;
  new_layer <~ lift (ng_layer.NgLayer_call rt None None None None None) ;;
  created <~ lift (NgLayer_create new_layer config) ;;
  put_self
    (with_layers self
       (__layers self ++ [PDict (ng_layer.layer_state created)])).

Fixpoint layers_items (layers : list pyval) : method unit :=
  match layers with
  | [] => mret tt
  | layer :: rest => _ <~ layers_append layer ;; layers_items rest
  end.

(** The setter of the property [layers]. *)
Definition layers_setter (layers : pyval) : method unit :=
  match layers with
  | PList l => layers_items l
  | _ =>
      lift (raise ValueError
              ("layers accepts only list. Received value: "
                 ++ Builtins.py_str rt layers))
  end.

(** The loop over the items of the input in [initialize_attributes]. *)
Fixpoint flags_items (items : pydict) : method unit :=
  match items with
  | [] => mret tt
  | (key, val) :: rest =>
      _ <~ (if String.eqb key "showAxisLines" then show_axis_lines_setter val
            else if String.eqb key "showScaleBar" then show_scale_bar_setter val
            else mret tt) ;;
      flags_items rest
  end.

(** [NgState.initialize_attributes] *)
Definition initialize_attributes (input_config : pyval) : method unit :=
  dims <~ lift (Builtins.getitem input_config "dimensions") ;;
  _ <~ dimensions_setter dims ;;
  layers <~ lift (Builtins.getitem input_config "layers") ;;
  _ <~ layers_setter layers ;;
  self <~ get_self ;;
  _ <~ put_self (with_state self (state self)) ;;
  match input_config with
  | PDict d => flags_items d
  | _ => lift (raise AttributeError "")
  end.

(** [NgState.__init__]: the outcome of the constructor, with the object
    as it stands when the constructor returns or raises. *)
Definition __init__ (input_config : pyval) (mount_service bucket_path : string)
    (output_json : string) (verbose : bool) (base_url json_name : string)
    : outcome unit :=
  let self :=
    mkNgState input_config (__fix_output_json_path output_json) verbose
      mount_service bucket_path base_url json_name [] [] [] in
  initialize_attributes input_config self.

(** [NgState.save_state_as_json]: the path and the document handed to
    the writer [utils.save_dict_as_json]. *)
Definition save_state_as_json (update_state : bool)
    : method (string * pydict) :=
  self <~ get_self ;;
  _ <~ (if update_state then put_self (with_state self (state self))
        else mret tt) ;;
  self <~ get_self ;;
  let final_path := PyPath.joinpath (output_json self) (json_name self) in
  mret (PyPath.to_str final_path, __state self).

End WithRuntime.

(** The loop of [get_points_from_xml] over the markers. *)
Fixpoint cells_to_points (cell_data : list pyval) : res (list pyval) :=
  match cell_data with
  | [] => ok []
  | cell :: rest =>
      x <- Builtins.getitem cell "MarkerX" ;;
      y <- Builtins.getitem cell "MarkerY" ;;
      z <- Builtins.getitem cell "MarkerZ" ;;
      new_cell_data <- cells_to_points rest ;;
      ok (PDict [("x", x); ("y", y); ("z", z)] :: new_cell_data)
  end.

(** [get_points_from_xml], from the document on that [xmltodict.parse]
    returns for the text of the file; reading the file and parsing it
    are the runtime's and xmltodict's. *)
Definition get_points_from_xml (xml_dict : pyval) : res (list pyval) :=
  file <- Builtins.getitem xml_dict "CellCounter_Marker_File" ;;
  data <- Builtins.getitem file "Marker_Data" ;;
  type <- Builtins.getitem data "Marker_Type" ;;
  cell_data <- Builtins.getitem type "Marker" ;;
  cells <- Builtins.py_iter cell_data ;;
  cells_to_points cells.

End ng_state.

(* ===================================================================== *)
(** * The SI factors of lengths and times *)
(* ===================================================================== *)

(** pint's registry of units is not part of the sources.  These are the
    factors of the International System for units of length and of time,
    each the double of Python's literal ([1e-06] for micro), under the
    plural names pint reads. *)
Module SI.

Definition nano : spec_float := PyNum.f64 4835703278458517 (-82).
Definition micro : spec_float := PyNum.f64 4722366482869645 (-72).
Definition milli : spec_float := PyNum.f64 4611686018427388 (-62).
Definition centi : spec_float := PyNum.f64 5764607523034235 (-59).
Definition unity : spec_float := PyNum.f64 1 0.
Definition kilo : spec_float := PyNum.f64 1000 0.

(** The factor from a unit of length to meters. *)
Definition to_meters (unit : string) : option spec_float :=
  if String.eqb unit "nanometers" then Some nano
  else if String.eqb unit "microns" then Some micro
  else if String.eqb unit "micrometers" then Some micro
  else if String.eqb unit "millimeters" then Some milli
  else if String.eqb unit "centimeters" then Some centi
  else if String.eqb unit "meters" then Some unity
  else if String.eqb unit "kilometers" then Some kilo
  else None.

(** The factor from a unit of time to seconds. *)
Definition to_seconds (unit : string) : option spec_float :=
  if String.eqb unit "nanoseconds" then Some nano
  else if String.eqb unit "microseconds" then Some micro
  else if String.eqb unit "milliseconds" then Some milli
  else if String.eqb unit "seconds" then Some unity
  else None.

(** The factor from a unit to the destination metric. *)
Definition factor (unit dest_metric : string) : option spec_float :=
  if String.eqb dest_metric "meters" then to_meters unit
  else if String.eqb dest_metric "seconds" then to_seconds unit
  else None.

End SI.

(* ===================================================================== *)
(** * A concrete runtime and the inputs of the examples *)
(* ===================================================================== *)

(** A stand-in for the runtime, to run the embedding on concrete inputs:
    pint restricted to the units of the table above, scaling by the SI
    factor in double precision; no parsing of strings into numbers. *)
Module Demo.

Definition no_repr (v : pyval) : string := "<repr>".

Definition pint (voxel_size unit : pyval) (dest_metric : string) : res pyval :=
  match unit with
  | PStr u =>
      match SI.factor u dest_metric with
      | Some f =>
          match voxel_size with
          | PFloat x => ok (PFloat (SFmul PyNum.prec64 PyNum.emax64 x f))
          | PInt z =>
              match PyNum.double_of_Z z with
              | Some x => ok (PFloat (SFmul PyNum.prec64 PyNum.emax64 x f))
              | None => raise OverflowError ""
              end
          | _ => raise TypeError ""
          end
      | None => raise (LibError "pint.errors.UndefinedUnitError") ""
      end
  | _ => raise TypeError ""
  end.

Definition runtime : PyRuntime :=
  {| pint_to := pint;
     py_repr := no_repr;
     int_of_str := fun _ => raise ValueError "";
     float_of_str := fun _ => raise ValueError "";
     dict_of_iterable := fun _ => raise TypeError "";
     np_half_other := fun _ => raise TypeError "" |}.

End Demo.

(** The input of [example_1] in ng_state.py, and the arguments it gives
    the constructor. *)
Module Example1.

Definition axis (voxel_size : spec_float) (unit : string) : pyval :=
  PDict [("voxel_size", PFloat voxel_size); ("unit", PStr unit)].

Definition layer (channel : Z) (color : string) : pyval :=
  PDict [("source", PStr "image_path.zarr");
         ("type", PStr "image");
         ("channel", PInt channel);
         ("shader", PDict [("color", PStr color); ("emitter", PStr "RGB");
                           ("vec", PStr "vec3")]);
         ("shaderControls",
          PDict [("normalized", PDict [("range", PList [PInt 0; PInt 500])])])].

Definition dimensions : pyval :=
  PDict [("z", axis (PyNum.f64 2 0) "microns");
         ("y", axis (PyNum.f64 8106479329266893 (-52)) "microns");
         ("x", axis (PyNum.f64 8106479329266893 (-52)) "microns");
         ("t", axis (PyNum.f64 4611686018427388 (-62)) "seconds")].

Definition example_data : pyval :=
  PDict [("dimensions", dimensions);
         ("layers", PList [layer 0 "green"; layer 1 "red"])].

Definition mount_service : string := "s3".
Definition bucket_path : string := "aind-msma-data".
Definition output_json : string :=
  "/Users/camilo.laiton/repositories/aind-ng-link/src".

End Example1.

(* ===================================================================== *)
(** * The vocabulary of the statements *)
(* ===================================================================== *)

Import ng_state.
Import ng_layer.

(** The smallest input the constructor accepts: no axis, no layer. *)
Definition empty_input (extra : pydict) : pyval :=
  PDict (("dimensions", PDict []) :: ("layers", PList []) :: extra).

(** The object a call of the constructor leaves, when it returns. *)
Definition built (o : outcome unit) : NgState := final o.

(** The description of one axis in the input. *)
Definition axis_spec (voxel_size unit : pyval) : pyval :=
  PDict [("voxel_size", voxel_size); ("unit", unit)].

(** The number a voxel size is: a float as it is, an int as the float
    Python makes of it in a product with a float. *)
Definition magnitude (voxel_size : pyval) : option spec_float :=
  match voxel_size with
  | PInt z => PyNum.double_of_Z z
  | PFloat x => Some x
  | _ => None
  end.

(** The product [v * f] of two Python floats. *)
Definition scaled (v f : spec_float) : spec_float :=
  SFmul PyNum.prec64 PyNum.emax64 v f.

(** The 5 by 6 translation matrix of the specification: ones on the
    diagonal, and in the last column [z] in row 2, [y] in row 3, [x] in
    row 4. *)
Definition identity_with_deltas (x y z : spec_float) : list (list spec_float) :=
  let o := S754_zero false in
  let i := PyNum.f64 1 0 in
  [[i; o; o; o; o; o];
   [o; i; o; o; o; o];
   [o; o; i; o; o; z];
   [o; o; o; i; o; y];
   [o; o; o; o; i; x]].

(** The cell in row [i] and column [j] of the translation matrix of
    [n_rows] rows and [n_cols] columns: in the last column, [x] in the
    last row, [y] in the row above it and [z] in the row above that; one
    on the diagonal and zero everywhere else. *)
Definition translation_cell (n_rows n_cols : Z) (x y z : spec_float)
    (i j : Z) : spec_float :=
  if (j =? n_cols - 1)%Z && (i =? n_rows - 3)%Z then z
  else if (j =? n_cols - 1)%Z && (i =? n_rows - 2)%Z then y
  else if (j =? n_cols - 1)%Z && (i =? n_rows - 1)%Z then x
  else if (i =? j)%Z then PyNum.f64 1 0
  else S754_zero false.

(** The translation matrix of any size, row after row. *)
Definition identity_with_translation (n_rows n_cols : Z) (x y z : spec_float)
    : list (list spec_float) :=
  map (fun i =>
         map (fun j =>
                translation_cell n_rows n_cols x y z (Z.of_nat i) (Z.of_nat j))
           (seq 0 (Z.to_nat n_cols)))
    (seq 0 (Z.to_nat n_rows)).

(** How often a character occurs in a string. *)
Fixpoint count_char (c : ascii) (s : string) : nat :=
  match s with
  | EmptyString => 0
  | String a s' => (if Ascii.eqb a c then 1 else 0) + count_char c s'
  end.

(** The colons of the strings of a list. *)
Fixpoint colons (l : list string) : nat :=
  match l with
  | [] => 0
  | s :: rest => count_char ":"%char s + colons rest
  end.

(** What a cell holds after a value was assigned to it and the array
    was listed: the value as a double, rounded to half precision. *)
Definition stored (h : spec_float) : spec_float := PyNum.double_of_half h.

Definition sf_eqb (a b : spec_float) : bool :=
  match a, b with
  | S754_zero s, S754_zero s' => Bool.eqb s s'
  | S754_infinity s, S754_infinity s' => Bool.eqb s s'
  | S754_nan, S754_nan => true
  | S754_finite s m e, S754_finite s' m' e' =>
      Bool.eqb s s' && Pos.eqb m m' && Z.eqb e e'
  | _, _ => false
  end.

(** An integer survives the round trip through half precision. *)
Definition half_exact (n : Z) : bool :=
  sf_eqb (stored (PyNum.half_of_double (PyNum.f64 n 0))) (PyNum.f64 n 0)
  && match PyNum.f64 n 0 with S754_infinity _ => false | _ => true end.

Definition not_enough_rows : string :=
  "N size of transformation matrix is not enough for deltas".

(** The entry the [image_channel] setter makes for channel [c]. *)
Definition channel_entry (c : Z) : pyval :=
  PDict [("c'", PList [PInt (c + 1); PStr ""])].

(** The layer state holds the entry of channel [c]. *)
Definition channel_is (self : NgLayer) (c : Z) : Prop :=
  PyDict.get (layer_state self) "localDimensions" = Some (channel_entry c).

(** The stem the default name starts with: of the source when it is a
    single path, of the URL of the first tile when it is a list. *)
Definition source_stem (src : pyval) : option string :=
  match src with
  | PStr s => Some (PyPath.stem (PyPath.parse s))
  | PList (PDict tile :: _) =>
      match PyDict.get tile "url" with
      | Some (PStr u) => Some (PyPath.stem (PyPath.parse u))
      | _ => None
      end
  | _ => None
  end.

(** The name of a layer that was built, if it has one. *)
Definition layer_name (r : res NgLayer) : option pyval :=
  match r with
  | inr L => PyDict.get (layer_state L) "name"
  | inl _ => None
  end.

(** The entry of the channel of a layer that was built. *)
Definition layer_channel (r : res NgLayer) : option pyval :=
  match r with
  | inr L => PyDict.get (layer_state L) "localDimensions"
  | inl _ => None
  end.

(** The first layer of [example_1], as the constructor builds it. *)
Definition example_layer_0 : NgLayer :=
  Eval vm_compute in
    match ng_layer.__init__ Demo.runtime (Example1.layer 0 "green")
            "s3" "aind-msma-data" "image" (PDict []) with
    | inr L => L
    | inl _ => new_object PNone "" "" "" []
    end.

(** An axis name the [dimensions] setter has a branch for: one that
    matches the spatial pattern, ["t"], or ["c'"]. *)
Definition recognised_axis (axis : string) : bool :=
  regex_axis_search axis || String.eqb axis "t" || String.eqb axis "c'".

(** A list of two values, as the setter stores for an axis. *)
Definition is_pair (v : pyval) : bool :=
  match v with
  | PList [_; _] => true
  | _ => false
  end.

(** An object as the constructor has it before
    [initialize_attributes] runs: nothing stored yet. *)
Definition fresh_state : NgState :=
  mkNgState PNone (PyPath.parse "") false "s3" "aind-msma-data"
    default_base_url default_json_name [] [] [].

(** The five keys of the document, in the order the getter of [state]
    enters them. *)
Definition document_keys : list string :=
  ["ng_link"; "dimensions"; "layers"; "showAxisLines"; "showScaleBar"].

(** What one item of the configuration puts into the layer state, if
    anything: the value of the item as its setter coerces it. *)
Definition stored_value (rt : PyRuntime) (param : string) (value : pyval)
    : res (option pyval) :=
  if in_list param ["type"; "name"; "blend"] then
    ok (Some (PStr (Builtins.py_str rt value)))
  else if String.eqb param "visible" then
    ok (Some (PBool (Builtins.py_bool value)))
  else if String.eqb param "shader" then
    s <- __create_shader rt value ;; ok (Some (PStr s))
  else if String.eqb param "channel" then
    c <- Builtins.py_int rt value ;; ok (Some (channel_entry c))
  else if String.eqb param "shaderControls" then
    d <- Builtins.py_dict rt value ;; ok (Some (PDict d))
  else if String.eqb param "opacity" then
    x <- Builtins.py_float rt value ;; ok (Some (PFloat x))
  else if String.eqb param "source" then
    ok (match value with
        | PStr _ | PList _ => Some value
        | _ => None
        end)
  else ok None.

(** The key of the layer state an item of the configuration goes to. *)
Definition written_key (param : string) : string :=
  if String.eqb param "channel" then "localDimensions" else param.

(** The value [set_default_values] gives a key the configuration does
    not have, for the keys other than the channel and the name. *)
Definition default_of (image_type : string) (k : string) : option pyval :=
  if String.eqb k "shaderControls" then Some default_shader_control
  else if String.eqb k "visible" then Some (PBool true)
  else if String.eqb k "type" then Some (PStr image_type)
  else None.

(** The keys a layer state can have. *)
Definition layer_keys : list string :=
  ["type"; "name"; "blend"; "visible"; "shader"; "localDimensions";
   "shaderControls"; "opacity"; "source"].

(** The layer the constructor builds of a configuration whose source
    is a number, and which has a name. *)
Definition sourceless_layer : NgLayer :=
  mkNgLayer
    [("name", PStr "no source");
     ("localDimensions", PDict [("c'", PList [PInt 1; PStr ""])]);
     ("shaderControls", default_shader_control);
     ("visible", PBool true); ("type", PStr "image")]
    (PDict [("source", PNone); ("name", PStr "no source")])
    "s3" "aind-msma-data" "image" [] PNone.

(** The value a tile gets under ["transform"]. *)
Definition transform_entry (self : NgLayer) (matrix : pyval) : pyval :=
  PDict [("matrix", matrix);
         ("outputDimensions", PDict (output_dimensions self))].

(** The item one key of a tile puts into the new tile. *)
Definition tile_entry (rt : PyRuntime) (self : NgLayer) (t : pydict)
    (key : string) : res (string * pyval) :=
  let is_tm := String.eqb key "transform_matrix" in
  tm <- (if is_tm then Builtins.getitem (PDict t) "transform_matrix"
         else ok PNone) ;;
  match is_tm, tm with
  | true, PDict _ =>
      dx <- Builtins.getitem tm "delta_x" ;;
      dy <- Builtins.getitem tm "delta_y" ;;
      dz <- Builtins.getitem tm "delta_z" ;;
      m <- helper_create_ng_translation_matrix rt dx dy dz
             default_n_cols default_n_rows ;;
      ok ("transform", transform_entry self (matrix_value m))
  | true, PList _ => ok ("transform", transform_entry self tm)
  | _, _ =>
      if String.eqb key "url" then
        u <- Builtins.getitem (PDict t) "url" ;;
        p <- __set_s3_path self u ;;
        ok ("url", PStr p)
      else
        v <- Builtins.getitem (PDict t) key ;;
        ok (key, v)
  end.

(** Whether a transform matrix is one [__set_sources_paths] converts. *)
Definition is_matrix (v : pyval) : bool :=
  match v with
  | PDict _ | PList _ => true
  | _ => false
  end.

(** A new tile as [__set_sources_paths] makes it of a tile. *)
Definition resolved_tile (rt : PyRuntime) (self : NgLayer) (t d : pydict)
    : Prop :=
  (forall k,
      k <> "url" -> k <> "transform_matrix" -> k <> "transform" ->
      PyDict.get d k = PyDict.get t k)
  /\ match PyDict.get t "url" with
     | Some u =>
         exists p, __set_s3_path self u = inr p
                   /\ PyDict.get d "url" = Some (PStr p)
     | None => PyDict.get d "url" = None
     end
  /\ (PyDict.get t "transform" = None ->
      match PyDict.get t "transform_matrix" with
      | Some (PList m) =>
          PyDict.get d "transform" = Some (transform_entry self (PList m))
          /\ PyDict.get d "transform_matrix" = None
      | Some (PDict tm) =>
          (exists dx dy dz M,
              PyDict.get tm "delta_x" = Some dx
              /\ PyDict.get tm "delta_y" = Some dy
              /\ PyDict.get tm "delta_z" = Some dz
              /\ helper_create_ng_translation_matrix rt dx dy dz
                   default_n_cols default_n_rows = inr M
              /\ PyDict.get d "transform"
                 = Some (transform_entry self (matrix_value M)))
          /\ PyDict.get d "transform_matrix" = None
      | Some v =>
          PyDict.get d "transform_matrix" = Some v
          /\ PyDict.get d "transform" = None
      | None =>
          PyDict.get d "transform" = None
          /\ PyDict.get d "transform_matrix" = None
      end).

(** Two tiles: one with a translation, one with an affine matrix and a
    key of its own. *)
Definition example_tiles : list pyval :=
  [PDict [("url", PStr "s3://aind-open-data/tile_0.zarr");
          ("transform_matrix",
           PDict [("delta_x", PInt 1); ("delta_y", PInt 2);
                  ("delta_z", PInt 3)])];
   PDict [("url", PStr "tile_1.zarr");
          ("transform_matrix", PList [PList [PInt 1; PInt 0]]);
          ("subsources", PDict [("default", PBool true)])]].

(** What [__set_sources_paths] makes of them. *)
Definition example_tiles_resolved : list pyval :=
  Eval vm_compute in
    match __set_sources_paths Demo.runtime
            (new_object PNone "s3" "aind-open-data" "image" []) example_tiles
    with
    | inr out => out
    | inl _ => []
    end.

(** A parsed marker file, by what it has under [Marker_Type]. *)
Definition marker_file_of_type (marker_type : pyval) : pyval :=
  PDict [("CellCounter_Marker_File",
          PDict [("Marker_Data", PDict [("Marker_Type", marker_type)])])].

(** A parsed marker file with one marker type, whose markers are
    [markers]. *)
Definition marker_file (markers : pyval) : pyval :=
  marker_file_of_type (PDict [("Marker", markers)]).

(** The point of a marker. *)
Definition point_of (cell point : pyval) : Prop :=
  exists x y z,
    Builtins.getitem cell "MarkerX" = inr x
    /\ Builtins.getitem cell "MarkerY" = inr y
    /\ Builtins.getitem cell "MarkerZ" = inr z
    /\ point = PDict [("x", x); ("y", y); ("z", z)].

(** The lookup of a marker that fails first, and what it raises: the
    coordinates are read in the order [MarkerX], [MarkerY], [MarkerZ]. *)
Definition fails_with (cell : pyval) (e : exc) : Prop :=
  Builtins.getitem cell "MarkerX" = inl e
  \/ (exists x,
         Builtins.getitem cell "MarkerX" = inr x
         /\ Builtins.getitem cell "MarkerY" = inl e)
  \/ (exists x y,
         Builtins.getitem cell "MarkerX" = inr x
         /\ Builtins.getitem cell "MarkerY" = inr y
         /\ Builtins.getitem cell "MarkerZ" = inl e).

(* ===================================================================== *)
(** * Properties *)
(* ===================================================================== *)

(** ** Dictionaries *)

Lemma dict_get_set_eq (d : pydict) (k : string) (v : pyval) :
  PyDict.get (PyDict.set d k v) k = Some v.
Proof.
  induction d as [|[k' v'] d IH]; cbn.
  - now rewrite String.eqb_refl.
  - destruct (String.eqb k' k) eqn:E; cbn; rewrite E; auto.
Qed.

Lemma dict_get_set_ne (d : pydict) (k k' : string) (v : pyval) :
  k <> k' -> PyDict.get (PyDict.set d k v) k' = PyDict.get d k'.
Proof.
  intros Hne. induction d as [|[k0 v0] d IH]; cbn.
  - destruct (String.eqb k k') eqn:E; auto.
    apply String.eqb_eq in E. contradiction.
  - destruct (String.eqb k0 k) eqn:E; cbn.
    + apply String.eqb_eq in E. subst k0.
      destruct (String.eqb k k') eqn:E'; auto.
      apply String.eqb_eq in E'. contradiction.
    + destruct (String.eqb k0 k'); auto.
Qed.

Lemma dict_keys_set_present (d : pydict) (k : string) (v : pyval) :
  PyDict.mem d k = true -> PyDict.keys (PyDict.set d k v) = PyDict.keys d.
Proof.
  unfold PyDict.mem. induction d as [|[k' v'] d IH]; cbn.
  - discriminate.
  - destruct (String.eqb k' k) eqn:E; cbn; auto.
    intros H. f_equal. now apply IH.
Qed.

Lemma dict_get_absent (d : pydict) (k : string) :
  ~ In k (PyDict.keys d) -> PyDict.get d k = None.
Proof.
  induction d as [|[k' v'] d IH]; cbn; auto.
  intros H. destruct (String.eqb k' k) eqn:E.
  - apply String.eqb_eq in E. tauto.
  - apply IH. tauto.
Qed.

Lemma dict_get_present (d : pydict) (k : string) (v : pyval) :
  PyDict.get d k = Some v -> In k (PyDict.keys d).
Proof.
  induction d as [|[k' v'] d IH]; cbn; try discriminate.
  destruct (String.eqb k' k) eqn:E; auto.
  apply String.eqb_eq in E. auto.
Qed.

(** ** The methods of [NgState] as state transformers *)

Lemma mbind_returned {A B : Type} (m : method A) (k : A -> method B)
    (self self' : NgState) (b : B) :
  mbind m k self = Returned b self' ->
  exists a s, m self = Returned a s /\ k a s = Returned b self'.
Proof.
  unfold mbind. destruct (m self) as [a s|e s]; [eauto | discriminate].
Qed.

Lemma lift_returned {A : Type} (r : res A) (self self' : NgState) (a : A) :
  lift r self = Returned a self' -> r = inr a /\ self' = self.
Proof.
  unfold lift. destruct r; intros H; inversion H; auto.
Qed.

(** The [dimensions] setter touches neither the layers nor the stored
    document. *)
Lemma dimensions_items_frame (rt : PyRuntime) (items : pydict) (self : NgState) :
  __layers (final (dimensions_items rt items self)) = __layers self
  /\ __state (final (dimensions_items rt items self)) = __state self.
Proof.
  revert self. induction items as [|[axis axis_values] items IH]; intros self.
  - now cbn.
  - cbn. unfold mbind, get_self, lift, put_self.
    destruct (dimensions_axis rt (__dimensions self) axis axis_values) as [e|dims].
    + now cbn.
    + cbn. destruct (IH (with_dimensions self dims)) as [Hl Hs].
      rewrite Hl, Hs. now cbn.
Qed.

Lemma dimensions_setter_frame (rt : PyRuntime) (d : pyval) (self : NgState) :
  __layers (final (dimensions_setter rt d self)) = __layers self
  /\ __state (final (dimensions_setter rt d self)) = __state self.
Proof.
  destruct d; try (now cbn). apply dimensions_items_frame.
Qed.

(** No layer gets through the body of the loop of the [layers] setter:
    it raises and leaves the object as it found it. *)
Lemma layers_append_raises (rt : PyRuntime) (layer : pyval) (self : NgState) :
  exists e, layers_append rt layer self = Raised e self.
Proof.
  unfold layers_append, mbind, get_self, lift.
  destruct (layer_config self layer) as [e|config]; cbn; eauto.
Qed.

(** When the configuration of the layer can be read, what is raised is
    the [TypeError] of the call [NgLayer()]. *)
Lemma layers_append_type_error (rt : PyRuntime) (layer : pyval) (self : NgState)
    (config : pydict) :
  layer_config self layer = inr config ->
  layers_append rt layer self = Raised (Raise TypeError "") self.
Proof.
  intros H. unfold layers_append, mbind, get_self, lift. now rewrite H.
Qed.

Lemma layers_setter_nonempty_raises (rt : PyRuntime) (layer : pyval)
    (rest : list pyval) (self : NgState) :
  exists e, layers_setter rt (PList (layer :: rest)) self = Raised e self.
Proof.
  destruct (layers_append_raises rt layer self) as [e He].
  exists e. cbn. unfold mbind. now rewrite He.
Qed.

(** C1. For every input whose [layers] is a non-empty list, the
    constructor of [NgState] raises, and the object it leaves behind
    holds no layer state: the loop of the [layers] setter calls
    [NgLayer()] without the three arguments its constructor requires,
    which is a [TypeError], and [create], which it would call next, is
    no attribute of [NgLayer]. *)
Theorem nonempty_layers_never_build (rt : PyRuntime) (input_config : pyval)
    (mount_service bucket_path output_json : string) (verbose : bool)
    (base_url json_name : string) (layer : pyval) (rest : list pyval) :
  Builtins.getitem input_config "layers" = inr (PList (layer :: rest)) ->
  (exists e self,
      ng_state.__init__ rt input_config mount_service bucket_path output_json
        verbose base_url json_name = Raised e self
      /\ __layers self = [])
  /\ ng_layer.NgLayer_call rt None None None None None = raise TypeError ""
  /\ (forall l config, NgLayer_create l config = raise AttributeError "").
Proof.
  intros Hlayers. split; [|split; reflexivity].
  unfold ng_state.__init__, initialize_attributes.
  set (self0 := mkNgState _ _ _ _ _ _ _ _ _ _).
  unfold mbind at 1. unfold lift at 1.
  destruct (Builtins.getitem input_config "dimensions") as [e|dims].
  { exists e, self0. now split. }
  unfold mbind at 1.
  pose proof (dimensions_setter_frame rt dims self0) as [Hl _].
  destruct (dimensions_setter rt dims self0) as [[] s1|e s1]; cbn in Hl.
  2:{ exists e, s1. now split. }
  unfold mbind at 1. unfold lift at 1. rewrite Hlayers.
  unfold mbind at 1.
  destruct (layers_setter_nonempty_raises rt layer rest s1) as [e He].
  rewrite He. exists e, s1. now split.
Qed.

Lemma nonempty_layers_never_build_witness :
  (exists e self,
      ng_state.__init__ Demo.runtime Example1.example_data
        Example1.mount_service Example1.bucket_path Example1.output_json
        false default_base_url default_json_name = Raised e self
      /\ __layers self = [])
  /\ ng_layer.NgLayer_call Demo.runtime None None None None None
     = raise TypeError ""
  /\ (forall l config, NgLayer_create l config = raise AttributeError "").
Proof.
  exact (nonempty_layers_never_build Demo.runtime Example1.example_data
           Example1.mount_service Example1.bucket_path Example1.output_json
           false default_base_url default_json_name
           (Example1.layer 0 "green") [Example1.layer 1 "red"] eq_refl).
Defined.

(** ** Source resolution *)

Lemma length_append (p s : string) :
  String.length (p ++ s) = String.length p + String.length s.
Proof. induction p as [|a p IH]; cbn; [reflexivity | now rewrite IH]. Qed.

Lemma append_longer (p s : string) : p <> "" -> p ++ s <> s.
Proof.
  intros Hp E. apply (f_equal String.length) in E.
  rewrite length_append in E.
  destruct p; [contradiction | cbn in E; lia].
Qed.

Lemma append_assoc (a b c : string) : (a ++ b) ++ c = a ++ b ++ c.
Proof. induction a as [|x a IH]; cbn; [reflexivity | now rewrite IH]. Qed.

Lemma prefix_append (p s : string) : String.prefix p (p ++ s) = true.
Proof.
  induction p as [|a p IH]; cbn; [now destruct s|].
  destruct (ascii_dec a a); [exact IH | contradiction].
Qed.

Lemma prefix_append_same (a p s : string) :
  String.prefix (a ++ p) (a ++ s) = String.prefix p s.
Proof.
  induction a as [|c a IH]; cbn; [reflexivity|].
  destruct (ascii_dec c c); [exact IH | contradiction].
Qed.

Lemma substring_append_skip (a s : string) (i m : nat) :
  substring (String.length a + i) m (a ++ s) = substring i m s.
Proof. induction a as [|c a IH]; cbn; [reflexivity | exact IH]. Qed.

Lemma endswith_append (a s suf : string) :
  PyStr.endswith s suf = true -> PyStr.endswith (a ++ s) suf = true.
Proof.
  unfold PyStr.endswith. intros H. apply andb_prop in H as [Hle Heq].
  apply Nat.leb_le in Hle. rewrite length_append.
  apply andb_true_intro. split; [apply Nat.leb_le; lia|].
  replace (String.length a + String.length s - String.length suf)%nat
    with (String.length a + (String.length s - String.length suf))%nat by lia.
  now rewrite substring_append_skip.
Qed.

Lemma count_char_append (c : ascii) (a b : string) :
  count_char c (a ++ b) = (count_char c a + count_char c b)%nat.
Proof. induction a as [|x a IH]; cbn; [reflexivity | rewrite IH; lia]. Qed.

(** Splitting at slashes loses no colon. *)
Lemma colons_split (s : string) :
  colons (PyStr.split PyPath.slash s) = count_char ":"%char s.
Proof.
  induction s as [|a s IH]; [reflexivity|].
  cbn [PyStr.split count_char].
  destruct (Ascii.eqb a PyPath.slash) eqn:E.
  - apply Ascii.eqb_eq in E. subst a. cbn. exact IH.
  - destruct (PyStr.split PyPath.slash s) as [|h t]; cbn in *; lia.
Qed.

(** Neither do the segments pathlib drops hold one. *)
Lemma colons_filter (l : list string) :
  colons (filter PyPath.is_component l) = colons l.
Proof.
  induction l as [|s l IH]; [reflexivity|].
  cbn [filter]. destruct (PyPath.is_component s) eqn:E;
    cbn [colons]; rewrite IH; [reflexivity|].
  unfold PyPath.is_component in E.
  apply andb_false_iff in E as [E|E]; apply negb_false_iff in E;
    apply String.eqb_eq in E; subst s; reflexivity.
Qed.

Lemma colons_join (ps : list string) :
  count_char ":"%char (PyStr.join "/" ps) = colons ps.
Proof.
  induction ps as [|p ps IH]; [reflexivity|].
  destruct ps as [|q ps]; [cbn; lia|].
  change (PyStr.join "/" (p :: q :: ps))
    with (p ++ "/" ++ PyStr.join "/" (q :: ps)).
  rewrite !count_char_append, IH. cbn. lia.
Qed.

(** A path as pathlib writes it has the colons of the string it was
    made of. *)
Lemma colons_of_path (s : string) :
  count_char ":"%char (PyPath.to_str (PyPath.parse s))
  = count_char ":"%char s.
Proof.
  rewrite <- (colons_split s), <- colons_filter, <- colons_join.
  unfold PyPath.to_str, PyPath.parse. cbn [PyPath.root PyPath.parts].
  assert (Hroot : count_char ":"%char (PyPath.root_of s) = 0%nat).
  { unfold PyPath.root_of.
    destruct (PyStr.startswith s "/"); [|reflexivity].
    destruct (PyStr.startswith s "//" && negb (PyStr.startswith s "///"));
      reflexivity. }
  destruct (PyPath.root_of s) as [|r0 r] eqn:Er.
  - destruct (filter PyPath.is_component (PyStr.split PyPath.slash s));
      reflexivity.
  - rewrite count_char_append, Hroot. reflexivity.
Qed.

(** Resolution never returns its argument. *)
Lemma resolved_differs (mount_service bucket_path url : string) :
  "zarr://" ++ scheme_prefixed mount_service bucket_path url <> url.
Proof.
  unfold scheme_prefixed.
  destruct (PyStr.startswith url (mount_service ++ "://")); cbn [negb].
  - now apply append_longer.
  - intros E. apply (f_equal (count_char ":"%char)) in E.
    rewrite !count_char_append, colons_of_path in E. cbn in E. lia.
Qed.

Lemma substring_whole (s : string) : substring 0 (String.length s) s = s.
Proof. induction s as [|a s IH]; cbn; [reflexivity | now rewrite IH]. Qed.

Lemma substring_cut (s : string) :
  forall k, (k <= String.length s)%nat ->
            s = substring 0 k s ++ substring k (String.length s - k) s.
Proof.
  induction s as [|a s IH]; intros k Hk.
  - destruct k; [reflexivity | cbn in Hk; lia].
  - destruct k as [|k].
    + rewrite Nat.sub_0_r, substring_whole. reflexivity.
    + cbn in Hk. cbn [substring String.length Nat.sub append].
      f_equal. apply IH. lia.
Qed.

(** A string that ends with a suffix is something before the suffix. *)
Lemma endswith_cut (s suf : string) :
  PyStr.endswith s suf = true -> exists a, s = a ++ suf.
Proof.
  unfold PyStr.endswith. intros H. apply andb_prop in H as [Hle Heq].
  apply Nat.leb_le in Hle. apply String.eqb_eq in Heq.
  exists (substring 0 (String.length s - String.length suf) s).
  pose proof (substring_cut s (String.length s - String.length suf)
                ltac:(lia)) as Hcut.
  replace (String.length s - (String.length s - String.length suf))%nat
    with (String.length suf) in Hcut by lia.
  now rewrite Heq in Hcut.
Qed.

(** The last segment of a string that ends in [.zarr] ends in it. *)
Lemma split_zarr (a : string) :
  exists init l,
    PyStr.split PyPath.slash (a ++ ".zarr")
    = (init ++ [(l ++ ".zarr")%string])%list.
Proof.
  induction a as [|c a (init & l & IH)].
  - exists [], "". reflexivity.
  - cbn [append PyStr.split]. rewrite IH.
    destruct (Ascii.eqb c PyPath.slash).
    + exists ("" :: init), l. reflexivity.
    + destruct init as [|h t].
      * exists [], (String c l). reflexivity.
      * exists (String c h :: t), l. reflexivity.
Qed.

Lemma join_last (sep x : string) (ps : list string) :
  exists pre, PyStr.join sep (ps ++ [x])%list = pre ++ x.
Proof.
  induction ps as [|p ps (pre & IH)].
  - exists "". reflexivity.
  - destruct ps as [|q ps].
    + exists (p ++ sep). cbn. now rewrite append_assoc.
    + change (PyStr.join sep ((p :: q :: ps) ++ [x])%list)
        with (p ++ sep ++ PyStr.join sep ((q :: ps) ++ [x])%list).
      rewrite IH. exists (p ++ sep ++ pre).
      now rewrite !append_assoc.
Qed.

Lemma long_is_component (s : string) :
  (2 <= String.length s)%nat -> PyPath.is_component s = true.
Proof.
  destruct s as [|a [|b s]]; cbn; try lia. intros _.
  unfold PyPath.is_component. cbn.
  destruct (Ascii.eqb a "."); reflexivity.
Qed.

(** pathlib keeps the ending [.zarr] of a string. *)
Lemma path_keeps_zarr (s : string) :
  PyStr.endswith s ".zarr" = true ->
  PyStr.endswith (PyPath.to_str (PyPath.parse s)) ".zarr" = true.
Proof.
  intros H. apply endswith_cut in H as [a ->].
  destruct (split_zarr a) as (init & l & Hs).
  unfold PyPath.to_str, PyPath.parse. cbn [PyPath.root PyPath.parts].
  rewrite Hs, filter_app. cbn [filter].
  rewrite long_is_component by (rewrite length_append; cbn; lia).
  destruct (join_last "/" (l ++ ".zarr") (filter PyPath.is_component init))
    as [pre Hj].
  assert (He : PyStr.endswith
                 (PyPath.root_of (a ++ ".zarr")
                    ++ PyStr.join "/"
                         (filter PyPath.is_component init
                            ++ [(l ++ ".zarr")%string])%list)
                 ".zarr" = true).
  { rewrite Hj. do 3 apply endswith_append. reflexivity. }
  destruct (PyPath.root_of (a ++ ".zarr")); [|exact He].
  destruct (filter PyPath.is_component init); exact He.
Qed.

(** A scheme-prefixed path that ends in [.zarr] is, once resolved,
    scheme-prefixed to a path that ends in [.zarr] again. *)
Lemma resolved_is_resolvable (mount_service bucket_path s : string) :
  PyStr.endswith s ".zarr" = true ->
  PyStr.endswith (scheme_prefixed mount_service bucket_path ("zarr://" ++ s))
    ".zarr" = true.
Proof.
  intros H. apply (endswith_append "zarr://") in H.
  unfold scheme_prefixed.
  destruct (PyStr.startswith ("zarr://" ++ s) (mount_service ++ "://"));
    cbn [negb]; [exact H|].
  do 4 apply endswith_append. now apply path_keeps_zarr.
Qed.

(** A string that starts with [z] starts with the scheme of a mount
    service only if the name of the service starts with [z]. *)
Lemma zarr_is_no_other_scheme (mount_service s : string) :
  PyStr.startswith mount_service "z" = false ->
  PyStr.startswith ("zarr://" ++ s) (mount_service ++ "://") = false.
Proof.
  unfold PyStr.startswith. destruct mount_service as [|c m]; [reflexivity|].
  cbn. destruct (ascii_dec "z" c) as [<-|Hne].
  - destruct m; discriminate.
  - intros _. destruct (ascii_dec c "z") as [->|]; [contradiction|reflexivity].
Qed.

(** C4, the counterexample: a URL that carries both prefixes is not
    returned unchanged; it is put under the bucket once more, as pathlib
    rewrites it, and prefixed again. *)
Lemma resolved_url_is_resolved_again :
  __set_s3_path (new_object PNone "s3" "bucket" "image" [])
    (PStr "zarr://s3://bucket/path.zarr")
  = inr "zarr://s3://bucket/zarr:/s3:/bucket/path.zarr"
  /\ "zarr://s3://bucket/zarr:/s3:/bucket/path.zarr"
     <> "zarr://s3://bucket/path.zarr".
Proof. split; [reflexivity | discriminate]. Qed.

(** C4, as amended.  Resolution is not idempotent.  It does not repeat
    the storage scheme, and it always adds the format prefix: a URL that
    starts with the mount service's scheme and ends in [.zarr] comes back
    as it is behind one more ["zarr://"].  Whatever it returns differs
    from its argument, and a URL it has returned, which carries both
    prefixes, is not recognised as resolved: resolving it again returns,
    and returns another URL.  That is the URL put under the bucket, as
    pathlib writes it, behind the scheme and ["zarr://"]; only where the
    URL itself starts with the mount service's scheme, which takes a
    service whose name starts with [z], it is the URL behind one more
    ["zarr://"]. *)
Theorem resolution_is_not_idempotent (self : NgLayer) (url : string) :
  (PyStr.startswith url (ng_layer.mount_service self ++ "://") = true ->
   PyStr.endswith url ".zarr" = true ->
   __set_s3_path self (PStr url) = inr ("zarr://" ++ url))
  /\ (forall r,
         __set_s3_path self (PStr url) = inr r ->
         r <> url
         /\ exists r',
              __set_s3_path self (PStr r) = inr r'
              /\ r' <> r
              /\ r' = (if PyStr.startswith r
                            (ng_layer.mount_service self ++ "://")
                       then "zarr://" ++ r
                       else "zarr://" ++ ng_layer.mount_service self ++ "://"
                              ++ ng_layer.bucket_path self ++ "/"
                              ++ PyPath.to_str (PyPath.parse r))
              /\ (PyStr.startswith (ng_layer.mount_service self) "z" = false ->
                  PyStr.startswith r (ng_layer.mount_service self ++ "://")
                  = false)).
Proof.
  split.
  - intros Hs He. unfold __set_s3_path, scheme_prefixed. rewrite Hs. cbn [negb].
    now rewrite He.
  - intros r. unfold __set_s3_path.
    destruct (PyStr.endswith
                (scheme_prefixed (ng_layer.mount_service self)
                   (ng_layer.bucket_path self) url) ".zarr") eqn:He;
      [|discriminate].
    intros H.
    assert (Hr : r = "zarr://"
                       ++ scheme_prefixed (ng_layer.mount_service self)
                            (ng_layer.bucket_path self) url)
      by (now inversion H).
    clear H. subst r. split; [apply resolved_differs|].
    rewrite (resolved_is_resolvable _ _ _ He).
    eexists. split; [reflexivity|]. split; [apply resolved_differs|]. split.
    + unfold scheme_prefixed at 1.
      destruct (PyStr.startswith _ (ng_layer.mount_service self ++ "://"));
        reflexivity.
    + apply zarr_is_no_other_scheme.
Qed.

(** The URL of the claim: [s3://bucket/path.zarr] resolves to
    [zarr://s3://bucket/path.zarr], and that to
    [zarr://s3://bucket/zarr:/s3:/bucket/path.zarr]. *)
Lemma resolution_is_not_idempotent_witness :
  let o := new_object PNone "s3" "bucket" "image" [] in
  __set_s3_path o (PStr "s3://bucket/path.zarr")
  = inr "zarr://s3://bucket/path.zarr"
  /\ "zarr://s3://bucket/path.zarr" <> "s3://bucket/path.zarr"
  /\ exists r',
       __set_s3_path o (PStr "zarr://s3://bucket/path.zarr") = inr r'
       /\ r' <> "zarr://s3://bucket/path.zarr"
       /\ r' = "zarr://s3://bucket/zarr:/s3:/bucket/path.zarr".
Proof.
  cbv zeta.
  pose proof (resolution_is_not_idempotent
                (new_object PNone "s3" "bucket" "image" [])
                "s3://bucket/path.zarr") as [H1 H2].
  destruct (H2 "zarr://s3://bucket/path.zarr" eq_refl)
    as (Hne & r' & Hr & Hne' & Hr' & _).
  split; [exact (H1 eq_refl eq_refl)|]. split; [exact Hne|].
  exists r'. split; [exact Hr|]. split; [exact Hne' | exact Hr'].
Defined.

(** C7. A single source path that, once put under the storage scheme,
    does not end in [.zarr] makes [__set_s3_path] raise
    [NotImplementedError]; no source comes back, and the constructor of
    the layer raises the same exception: the layer is not built. *)
Theorem unsupported_format_aborts (rt : PyRuntime) (image_config : pyval)
    (mount_service bucket_path image_type : string)
    (output_dimensions : pyval) (p : string) (reversed : pydict) :
  Builtins.getitem image_config "source" = inr (PStr p) ->
  helper_reverse_dictionary output_dimensions = inr reversed ->
  PyStr.endswith (scheme_prefixed mount_service bucket_path p) ".zarr" = false ->
  (forall self,
      ng_layer.mount_service self = mount_service ->
      ng_layer.bucket_path self = bucket_path ->
      __set_s3_path self (PStr p)
      = raise NotImplementedError not_implemented_format
      /\ __fix_image_source rt self (PStr p)
         = raise NotImplementedError not_implemented_format)
  /\ ng_layer.__init__ rt image_config mount_service bucket_path image_type
       output_dimensions
     = raise NotImplementedError not_implemented_format.
Proof.
  intros Hsrc Hod Hext.
  assert (Hpath : forall self,
             ng_layer.mount_service self = mount_service ->
             ng_layer.bucket_path self = bucket_path ->
             __set_s3_path self (PStr p)
             = raise NotImplementedError not_implemented_format).
  { intros self Hm Hb. unfold __set_s3_path. rewrite Hm, Hb.
    now rewrite Hext. }
  split.
  - intros self Hm Hb. split; [now apply Hpath|].
    unfold __fix_image_source. now rewrite (Hpath self Hm Hb).
  - unfold ng_layer.__init__. rewrite Hod. cbn [bind]. rewrite Hsrc.
    cbn [bind]. unfold __fix_image_source.
    now rewrite Hpath.
Qed.

Lemma unsupported_format_aborts_witness :
  (forall self,
      ng_layer.mount_service self = "s3" ->
      ng_layer.bucket_path self = "aind-msma-data" ->
      __set_s3_path self (PStr "image_path.tif")
      = raise NotImplementedError not_implemented_format
      /\ __fix_image_source Demo.runtime self (PStr "image_path.tif")
         = raise NotImplementedError not_implemented_format)
  /\ ng_layer.__init__ Demo.runtime
       (PDict [("source", PStr "image_path.tif"); ("type", PStr "image")])
       "s3" "aind-msma-data" "image" (PDict [])
     = raise NotImplementedError not_implemented_format.
Proof.
  exact (unsupported_format_aborts Demo.runtime
           (PDict [("source", PStr "image_path.tif"); ("type", PStr "image")])
           "s3" "aind-msma-data" "image" (PDict []) "image_path.tif" []
           eq_refl eq_refl eq_refl).
Defined.

(** ** The document and its link *)

(** The link of the example: the output directory ends in [src]. *)
Lemma url_link_of_example_1 :
  get_url_link
    (built (ng_state.__init__ Demo.runtime (empty_input [])
              "s3" "aind-msma-data" Example1.output_json false
              default_base_url default_json_name))
  = "https://neuroglancer-demo.appspot.com/#!s3://aind-msma-data/src/process_output.json".
Proof. reflexivity. Qed.

(** X10. Where the final segment of the output directory has no suffix,
    and it and the file name are plain path components, the link is the
    base URL, ["#!"], the scheme, the bucket, the segment and the file
    name. *)
Lemma url_link_without_suffix (self : NgState) (segment : string) :
  PyPath.name (output_json self) = segment ->
  PyStr.rfind "."%char segment = None ->
  PyPath.parse segment = PyPath.mkpath "" [segment] ->
  PyPath.parse (json_name self) = PyPath.mkpath "" [json_name self] ->
  get_url_link self
  = base_url self ++ "#!" ++ ng_state.mount_service self ++ "://"
      ++ ng_state.bucket_path self ++ "/" ++ segment ++ "/" ++ json_name self.
Proof.
  intros Hname Hdot Hseg Hjson.
  unfold get_url_link, PyPath.stem, PyPath.joinpath.
  rewrite Hname, Hdot, Hseg, Hjson. reflexivity.
Qed.

(** C9, at the failing input: the final segment of the output directory
    is [exp.2022]; the link names [exp], while the document is written
    under [exp.2022]. *)
Lemma url_link_drops_suffix_of_final_segment :
  let self :=
    built (ng_state.__init__ Demo.runtime (empty_input [])
             "s3" "aind-msma-data" "/results/exp.2022" false
             default_base_url default_json_name) in
  get_url_link self
  = "https://neuroglancer-demo.appspot.com/#!s3://aind-msma-data/exp/process_output.json"
  /\ save_state_as_json false self
     = Returned ("/results/exp.2022/process_output.json", __state self) self.
Proof. split; reflexivity. Qed.

(** C8, at the failing input: the constructor, given the input of
    [example_1] (two image layers, channels 0 and 1), raises the
    [TypeError] of [NgLayer()] and holds no layer. *)
Lemma example_1_document_is_not_built :
  exists self,
    ng_state.__init__ Demo.runtime Example1.example_data
      Example1.mount_service Example1.bucket_path Example1.output_json
      false default_base_url default_json_name
    = Raised (Raise TypeError "") self
    /\ __layers self = [].
Proof. eexists. split; reflexivity. Qed.

(** ** The display flags *)

Lemma flags_items_spec (items : pydict) (self : NgState) (key : string) :
  key = "showAxisLines" \/ key = "showScaleBar" ->
  PyDict.wf items ->
  exists self',
    flags_items items self = Returned tt self'
    /\ PyDict.get (__state self') key
       = match PyDict.get items key with
         | Some v => Some (PBool (Builtins.py_bool v))
         | None => PyDict.get (__state self) key
         end.
Proof.
  intros Hkey. revert self.
  induction items as [|[k v] items IH]; intros self Hwf.
  - exists self. now cbn.
  - inversion Hwf as [|? ? Hnotin Hwf']; subst.
    cbn [flags_items]. unfold mbind.
    destruct (String.eqb k "showAxisLines") eqn:Ea;
      [|destruct (String.eqb k "showScaleBar") eqn:Eb].
    + apply String.eqb_eq in Ea. subst k.
      unfold show_axis_lines_setter.
      destruct (IH (with_state self
                      (PyDict.set (__state self) "showAxisLines"
                         (PBool (Builtins.py_bool v)))) Hwf')
        as [self' [Hret Hget]].
      exists self'. split; [exact Hret|]. rewrite Hget. cbn [PyDict.get].
      destruct Hkey as [-> | ->]; cbn.
      * rewrite (dict_get_absent items _ Hnotin). apply dict_get_set_eq.
      * destruct (PyDict.get items "showScaleBar"); auto.
        now apply dict_get_set_ne.
    + apply String.eqb_eq in Eb. subst k.
      unfold show_scale_bar_setter.
      destruct (IH (with_state self
                      (PyDict.set (__state self) "showScaleBar"
                         (PBool (Builtins.py_bool v)))) Hwf')
        as [self' [Hret Hget]].
      exists self'. split; [exact Hret|]. rewrite Hget. cbn [PyDict.get].
      destruct Hkey as [-> | ->]; cbn.
      * destruct (PyDict.get items "showAxisLines"); auto.
        now apply dict_get_set_ne.
      * rewrite (dict_get_absent items _ Hnotin). apply dict_get_set_eq.
    + unfold mret.
      destruct (IH self Hwf') as [self' [Hret Hget]].
      exists self'. split; [exact Hret|]. rewrite Hget. cbn [PyDict.get].
      destruct Hkey as [-> | ->]; [rewrite Ea | rewrite Eb]; reflexivity.
Qed.

(** The getter of [state] never reads the flags of the stored document:
    the document it builds always has both set. *)
Lemma state_getter_flags (self : NgState) :
  PyDict.get (state self) "showAxisLines" = Some (PBool true)
  /\ PyDict.get (state self) "showScaleBar" = Some (PBool true).
Proof. split; reflexivity. Qed.

(** X9. In the document the constructor stores, the one
    [save_state_as_json()] hands to the writer, [showAxisLines] and
    [showScaleBar] are true when the input has no such key, and are the
    input's value when the key is there with a boolean (any other value
    is taken by its truth value). *)
Theorem flags_default_true_and_follow_input (rt : PyRuntime) (cfg : pydict)
    (mount_service bucket_path output_json : string) (verbose : bool)
    (base_url json_name : string) (self : NgState) (key : string) :
  PyDict.wf cfg ->
  ng_state.__init__ rt (PDict cfg) mount_service bucket_path output_json
    verbose base_url json_name = Returned tt self ->
  key = "showAxisLines" \/ key = "showScaleBar" ->
  (PyDict.get cfg key = None ->
   PyDict.get (__state self) key = Some (PBool true))
  /\ (forall b, PyDict.get cfg key = Some (PBool b) ->
                PyDict.get (__state self) key = Some (PBool b))
  /\ (forall v, PyDict.get cfg key = Some v ->
                PyDict.get (__state self) key
                = Some (PBool (Builtins.py_bool v)))
  /\ (exists path,
         save_state_as_json false self = Returned (path, __state self) self).
Proof.
  intros Hwf Hinit Hkey.
  unfold ng_state.__init__, initialize_attributes in Hinit.
  apply mbind_returned in Hinit as (dims & s1 & _ & Hinit).
  apply mbind_returned in Hinit as (u1 & s2 & _ & Hinit).
  apply mbind_returned in Hinit as (layers & s3 & _ & Hinit).
  apply mbind_returned in Hinit as (u2 & s4 & _ & Hinit).
  apply mbind_returned in Hinit as (s5 & s6 & Hget & Hinit).
  apply mbind_returned in Hinit as (u3 & s7 & Hput & Hinit).
  inversion Hget; subst s5 s6. inversion Hput; subst s7. clear Hget Hput.
  destruct (flags_items_spec cfg (with_state s4 (state s4)) key Hkey Hwf)
    as [self' [Hret Hflag]].
  rewrite Hret in Hinit. inversion Hinit; subst self'. clear Hinit.
  assert (Hdefault :
            PyDict.get (__state (with_state s4 (state s4))) key
            = Some (PBool true)).
  { destruct Hkey as [-> | ->]; reflexivity. }
  rewrite Hdefault in Hflag.
  repeat split.
  - intros Hnone. now rewrite Hnone in Hflag.
  - intros b Hsome. now rewrite Hsome in Hflag.
  - intros v Hsome. now rewrite Hsome in Hflag.
  - eexists. reflexivity.
Qed.

Lemma flags_default_true_and_follow_input_witness :
  let cfg := [("dimensions", PDict []); ("layers", PList []);
              ("showScaleBar", PBool false)] in
  let self :=
    built (ng_state.__init__ Demo.runtime (PDict cfg) "s3" "aind-msma-data"
             Example1.output_json false default_base_url default_json_name) in
  PyDict.get cfg "showScaleBar" = Some (PBool false)
  /\ PyDict.get (__state self) "showScaleBar" = Some (PBool false).
Proof.
  cbv zeta. split; [reflexivity|].
  refine (proj1 (proj2
    (flags_default_true_and_follow_input Demo.runtime
       [("dimensions", PDict []); ("layers", PList []);
        ("showScaleBar", PBool false)]
       "s3" "aind-msma-data" Example1.output_json false
       default_base_url default_json_name _ "showScaleBar" _ eq_refl
       (or_intror eq_refl))) false eq_refl).
  repeat constructor; cbn; intuition discriminate.
Defined.

(** C2, at the failing input: both flags are false in the input, as in
    [example_2].  The stored document has them false, but the document
    the property [state] returns has both true, and so has the one
    [save_state_as_json(update_state=True)] hands to the writer. *)
Lemma state_getter_drops_input_flags :
  let cfg := empty_input [("showScaleBar", PBool false);
                          ("showAxisLines", PBool false)] in
  let self :=
    built (ng_state.__init__ Demo.runtime cfg "s3" "aind-msma-data"
             Example1.output_json false default_base_url default_json_name) in
  (PyDict.get (__state self) "showScaleBar" = Some (PBool false)
   /\ PyDict.get (__state self) "showAxisLines" = Some (PBool false))
  /\ (PyDict.get (state self) "showScaleBar" = Some (PBool true)
      /\ PyDict.get (state self) "showAxisLines" = Some (PBool true))
  /\ exists path,
       save_state_as_json true self
       = Returned (path, state self) (with_state self (state self)).
Proof. repeat split. eexists. reflexivity. Qed.

(** ** Dimensions *)

(** The six one-letter names of the spatial pattern. *)
Lemma spatial_letters_match :
  Forall (fun axis => regex_axis_search axis = true)
    ["x"; "y"; "z"; "X"; "Y"; "Z"]
  /\ regex_axis_search "t" = false
  /\ regex_axis_search "c'" = false.
Proof. repeat constructor. Qed.

(** Which conversion an axis gets, whatever pint answers. *)
Lemma dimensions_axis_dispatch (rt : PyRuntime) (dims : pydict)
    (axis : string) (voxel_size unit : pyval) :
  (regex_axis_search axis = true ->
   dimensions_axis rt dims axis (axis_spec voxel_size unit)
   = (m <- pint_to rt voxel_size unit "meters" ;;
      ok (PyDict.set dims axis (PList [m; PStr "m"]))))
  /\ dimensions_axis rt dims "t" (axis_spec voxel_size unit)
     = (m <- pint_to rt voxel_size unit "seconds" ;;
        ok (PyDict.set dims "t" (PList [m; PStr "s"])))
  /\ dimensions_axis rt dims "c'" (axis_spec voxel_size unit)
     = ok (PyDict.set dims "c'" (PList [voxel_size; unit])).
Proof.
  repeat split.
  - intros Hre. unfold dimensions_axis. rewrite Hre. cbn.
    destruct (pint_to rt voxel_size unit "meters"); reflexivity.
  - unfold dimensions_axis.
    replace (regex_axis_search "t") with false by reflexivity. cbn.
    destruct (pint_to rt voxel_size unit "seconds"); reflexivity.
Qed.

Section PintSI.

Variable rt : PyRuntime.

(** pint converts a magnitude, an int or a float, by the SI factor, in
    double precision; the magnitude it returns is that number. *)
Hypothesis pint_scales :
  forall (voxel_size : pyval) (u dest : string) (v f : spec_float),
    magnitude voxel_size = Some v ->
    SI.factor u dest = Some f ->
    exists m, pint_to rt voxel_size (PStr u) dest = ok m
              /\ magnitude m = Some (scaled v f).


End PintSI.

Lemma demo_pint_scales :
  forall (voxel_size : pyval) (u dest : string) (v f : spec_float),
    magnitude voxel_size = Some v ->
    SI.factor u dest = Some f ->
    exists m, pint_to Demo.runtime voxel_size (PStr u) dest = ok m
              /\ magnitude m = Some (scaled v f).
Proof.
  intros voxel_size u dest v f Hv Hf. cbn. unfold Demo.pint. rewrite Hf.
  destruct voxel_size; try discriminate; cbn in Hv.
  - rewrite Hv. eexists. split; reflexivity.
  - inversion Hv. subst. eexists. split; reflexivity.
Qed.


(** ** The translation matrix *)

Lemma sf_eqb_eq (a b : spec_float) : sf_eqb a b = true -> a = b.
Proof.
  destruct a, b; cbn; try discriminate; intros H.
  - now apply Bool.eqb_prop in H; subst.
  - now apply Bool.eqb_prop in H; subst.
  - reflexivity.
  - apply andb_prop in H as [H He]. apply andb_prop in H as [Hs Hm].
    apply Bool.eqb_prop in Hs. apply Pos.eqb_eq in Hm. apply Z.eqb_eq in He.
    now subst.
Qed.

Lemma half_exact_up_to_2048_computed :
  forallb half_exact (map (fun k => Z.of_nat k - 2048)%Z (seq 0 4097)) = true.
Proof. vm_compute. reflexivity. Qed.

(** Every integer of magnitude at most 2048 is stored as itself. *)
Lemma small_integers_are_stored_exactly (rt : PyRuntime) (n : Z) :
  (-2048 <= n <= 2048)%Z ->
  exists h, Numpy.half_of_value rt (PInt n) = inr h
            /\ stored h = PyNum.f64 n 0.
Proof.
  intros Hn.
  assert (Hin : In n (map (fun k => Z.of_nat k - 2048)%Z (seq 0 4097))).
  { apply in_map_iff. exists (Z.to_nat (n + 2048)). split; [lia|].
    apply in_seq. lia. }
  pose proof half_exact_up_to_2048_computed as Hall.
  rewrite forallb_forall in Hall. specialize (Hall n Hin).
  unfold half_exact in Hall. apply andb_prop in Hall as [Heq Hfin].
  apply sf_eqb_eq in Heq.
  exists (PyNum.half_of_double (PyNum.f64 n 0)). split; [|exact Heq].
  unfold Numpy.half_of_value, PyNum.double_of_Z.
  destruct (PyNum.f64 n 0); try reflexivity. discriminate.
Qed.

(** With the default sizes the helper returns the identity with, in the
    last column, what the three cells store of the deltas. *)
Lemma translation_matrix_default_sizes (rt : PyRuntime)
    (delta_x delta_y delta_z : pyval) (hx hy hz : spec_float) :
  Numpy.half_of_value rt delta_x = inr hx ->
  Numpy.half_of_value rt delta_y = inr hy ->
  Numpy.half_of_value rt delta_z = inr hz ->
  helper_create_ng_translation_matrix rt delta_x delta_y delta_z
    default_n_cols default_n_rows
  = inr (identity_with_deltas (stored hx) (stored hy) (stored hz)).
Proof.
  intros Hx Hy Hz.
  unfold helper_create_ng_translation_matrix, set_deltas, Numpy.setitem.
  cbn. rewrite Hx. cbn. rewrite Hy. cbn. rewrite Hz. reflexivity.
Qed.

(** The deltas of the claim: (1, 2, 3). *)
Lemma translation_matrix_1_2_3 (rt : PyRuntime) :
  helper_create_ng_translation_matrix rt (PInt 1) (PInt 2) (PInt 3)
    default_n_cols default_n_rows
  = inr (identity_with_deltas (PyNum.f64 1 0) (PyNum.f64 2 0) (PyNum.f64 3 0)).
Proof. reflexivity. Qed.

(** C5, at the failing input: the deltas of the second tile of
    [example_2], (-14192, -19684.000456947142, 0).  The cell of
    [delta_y] holds -19680. *)
Lemma translation_matrix_rounds_to_half_precision :
  let delta_y := PyNum.f64 (-5410696845890370) (-38) in
  helper_create_ng_translation_matrix Demo.runtime
    (PInt (-14192)) (PFloat delta_y) (PInt 0) default_n_cols default_n_rows
  = inr (identity_with_deltas
           (PyNum.f64 (-14192) 0) (PyNum.f64 (-19680) 0) (PyNum.f64 0 0))
  /\ sf_eqb delta_y (PyNum.f64 (-19680) 0) = false.
Proof. split; reflexivity. Qed.

Lemma norm_index_in_range (i n : Z) :
  (0 <= i < n)%Z -> Builtins.norm_index i n = ok i.
Proof.
  intros H. unfold Builtins.norm_index.
  destruct (i <? 0)%Z eqn:E; [apply Z.ltb_lt in E; lia|].
  destruct (0 <=? i)%Z eqn:E1; [|apply Z.leb_gt in E1; lia].
  destruct (i <? n)%Z eqn:E2; [reflexivity | apply Z.ltb_ge in E2; lia].
Qed.

Lemma norm_index_last (n : Z) :
  (1 <= n)%Z -> Builtins.norm_index (-1) n = ok (n - 1)%Z.
Proof.
  intros H. unfold Builtins.norm_index. cbn [Z.ltb Z.compare].
  replace (-1 + n)%Z with (n - 1)%Z by lia.
  destruct (0 <=? n - 1)%Z eqn:E1; [|apply Z.leb_gt in E1; lia].
  destruct (n - 1 <? n)%Z eqn:E2; [reflexivity | apply Z.ltb_ge in E2; lia].
Qed.

(** With the default sizes the matrix of any size is the 5 by 6 matrix
    of the specification. *)
Lemma default_translation_matrix (x y z : spec_float) :
  identity_with_translation default_n_rows default_n_cols x y z
  = identity_with_deltas x y z.
Proof. reflexivity. Qed.

Lemma firstn_is_map_seq {A : Type} (w : nat) :
  forall (cs : list A) (g : nat -> A),
    (forall j, (j < w)%nat -> nth_error cs j = Some (g j)) ->
    firstn w cs = map g (seq 0 w).
Proof.
  induction w as [|w IH]; intros cs g H; [reflexivity|].
  destruct cs as [|c cs].
  - specialize (H 0%nat ltac:(lia)). discriminate.
  - cbn [firstn seq map]. f_equal.
    + specialize (H 0%nat ltac:(lia)). now inversion H.
    + rewrite <- seq_shift, map_map. apply IH.
      intros j Hj. apply (H (S j)). lia.
Qed.

Lemma chunks_is_map_seq {A : Type} (n w : nat) :
  forall (cs : list A) (f : nat -> nat -> A),
    (forall i j, (i < n)%nat -> (j < w)%nat ->
                 nth_error cs (i * w + j) = Some (f i j)) ->
    Numpy.chunks n w cs = map (fun i => map (f i) (seq 0 w)) (seq 0 n).
Proof.
  induction n as [|n IH]; intros cs f H; [reflexivity|].
  cbn [Numpy.chunks seq map]. f_equal.
  - apply firstn_is_map_seq. intros j Hj. apply (H 0%nat j); lia.
  - rewrite <- seq_shift, map_map. apply IH.
    intros i j Hi Hj. rewrite nth_error_skipn.
    replace (w + (i * w + j))%nat with (S i * w + j)%nat by lia.
    apply H; lia.
Qed.

Lemma nth_list_set {A : Type} (n : nat) (x : A) :
  forall (l : list A) (k : nat) (c : A),
    nth_error l k = Some c ->
    nth_error (Numpy.list_set n x l) k = Some (if Nat.eqb k n then x else c).
Proof.
  revert n. intros n l. revert n.
  induction l as [|y l IH]; intros n k c H.
  - destruct k; discriminate.
  - destruct n as [|n], k as [|k]; cbn in *; try assumption.
    + now inversion H.
    + now apply IH.
Qed.

Lemma nth_flat_assign (v : spec_float) (stop step : Z) :
  forall (cs : list spec_float) (i : Z) (k : nat) (c : spec_float),
    nth_error cs k = Some c ->
    nth_error (Numpy.flat_assign i stop step v cs) k
    = Some (if ((i + Z.of_nat k <? stop) && ((i + Z.of_nat k) mod step =? 0))%Z
            then v else c).
Proof.
  induction cs as [|y cs IH]; intros i k c H.
  - destruct k; discriminate.
  - destruct k as [|k]; cbn [Numpy.flat_assign nth_error] in *.
    + inversion H. subst. now rewrite Z.add_0_r.
    + rewrite (IH (i + 1)%Z k c H).
      now replace (i + 1 + Z.of_nat k)%Z with (i + Z.of_nat (S k))%Z by lia.
Qed.

Lemma nth_repeat {A : Type} (x : A) (n k : nat) :
  (k < n)%nat -> nth_error (repeat x n) k = Some x.
Proof.
  revert k. induction n as [|n IH]; intros k H; [lia|].
  destruct k; cbn; [reflexivity | apply IH; lia].
Qed.

(** A cell of the array lies on the diagonal that [fill_diagonal] fills
    when its row and its column are the same. *)
Lemma diagonal_cell (C I J : Z) :
  (0 <= I)%Z -> (0 <= J < C)%Z ->
  ((0 + (I * C + J) <? C * C)%Z && ((0 + (I * C + J)) mod (C + 1) =? 0)%Z)
  = (I =? J)%Z.
Proof.
  intros HI HJ. rewrite Z.add_0_l.
  destruct (Z.eqb_spec I J) as [->|Hne].
  - replace (J * C + J)%Z with (J * (C + 1))%Z by lia.
    rewrite Z.mod_mul by lia.
    destruct (J * (C + 1) <? C * C)%Z eqn:E; [reflexivity|].
    apply Z.ltb_ge in E. nia.
  - destruct (I * C + J <? C * C)%Z eqn:E; [|reflexivity]. cbn [andb].
    apply Z.ltb_lt in E. apply Z.eqb_neq. intros Hm.
    apply Z.mod_divide in Hm; [|lia]. destruct Hm as [q Hq].
    assert (I < C)%Z by nia.
    assert (0 <= q)%Z by nia.
    assert (q < C)%Z by nia.
    assert (I = q) by nia. subst q. nia.
Qed.

(** The flat index of a cell is that of the last cell of row [r] when
    the cell is in the last column and in that row. *)
Lemma last_column_index (C r : Z) (i j : nat) :
  (0 <= r)%Z -> (Z.of_nat j < C)%Z ->
  Nat.eqb (i * Z.to_nat C + j) (Z.to_nat (r * C + (C - 1)))
  = ((Z.of_nat j =? C - 1)%Z && (Z.of_nat i =? r)%Z).
Proof.
  intros Hr Hj.
  destruct (Nat.eqb_spec (i * Z.to_nat C + j) (Z.to_nat (r * C + (C - 1))))
    as [E|E].
  - symmetry. apply andb_true_intro.
    assert (E' : (Z.of_nat i * C + Z.of_nat j = r * C + (C - 1))%Z) by nia.
    assert (Z.of_nat i = r) by nia.
    split; [apply Z.eqb_eq; nia | now apply Z.eqb_eq].
  - symmetry. apply andb_false_iff.
    destruct (Z.eqb_spec (Z.of_nat j) (C - 1)) as [Ej|Ej]; [|now left].
    right. apply Z.eqb_neq. intros Ei. apply E. nia.
Qed.

Lemma setitem_last_column_cells (rt : PyRuntime) (a : Numpy.ndarray) (r : Z)
    (v : pyval) (h : spec_float) :
  (0 <= r < Numpy.nrows a)%Z -> (1 <= Numpy.ncols a)%Z ->
  Numpy.half_of_value rt v = inr h ->
  Numpy.setitem rt a r (-1) v
  = inr (Numpy.mkarray (Numpy.nrows a) (Numpy.ncols a)
           (Numpy.list_set
              (Z.to_nat (r * Numpy.ncols a + (Numpy.ncols a - 1))) h
              (Numpy.cells a))).
Proof.
  intros Hr Hc Hv. unfold Numpy.setitem.
  rewrite (norm_index_in_range r _ Hr). cbn [bind].
  rewrite (norm_index_last _ Hc). cbn [bind]. rewrite Hv. reflexivity.
Qed.

(** C6. With at least one column and deltas numpy can cast, the helper
    raises [ValueError] exactly when [n_rows - 1] is smaller than 3, the
    number of deltas (the error of the source from zero rows on, numpy's
    own for a negative number of rows).  Otherwise it returns the whole
    matrix of [n_rows] rows and [n_cols] columns with every delta in it:
    in the last column [delta_x] in the last row, [delta_y] in the row
    above and [delta_z] in the row above that, each as half precision
    stores it, ones on the diagonal and zeros everywhere else. *)
Theorem translation_matrix_needs_four_rows (rt : PyRuntime)
    (delta_x delta_y delta_z : pyval) (hx hy hz : spec_float)
    (n_cols n_rows : Z) :
  Numpy.half_of_value rt delta_x = inr hx ->
  Numpy.half_of_value rt delta_y = inr hy ->
  Numpy.half_of_value rt delta_z = inr hz ->
  (1 <= n_cols)%Z ->
  ((n_rows - 1 < 3)%Z ->
   helper_create_ng_translation_matrix rt delta_x delta_y delta_z n_cols n_rows
   = raise ValueError (if (n_rows <? 0)%Z then "" else not_enough_rows))
  /\ ((3 <= n_rows - 1)%Z ->
      helper_create_ng_translation_matrix rt delta_x delta_y delta_z
        n_cols n_rows
      = inr (identity_with_translation n_rows n_cols
               (stored hx) (stored hy) (stored hz))).
Proof.
  intros Hx Hy Hz Hc. unfold helper_create_ng_translation_matrix, Numpy.zeros.
  assert (Hcn : (n_cols <? 0)%Z = false) by (apply Z.ltb_ge; lia).
  rewrite Hcn, orb_false_r.
  change (Z.of_nat (length [delta_x; delta_y; delta_z])) with 3%Z.
  split; intros Hr.
  - destruct (n_rows <? 0)%Z eqn:En; [reflexivity|]. unfold ok, bind.
    destruct (n_rows - 1 <? 3)%Z eqn:E; [reflexivity|].
    apply Z.ltb_ge in E. lia.
  - destruct (n_rows <? 0)%Z eqn:En; [apply Z.ltb_lt in En; lia|].
    unfold ok at 1. cbn [bind].
    destruct (n_rows - 1 <? 3)%Z eqn:E; [apply Z.ltb_lt in E; lia|].
    cbn [set_deltas].
    rewrite (setitem_last_column_cells rt _ (n_rows - 1) delta_x hx)
      by (cbn; lia || assumption).
    cbn [bind Numpy.nrows Numpy.ncols Numpy.cells Numpy.fill_diagonal].
    rewrite (setitem_last_column_cells rt _ (n_rows - 1 - 1) delta_y hy)
      by (cbn; lia || assumption).
    cbn [bind Numpy.nrows Numpy.ncols Numpy.cells].
    rewrite (setitem_last_column_cells rt _ (n_rows - 1 - 1 - 1) delta_z hz)
      by (cbn; lia || assumption).
    cbn [bind Numpy.nrows Numpy.ncols Numpy.cells].
    unfold ok, Numpy.tolist, identity_with_translation.
    cbn [bind Numpy.nrows Numpy.ncols Numpy.cells]. f_equal.
    apply chunks_is_map_seq. intros i j Hi Hj.
    rewrite nth_error_map.
    set (k := (i * Z.to_nat n_cols + j)%nat).
    assert (Hk : (k < Z.to_nat (n_rows * n_cols))%nat) by (subst k; nia).
    pose proof (nth_repeat (S754_zero false) _ k Hk) as H0.
    apply (nth_flat_assign (PyNum.f16 1 0) (n_cols * n_cols) (n_cols + 1)
             _ 0%Z) in H0.
    apply (nth_list_set
             (Z.to_nat ((n_rows - 1) * n_cols + (n_cols - 1))) hx) in H0.
    apply (nth_list_set
             (Z.to_nat ((n_rows - 1 - 1) * n_cols + (n_cols - 1))) hy) in H0.
    apply (nth_list_set
             (Z.to_nat ((n_rows - 1 - 1 - 1) * n_cols + (n_cols - 1))) hz)
      in H0.
    rewrite H0. cbn [option_map]. f_equal.
    subst k.
    rewrite !last_column_index by lia.
    replace (Z.of_nat (i * Z.to_nat n_cols + j))
      with (Z.of_nat i * n_cols + Z.of_nat j)%Z by nia.
    rewrite diagonal_cell by lia.
    unfold translation_cell, stored.
    replace (n_rows - 1 - 1 - 1)%Z with (n_rows - 3)%Z by lia.
    replace (n_rows - 1 - 1)%Z with (n_rows - 2)%Z by lia.
    destruct ((Z.of_nat j =? n_cols - 1)%Z && (Z.of_nat i =? n_rows - 3)%Z);
      [reflexivity|].
    destruct ((Z.of_nat j =? n_cols - 1)%Z && (Z.of_nat i =? n_rows - 2)%Z);
      [reflexivity|].
    destruct ((Z.of_nat j =? n_cols - 1)%Z && (Z.of_nat i =? n_rows - 1)%Z);
      [reflexivity|].
    destruct (Z.of_nat i =? Z.of_nat j)%Z; reflexivity.
Qed.

(** Three rows are not enough; with four, the deltas (1, 2, 3) fill the
    last column from the bottom up to the second row. *)
Lemma translation_matrix_needs_four_rows_witness :
  helper_create_ng_translation_matrix Demo.runtime (PInt 1) (PInt 2) (PInt 3)
    default_n_cols 3
  = raise ValueError not_enough_rows
  /\ helper_create_ng_translation_matrix Demo.runtime
       (PInt 1) (PInt 2) (PInt 3) default_n_cols 4
     = inr (let o := S754_zero false in
            let i := PyNum.f64 1 0 in
            [[i; o; o; o; o; o];
             [o; i; o; o; o; PyNum.f64 3 0];
             [o; o; i; o; o; PyNum.f64 2 0];
             [o; o; o; i; o; PyNum.f64 1 0]]).
Proof.
  split.
  - exact (proj1 (translation_matrix_needs_four_rows Demo.runtime
                    (PInt 1) (PInt 2) (PInt 3) _ _ _ default_n_cols 3
                    eq_refl eq_refl eq_refl ltac:(unfold default_n_cols; lia))
             ltac:(lia)).
  - exact (proj2 (translation_matrix_needs_four_rows Demo.runtime
                    (PInt 1) (PInt 2) (PInt 3) _ _ _ default_n_cols 4
                    eq_refl eq_refl eq_refl ltac:(unfold default_n_cols; lia))
             ltac:(lia)).
Defined.

(** ** The state of a layer *)

Lemma set_state_other_key (self : NgLayer) (k : string) (v : pyval) :
  k <> "localDimensions" ->
  PyDict.get (layer_state (set_state self k v)) "localDimensions"
  = PyDict.get (layer_state self) "localDimensions".
Proof. intros H. cbn. now apply dict_get_set_ne. Qed.

Lemma image_channel_setter_spec (rt : PyRuntime) (self self' : NgLayer)
    (channel : pyval) :
  image_channel_setter rt self channel = inr self' ->
  exists c,
    Builtins.py_int rt channel = inr c
    /\ self' = set_state self "localDimensions" (channel_entry c).
Proof.
  unfold image_channel_setter.
  destruct (Builtins.py_int rt channel) as [e|c]; cbn; [discriminate|].
  intros H. inversion H. now exists c.
Qed.

Ltac other_key :=
  repeat split; try reflexivity;
  try (intros; apply set_state_other_key; discriminate);
  try (intros; congruence).

(** One item of the configuration: only the item [channel] touches the
    entry of the channel, and no item touches the source or the type of
    the object. *)
Lemma update_param_spec (rt : PyRuntime) (self self' : NgLayer)
    (param : string) (value : pyval) :
  update_param rt self param value = inr self' ->
  image_source self' = image_source self
  /\ image_type self' = image_type self
  /\ (param <> "channel" ->
      PyDict.get (layer_state self') "localDimensions"
      = PyDict.get (layer_state self) "localDimensions")
  /\ (param = "channel" ->
      exists c, Builtins.py_int rt value = inr c /\ channel_is self' c).
Proof.
  destruct (String.eqb_spec param "type") as [->|N1].
  { cbn. intros H; inversion H; other_key. }
  destruct (String.eqb_spec param "name") as [->|N2].
  { cbn. intros H; inversion H; other_key. }
  destruct (String.eqb_spec param "blend") as [->|N3].
  { cbn. intros H; inversion H; other_key. }
  destruct (String.eqb_spec param "visible") as [->|N4].
  { cbn. intros H; inversion H; other_key. }
  destruct (String.eqb_spec param "shader") as [->|N5].
  { unfold update_param. cbn.
    destruct (__create_shader rt value) as [e|s]; cbn; [discriminate|].
    intros H; inversion H; other_key. }
  destruct (String.eqb_spec param "channel") as [->|N6].
  { unfold update_param. cbn.
    destruct (image_channel_setter rt self value) as [e|s] eqn:E; cbn;
      [discriminate|].
    intros H; inversion H; subst s.
    apply image_channel_setter_spec in E as (c & Hc & ->).
    repeat split; try congruence.
    intros _. exists c. split; [exact Hc|]. apply dict_get_set_eq. }
  destruct (String.eqb_spec param "shaderControls") as [->|N7].
  { unfold update_param. cbn. unfold shader_control_setter.
    destruct (Builtins.py_dict rt value) as [e|d]; cbn; [discriminate|].
    intros H; inversion H; other_key. }
  destruct (String.eqb_spec param "opacity") as [->|N8].
  { unfold update_param. cbn. unfold opacity_setter.
    destruct (Builtins.py_float rt value) as [e|x]; cbn; [discriminate|].
    intros H; inversion H; other_key. }
  destruct (String.eqb_spec param "source") as [->|N9].
  { unfold update_param. cbn.
    destruct value; intros H; inversion H; other_key. }
  unfold update_param, in_list. cbn [existsb].
  pose proof N6 as Hne.
  apply String.eqb_neq in N1, N2, N3, N4, N5, N6, N7, N8, N9.
  rewrite N1, N2, N3, N4, N5, N6, N7, N8, N9. cbn.
  intros H; inversion H; other_key.
Qed.

(** The loop of [update_state]: afterwards the layer state holds the
    entry of the channel the configuration gives, if it gives one. *)
Lemma update_items_spec (rt : PyRuntime) (items : pydict) :
  PyDict.wf items ->
  forall self self',
    update_items rt self items = inr self' ->
    image_source self' = image_source self
    /\ image_type self' = image_type self
    /\ match PyDict.get items "channel" with
       | Some v => exists c, Builtins.py_int rt v = inr c /\ channel_is self' c
       | None =>
           PyDict.get (layer_state self') "localDimensions"
           = PyDict.get (layer_state self) "localDimensions"
       end.
Proof.
  induction items as [|[param value] items IH]; intros Hwf self self' Hrun.
  - cbn in Hrun. inversion Hrun. now cbn.
  - inversion Hwf as [|? ? Hnotin Hwf']; subst.
    cbn [update_items] in Hrun.
    destruct (update_param rt self param value) as [e|self1] eqn:E1;
      cbn [bind] in Hrun; [discriminate|].
    apply update_param_spec in E1 as (Hs1 & Ht1 & Hother & Hchan).
    destruct (IH Hwf' self1 self' Hrun) as (Hs & Ht & Hrest).
    split; [congruence|]. split; [congruence|].
    cbn [PyDict.get]. destruct (String.eqb_spec param "channel") as [->|Hne].
    + rewrite (dict_get_absent items _ Hnotin) in Hrest.
      destruct (Hchan eq_refl) as (c & Hc & Hentry).
      exists c. split; [exact Hc|]. unfold channel_is in *. congruence.
    + destruct (PyDict.get items "channel"); [exact Hrest|].
      rewrite Hrest. now apply Hother.
Qed.

Lemma channel_is_set_state (self : NgLayer) (k : string) (v : pyval) (c : Z) :
  k <> "localDimensions" -> channel_is self c ->
  channel_is (set_state self k v) c.
Proof.
  intros Hk Hc. unfold channel_is. now rewrite set_state_other_key.
Qed.

Lemma channel_is_set (self : NgLayer) (c : Z) :
  channel_is (set_state self "localDimensions" (channel_entry c)) c.
Proof. unfold channel_is. cbn. apply dict_get_set_eq. Qed.

(** The channel the default name reads is the stored one. *)
Lemma name_channel_spec (self : NgLayer) (c : Z) :
  channel_is self c -> name_channel self = ok (PInt (c + 1)).
Proof.
  unfold channel_is, name_channel. intros H. cbn. now rewrite H.
Qed.

Ltac keep_channel :=
  repeat (first [ apply channel_is_set
                | exact (channel_is_set _ 0%Z)
                | apply channel_is_set_state; [discriminate|]
                | assumption ]).

(** The last steps of the proof below: the branch of the default name,
    by the shape of the source. *)
Ltac default_name_by_source self Hrun :=
  unfold visible_setter in *;
  cbn [bind ok image_source set_state with_layer_state] in Hrun;
  let Esrc := fresh "Esrc" in
  let Eurl := fresh "Eurl" in
  destruct (image_source self) as [| | | |?s|[|[| | | | | |?tile] ?l]|] eqn:Esrc;
  try (cbn in Hrun; discriminate Hrun);
  try (cbn in Hrun;
       match type of Hrun with
       | context [PyDict.get ?t "url"] =>
           destruct (PyDict.get t "url") as [[| | | |?u| |]|] eqn:Eurl
       end;
       try (cbn in Hrun; discriminate Hrun));
  cbn [bind ok Builtins.py_path] in Hrun; inversion Hrun; subst;
  (split; [keep_channel|]);
  (split; [cbn [image_source set_state with_layer_state]; assumption|]);
  intros _; eexists; (split; [cbn [source_stem]; rewrite ?Eurl; reflexivity|]);
  cbn [layer_state set_state with_layer_state];
  rewrite ?dict_get_set_ne by discriminate;
  apply dict_get_set_eq.

(** [set_default_values] with [overwrite] off: the entry of the channel
    is the one the configuration gave, or that of channel 0; and where
    the configuration has no [name], the name is made of the stem of the
    source and of the stored channel. *)
Lemma set_default_values_spec (rt : PyRuntime) (self L : NgLayer)
    (cfg : pydict) (c : Z) :
  cfg <> [] ->
  match PyDict.get cfg "channel" with
  | Some _ => channel_is self c
  | None => c = 0%Z
  end ->
  set_default_values rt self cfg false = inr L ->
  channel_is L c
  /\ image_source L = image_source self
  /\ (PyDict.get cfg "name" = None ->
      exists stem,
        source_stem (image_source self) = Some stem
        /\ PyDict.get (layer_state L) "name"
           = Some (PStr (stem ++ "_" ++ PyStr.of_Z (c + 1)))).
Proof.
  intros Hne Hchan Hrun. unfold set_default_values in Hrun.
  destruct cfg as [|item cfg']; [contradiction|].
  cbn [length Nat.eqb negb] in Hrun.
  unfold PyDict.mem in Hrun.
  destruct (PyDict.get (item :: cfg') "name") eqn:Hname.
  - destruct (PyDict.get (item :: cfg') "channel");
      [|subst c];
      destruct (PyDict.get (item :: cfg') "shaderControls");
      destruct (PyDict.get (item :: cfg') "visible");
      destruct (PyDict.get (item :: cfg') "type");
      cbn in Hrun; inversion Hrun; subst;
      (split; [keep_channel|]); (split; [reflexivity|]); discriminate.
  - destruct (PyDict.get (item :: cfg') "channel");
      [|subst c];
      destruct (PyDict.get (item :: cfg') "shaderControls");
      destruct (PyDict.get (item :: cfg') "visible");
      destruct (PyDict.get (item :: cfg') "type");
      cbn [negb bind ok image_channel_setter shader_control_setter
             default_shader_control Builtins.py_int Builtins.py_dict
             visible_setter] in Hrun;
      match goal with
      | |- channel_is _ ?c0 /\ _ =>
          match type of Hrun with
          | context [name_channel ?s] =>
              assert (Hc : channel_is s c0) by keep_channel;
              rewrite (name_channel_spec _ _ Hc) in Hrun
          end
      end;
      default_name_by_source self Hrun.
Qed.

(** What the constructor of a layer goes through when it returns. *)
Lemma init_returns (rt : PyRuntime) (cfg : pydict)
    (mount_service bucket_path image_type : string)
    (output_dimensions : pyval) (L : NgLayer) :
  PyDict.wf cfg ->
  ng_layer.__init__ rt (PDict cfg) mount_service bucket_path image_type
    output_dimensions = inr L ->
  exists c,
    match PyDict.get cfg "channel" with
    | Some v => Builtins.py_int rt v = inr c
    | None => c = 0%Z
    end
    /\ channel_is L c
    /\ (exists source reversed,
           PyDict.get cfg "source" = Some source
           /\ helper_reverse_dictionary output_dimensions = inr reversed
           /\ __fix_image_source rt
                (new_object (PDict cfg) mount_service bucket_path image_type
                   reversed) source
              = inr (image_source L))
    /\ (PyDict.get cfg "name" = None ->
        exists stem,
          source_stem (image_source L) = Some stem
          /\ PyDict.get (layer_state L) "name"
             = Some (PStr (stem ++ "_" ++ PyStr.of_Z (c + 1)))).
Proof.
  intros Hwf Hrun. unfold ng_layer.__init__ in Hrun.
  destruct (helper_reverse_dictionary output_dimensions) as [e|reversed] eqn:Eod;
    cbn [bind] in Hrun; [discriminate|].
  unfold Builtins.getitem in Hrun.
  destruct (PyDict.get cfg "source") as [source|] eqn:Esource;
    cbn [bind ok] in Hrun; [|discriminate].
  destruct (__fix_image_source rt _ source) as [e|src] eqn:Efix;
    cbn [bind] in Hrun; [discriminate|].
  unfold update_state in Hrun.
  set (d := PyDict.set cfg "source" src) in *.
  destruct (update_items rt _ d) as [e|self1] eqn:Eitems;
    cbn [bind] in Hrun; [discriminate|].
  assert (Hmem : PyDict.mem cfg "source" = true)
    by (unfold PyDict.mem; now rewrite Esource).
  assert (Hwfd : PyDict.wf d)
    by (unfold PyDict.wf, d; now rewrite dict_keys_set_present).
  assert (Hchan : PyDict.get d "channel" = PyDict.get cfg "channel")
    by (apply dict_get_set_ne; discriminate).
  assert (Hname : PyDict.get d "name" = PyDict.get cfg "name")
    by (apply dict_get_set_ne; discriminate).
  assert (Hd : d <> []).
  { intros E. pose proof (dict_get_set_eq cfg "source" src) as G.
    fold d in G. rewrite E in G. discriminate. }
  apply (update_items_spec rt d Hwfd) in Eitems as (Hsrc1 & _ & Hc1).
  cbn [image_source] in Hsrc1.
  assert (Hc : exists c,
             match PyDict.get cfg "channel" with
             | Some v => Builtins.py_int rt v = inr c
             | None => c = 0%Z
             end
             /\ match PyDict.get d "channel" with
                | Some _ => channel_is self1 c
                | None => c = 0%Z
                end).
  { rewrite Hchan in *. destruct (PyDict.get cfg "channel") as [v|].
    - destruct Hc1 as (c & Hint & Hentry). now exists c.
    - now exists 0%Z. }
  destruct Hc as (c & Hint & Hentry).
  destruct (set_default_values_spec rt self1 L d c Hd Hentry Hrun)
    as (HcL & HsrcL & HnameL).
  exists c. split; [exact Hint|]. split; [exact HcL|]. split.
  - exists source, reversed. repeat split; try reflexivity.
    rewrite HsrcL, Hsrc1. exact Efix.
  - intros Hnone. rewrite HsrcL. apply HnameL. now rewrite Hname.
Qed.

(** C3, the counterexample: the first layer of [example_1] (source
    [image_path.zarr], channel 0) is named [image_path_1], not
    [image_path_0]; and so is the same layer without a channel, whose
    name the claim ends in the empty string. *)
Lemma default_name_counts_channels_from_one :
  layer_name (ng_layer.__init__ Demo.runtime (Example1.layer 0 "green")
                "s3" "aind-msma-data" "image" (PDict []))
  = Some (PStr "image_path_1")
  /\ layer_name (ng_layer.__init__ Demo.runtime
                   (PDict [("source", PStr "image_path.zarr");
                           ("type", PStr "image")])
                   "s3" "aind-msma-data" "image" (PDict []))
     = Some (PStr "image_path_1").
Proof. split; reflexivity. Qed.

(** C3, as amended.  A layer built from a configuration without [name]
    is named by the stem of its resolved source (of the URL of its first
    tile when the source is a list of tiles), an underscore, and the
    channel as the layer state stores it: the channel of the input plus
    one, and 1 when the input gives no channel.  The source of the
    object is the source of the configuration as [__fix_image_source]
    resolves it. *)
Theorem default_name_is_stem_and_stored_channel (rt : PyRuntime)
    (cfg : pydict) (mount_service bucket_path image_type : string)
    (output_dimensions : pyval) (L : NgLayer) :
  PyDict.wf cfg ->
  PyDict.get cfg "name" = None ->
  ng_layer.__init__ rt (PDict cfg) mount_service bucket_path image_type
    output_dimensions = inr L ->
  exists c stem,
    match PyDict.get cfg "channel" with
    | Some v => Builtins.py_int rt v = inr c
    | None => c = 0%Z
    end
    /\ source_stem (image_source L) = Some stem
    /\ PyDict.get (layer_state L) "name"
       = Some (PStr (stem ++ "_" ++ PyStr.of_Z (c + 1)))
    /\ exists source reversed,
         PyDict.get cfg "source" = Some source
         /\ helper_reverse_dictionary output_dimensions = inr reversed
         /\ __fix_image_source rt
              (new_object (PDict cfg) mount_service bucket_path image_type
                 reversed) source
            = inr (image_source L).
Proof.
  intros Hwf Hname Hrun.
  destruct (init_returns rt cfg _ _ _ _ L Hwf Hrun)
    as (c & Hc & _ & Hfix & Hn).
  destruct (Hn Hname) as (stem & Hstem & Hget).
  exists c, stem. repeat split; assumption.
Qed.

Lemma example_layer_wf (channel : Z) (color : string) :
  PyDict.wf [("source", PStr "image_path.zarr"); ("type", PStr "image");
             ("channel", PInt channel);
             ("shader", PDict [("color", PStr color); ("emitter", PStr "RGB");
                               ("vec", PStr "vec3")]);
             ("shaderControls",
              PDict [("normalized",
                      PDict [("range", PList [PInt 0; PInt 500])])])].
Proof. repeat constructor; cbn; intuition discriminate. Qed.

Lemma example_layer_0_built :
  ng_layer.__init__ Demo.runtime (Example1.layer 0 "green")
    "s3" "aind-msma-data" "image" (PDict []) = inr example_layer_0.
Proof. vm_compute. reflexivity. Qed.

Lemma default_name_is_stem_and_stored_channel_witness :
  exists c stem,
    Builtins.py_int Demo.runtime (PInt 0) = inr c
    /\ source_stem (image_source example_layer_0) = Some stem
    /\ PyDict.get (layer_state example_layer_0) "name"
       = Some (PStr (stem ++ "_" ++ PyStr.of_Z (c + 1)))
    /\ exists source reversed,
         Some (PStr "image_path.zarr") = Some source
         /\ helper_reverse_dictionary (PDict []) = inr reversed
         /\ __fix_image_source Demo.runtime
              (new_object (Example1.layer 0 "green") "s3" "aind-msma-data"
                 "image" reversed) source
            = inr (image_source example_layer_0).
Proof.
  exact (default_name_is_stem_and_stored_channel Demo.runtime _
           "s3" "aind-msma-data" "image" (PDict []) example_layer_0
           (example_layer_wf 0 "green") eq_refl example_layer_0_built).
Defined.

(** A layer that was built stores the channel of its configuration plus
    one, under the channel axis ["c'"]. *)
Lemma layer_stores_channel_plus_one (rt : PyRuntime) (cfg : pydict)
    (mount_service bucket_path image_type : string)
    (output_dimensions : pyval) (L : NgLayer) (c : Z) :
  PyDict.wf cfg ->
  PyDict.get cfg "channel" = Some (PInt c) ->
  ng_layer.__init__ rt (PDict cfg) mount_service bucket_path image_type
    output_dimensions = inr L ->
  PyDict.get (layer_state L) "localDimensions"
  = Some (PDict [("c'", PList [PInt (c + 1); PStr ""])]).
Proof.
  intros Hwf Hchan Hrun.
  destruct (init_returns rt cfg _ _ _ _ L Hwf Hrun) as (c' & Hc & Hentry & _).
  rewrite Hchan in Hc. cbn in Hc. inversion Hc. subst c'. exact Hentry.
Qed.

(** The two layers of [example_1], each built by a call of [NgLayer]
    with its arguments: the channels stored are 1 and 2. *)
Lemma example_1_layers_built_directly :
  layer_channel (ng_layer.NgLayer_call Demo.runtime
                   (Some (Example1.layer 0 "green")) (Some "s3")
                   (Some "aind-msma-data") None (Some (PDict [])))
  = Some (PDict [("c'", PList [PInt 1; PStr ""])])
  /\ layer_channel (ng_layer.NgLayer_call Demo.runtime
                      (Some (Example1.layer 1 "red")) (Some "s3")
                      (Some "aind-msma-data") None (Some (PDict [])))
     = Some (PDict [("c'", PList [PInt 2; PStr ""])]).
Proof. split; reflexivity. Qed.

(* ===================================================================== *)
(** * Further properties of ng_state.py *)
(* ===================================================================== *)

(** ** More on dictionaries *)

Lemma dict_set_absent (d : pydict) (k : string) (v : pyval) :
  ~ In k (PyDict.keys d) -> PyDict.set d k v = (d ++ [(k, v)])%list.
Proof.
  induction d as [|[k' v'] d IH]; cbn; intros H; [reflexivity|].
  destruct (String.eqb_spec k' k) as [->|Hne]; [tauto|].
  f_equal. apply IH. tauto.
Qed.

Lemma dict_mem_in (d : pydict) (k : string) :
  PyDict.mem d k = true <-> In k (PyDict.keys d).
Proof.
  unfold PyDict.mem. split.
  - destruct (PyDict.get d k) eqn:G; [|discriminate].
    intros _. eapply dict_get_present; eauto.
  - intros Hin. destruct (PyDict.get d k) eqn:G; [reflexivity|].
    exfalso. induction d as [|[k' v'] d IH]; cbn in *; [tauto|].
    destruct (String.eqb_spec k' k); [discriminate|].
    destruct Hin; [contradiction|]. now apply IH.
Qed.

Lemma dict_keys_set (d : pydict) (k : string) (v : pyval) :
  PyDict.keys (PyDict.set d k v)
  = if PyDict.mem d k then PyDict.keys d else (PyDict.keys d ++ [k])%list.
Proof.
  destruct (PyDict.mem d k) eqn:E.
  - now apply dict_keys_set_present.
  - rewrite dict_set_absent.
    + unfold PyDict.keys. now rewrite map_app.
    + intros Hin. apply dict_mem_in in Hin. congruence.
Qed.

Lemma dict_set_wf (d : pydict) (k : string) (v : pyval) :
  PyDict.wf d -> PyDict.wf (PyDict.set d k v).
Proof.
  unfold PyDict.wf. intros H. rewrite dict_keys_set.
  destruct (PyDict.mem d k) eqn:E; [exact H|].
  apply NoDup_app; [exact H | repeat constructor; tauto |].
  intros x Hx [<-|[]]. apply dict_mem_in in Hx. congruence.
Qed.

Lemma dict_mem_set (d : pydict) (k k' : string) (v : pyval) :
  PyDict.mem d k' = true -> PyDict.mem (PyDict.set d k v) k' = true.
Proof.
  unfold PyDict.mem. destruct (String.eqb_spec k k') as [->|Hne].
  - now rewrite dict_get_set_eq.
  - now rewrite dict_get_set_ne.
Qed.

Lemma dict_set_all (P : string * pyval -> Prop) (d : pydict) (k : string)
    (v : pyval) :
  (forall k', P (k', v)) -> Forall P d -> Forall P (PyDict.set d k v).
Proof.
  intros Hv. induction d as [|[k' v'] d IH]; cbn; intros H.
  - constructor; [apply Hv | constructor].
  - inversion H; subst. destruct (String.eqb k' k); constructor; auto.
Qed.

(** Entering the items of a dict, one by one, into a dict none of whose
    keys they have: the items come after, in their order. *)
Lemma dict_fill (d acc : pydict) :
  PyDict.wf d ->
  (forall k, In k (PyDict.keys d) -> ~ In k (PyDict.keys acc)) ->
  fold_left (fun a kv => PyDict.set a (fst kv) (snd kv)) d acc = (acc ++ d)%list.
Proof.
  revert acc. induction d as [|[k v] d IH]; intros acc Hwf Hdis; cbn.
  - now rewrite app_nil_r.
  - inversion Hwf as [|? ? Hnotin Hwf']; subst.
    rewrite dict_set_absent by (apply Hdis; now left).
    rewrite IH; [now rewrite <- app_assoc | exact Hwf' |].
    intros k' Hin. unfold PyDict.keys. rewrite map_app, in_app_iff. cbn.
    intros [H|[H|[]]].
    + apply (Hdis k'); [now right | exact H].
    + subst. contradiction.
Qed.

(** ** The [layers] setter *)

Lemma layers_setter_returned (rt : PyRuntime) (layers : pyval)
    (self self' : NgState) :
  layers_setter rt layers self = Returned tt self' ->
  layers = PList [] /\ self' = self.
Proof.
  destruct layers as [| | | | |[|layer rest]|]; cbn; try discriminate.
  - intros H. now inversion H.
  - destruct (layers_setter_nonempty_raises rt layer rest self) as [e He].
    cbn in He. rewrite He. discriminate.
Qed.

(** X1. The [layers] setter returns for the empty list only.  A value
    that is no list is refused with the [ValueError] of the source, whose
    message ends in the value; a non-empty list raises too; and in every
    case the object is left as it was. *)
Theorem layers_setter_returns_only_for_the_empty_list (rt : PyRuntime)
    (layers : pyval) (self : NgState) :
  match layers with
  | PList [] => layers_setter rt layers self = Returned tt self
  | PList (_ :: _) => exists e, layers_setter rt layers self = Raised e self
  | _ =>
      layers_setter rt layers self
      = Raised (Raise ValueError
                  ("layers accepts only list. Received value: "
                     ++ Builtins.py_str rt layers)) self
  end.
Proof.
  destruct layers as [| | | | |[|layer rest]|]; try reflexivity.
  apply layers_setter_nonempty_raises.
Qed.

(** ** The [dimensions] setter *)

Lemma unpack_axis_pair (rt : PyRuntime) (axis_values r : pyval)
    (dest_metric : string) :
  __unpack_axis rt axis_values dest_metric = inr r -> is_pair r = true.
Proof.
  unfold __unpack_axis.
  destruct (negb _); [discriminate|].
  destruct (Builtins.getitem axis_values "voxel_size"); [discriminate|].
  cbn [bind].
  destruct (Builtins.getitem axis_values "unit"); [discriminate|].
  cbn [bind].
  destruct (pint_to rt _ _ _); [discriminate|]. cbn [bind].
  intros H. inversion H. reflexivity.
Qed.

Lemma dimensions_axis_returns (rt : PyRuntime) (dims dims' : pydict)
    (axis : string) (axis_values : pyval) :
  dimensions_axis rt dims axis axis_values = inr dims' ->
  if recognised_axis axis
  then exists p, is_pair p = true /\ dims' = PyDict.set dims axis p
  else dims' = dims.
Proof.
  unfold dimensions_axis, recognised_axis.
  destruct (regex_axis_search axis); cbn [orb].
  { destruct (__unpack_axis rt axis_values "meters") as [e|r] eqn:E;
      [discriminate|].
    cbn [bind]. intros H. inversion H. exists r. split; [|reflexivity].
    eapply unpack_axis_pair; eauto. }
  destruct (String.eqb axis "t"); cbn [orb].
  { destruct (__unpack_axis rt axis_values "seconds") as [e|r] eqn:E;
      [discriminate|].
    cbn [bind]. intros H. inversion H. exists r. split; [|reflexivity].
    eapply unpack_axis_pair; eauto. }
  destruct (String.eqb axis "c'").
  { destruct (Builtins.getitem axis_values "voxel_size"); [discriminate|].
    cbn [bind].
    destruct (Builtins.getitem axis_values "unit"); [discriminate|].
    cbn [bind]. intros H. inversion H. eexists. split; [|reflexivity].
    reflexivity. }
  intros H. now inversion H.
Qed.

Lemma dimensions_items_returns (rt : PyRuntime) (items : pydict) :
  forall self self',
    dimensions_items rt items self = Returned tt self' ->
    (Forall (fun kv => is_pair (snd kv) = true) (__dimensions self) ->
     Forall (fun kv => is_pair (snd kv) = true) (__dimensions self'))
    /\ (PyDict.wf items ->
        (forall k, In k (PyDict.keys items) ->
                   ~ In k (PyDict.keys (__dimensions self))) ->
        PyDict.keys (__dimensions self')
        = (PyDict.keys (__dimensions self)
             ++ filter recognised_axis (PyDict.keys items))%list).
Proof.
  induction items as [|[axis axis_values] items IH]; intros self self' Hrun.
  - cbn in Hrun. inversion Hrun. subst. split; [auto|].
    intros _ _. cbn. now rewrite app_nil_r.
  - cbn [dimensions_items] in Hrun. unfold mbind, get_self, lift in Hrun.
    destruct (dimensions_axis rt (__dimensions self) axis axis_values)
      as [e|dims] eqn:E; [discriminate|].
    cbn [put_self] in Hrun.
    apply dimensions_axis_returns in E.
    destruct (IH _ _ Hrun) as [Hpairs Hkeys].
    cbn [__dimensions with_dimensions] in *.
    split.
    + intros Hall. apply Hpairs.
      destruct (recognised_axis axis); [|now subst].
      destruct E as (p & Hp & ->). apply dict_set_all; auto.
    + intros Hwf Hdis. inversion Hwf as [|? ? Hnotin Hwf']; subst.
      assert (Hfresh : ~ In axis (PyDict.keys (__dimensions self)))
        by (apply Hdis; now left).
      cbn [PyDict.keys map fst filter].
      fold (PyDict.keys items).
      destruct (recognised_axis axis).
      * destruct E as (p & Hp & ->).
        rewrite Hkeys; [| exact Hwf' |].
        -- rewrite dict_keys_set.
           destruct (PyDict.mem (__dimensions self) axis) eqn:M;
             [apply dict_mem_in in M; contradiction|].
           now rewrite <- app_assoc.
        -- intros k Hin. rewrite dict_keys_set.
           destruct (PyDict.mem (__dimensions self) axis) eqn:M;
             [apply dict_mem_in in M; contradiction|].
           rewrite in_app_iff. intros [H|[H|[]]].
           ++ apply (Hdis k); [now right | exact H].
           ++ subst. contradiction.
      * subst dims. apply Hkeys; [exact Hwf'|].
        intros k Hin. apply Hdis. now right.
Qed.

(** X2. When the [dimensions] setter returns on an object that holds no
    axis yet, its argument was a dict; every axis it stored is a pair
    (two-element list); and the axes stored are those of the argument
    whose name the setter recognises (spatial pattern, ["t"], ["c'"]), in
    the order of the argument: any other name is dropped without an
    error. *)
Theorem dimensions_setter_keeps_order_and_pairs (rt : PyRuntime)
    (new_dimensions : pyval) (self self' : NgState) :
  __dimensions self = [] ->
  dimensions_setter rt new_dimensions self = Returned tt self' ->
  exists d,
    new_dimensions = PDict d
    /\ Forall (fun kv => is_pair (snd kv) = true) (__dimensions self')
    /\ (PyDict.wf d ->
        PyDict.keys (__dimensions self')
        = filter recognised_axis (PyDict.keys d)).
Proof.
  intros Hfresh Hrun.
  destruct new_dimensions as [| | | | | |d]; try discriminate Hrun.
  exists d. split; [reflexivity|].
  cbn [dimensions_setter] in Hrun.
  destruct (dimensions_items_returns rt d self self' Hrun) as [Hpairs Hkeys].
  rewrite Hfresh in *. split; [apply Hpairs; constructor|].
  intros Hwf. rewrite Hkeys; auto.
Qed.

Lemma example_1_dimensions_set :
  dimensions_setter Demo.runtime Example1.dimensions fresh_state
  = Returned tt
      (final (dimensions_setter Demo.runtime Example1.dimensions fresh_state)).
Proof. vm_compute. reflexivity. Qed.

Lemma dimensions_setter_keeps_order_and_pairs_witness :
  exists d,
    Example1.dimensions = PDict d
    /\ Forall (fun kv => is_pair (snd kv) = true)
         (__dimensions
            (final (dimensions_setter Demo.runtime Example1.dimensions
                      fresh_state)))
    /\ (PyDict.wf d ->
        PyDict.keys
          (__dimensions
             (final (dimensions_setter Demo.runtime Example1.dimensions
                       fresh_state)))
        = filter recognised_axis (PyDict.keys d)).
Proof.
  exact (dimensions_setter_keeps_order_and_pairs Demo.runtime
           Example1.dimensions fresh_state _ eq_refl
           example_1_dimensions_set).
Defined.

(** X3. An axis the setter recognises must come with both
    ["voxel_size"] and ["unit"]: when its description is a dict that
    lacks one of them, the entry of the axis raises [KeyError], before
    pint is asked.  An axis it does not recognise is passed over,
    whatever its description is, and the axes stored stay as they
    were. *)
Theorem dimensions_axis_missing_key (rt : PyRuntime) (dims d : pydict)
    (axis : string) (other : pyval) :
  (recognised_axis axis = true ->
   PyDict.get d "voxel_size" = None \/ PyDict.get d "unit" = None ->
   dimensions_axis rt dims axis (PDict d) = raise KeyError "")
  /\ (recognised_axis axis = false ->
      dimensions_axis rt dims axis other = ok dims).
Proof.
  unfold recognised_axis, dimensions_axis, __unpack_axis, Builtins.getitem.
  split.
  - intros Hrec Hmiss.
    destruct (regex_axis_search axis);
      [|destruct (String.eqb axis "t"); [|cbn in Hrec; rewrite Hrec]];
      cbn;
      (destruct (PyDict.get d "voxel_size"); [|reflexivity]); cbn;
      (destruct (PyDict.get d "unit"); [|reflexivity]);
      destruct Hmiss; discriminate.
  - intros Hrec.
    destruct (regex_axis_search axis); [discriminate|].
    destruct (String.eqb axis "t"); [discriminate|].
    cbn in Hrec. now rewrite Hrec.
Qed.

Lemma dimensions_axis_missing_key_witness :
  dimensions_axis Demo.runtime [] "x" (PDict [("voxel_size", PInt 2)])
  = raise KeyError ""
  /\ dimensions_axis Demo.runtime [] "c" (PStr "anything") = ok [].
Proof.
  split.
  - exact (proj1 (dimensions_axis_missing_key Demo.runtime []
                    [("voxel_size", PInt 2)] "x" PNone)
             eq_refl (or_intror eq_refl)).
  - exact (proj2 (dimensions_axis_missing_key Demo.runtime [] [] "c"
                    (PStr "anything")) eq_refl).
Defined.

Lemma dimensions_items_raised (rt : PyRuntime) (items : pydict) :
  forall self e self',
    dimensions_items rt items self = Raised e self' ->
    exists before axis axis_values after,
      items = (before ++ (axis, axis_values) :: after)%list
      /\ dimensions_items rt before self = Returned tt self'
      /\ dimensions_axis rt (__dimensions self') axis axis_values = inl e.
Proof.
  induction items as [|[axis axis_values] items IH]; intros self e self' Hrun.
  - discriminate Hrun.
  - cbn [dimensions_items] in Hrun. unfold mbind, get_self, lift in Hrun.
    destruct (dimensions_axis rt (__dimensions self) axis axis_values)
      as [e0|dims] eqn:E.
    + inversion Hrun; subst. exists [], axis, axis_values, items.
      repeat split. exact E.
    + cbn [put_self] in Hrun.
      destruct (IH _ _ _ Hrun) as (before & a & av & after & -> & Hb & He).
      exists ((axis, axis_values) :: before), a, av, after.
      split; [reflexivity|]. split; [|exact He].
      cbn [dimensions_items]. unfold mbind, get_self, lift.
      now rewrite E.
Qed.

(** X4. The [dimensions] setter is not all-or-nothing.  When it raises
    on a dict, the error is that of one axis, and the object keeps what
    the axes before that one had entered: it is the object the setter
    would have left, had it been given only those. *)
Theorem dimensions_setter_keeps_axes_before_the_failing_one
    (rt : PyRuntime) (d : pydict) (self self' : NgState) (e : exc) :
  dimensions_setter rt (PDict d) self = Raised e self' ->
  exists before axis axis_values after,
    d = (before ++ (axis, axis_values) :: after)%list
    /\ dimensions_setter rt (PDict before) self = Returned tt self'
    /\ dimensions_axis rt (__dimensions self') axis axis_values = inl e.
Proof. apply dimensions_items_raised. Qed.

Lemma two_axes_second_fails :
  dimensions_setter Demo.runtime
    (PDict [("z", Example1.axis (PyNum.f64 2 0) "microns");
            ("y", PDict [("voxel_size", PInt 2)])]) fresh_state
  = Raised (Raise KeyError "")
      (final (dimensions_setter Demo.runtime
                (PDict [("z", Example1.axis (PyNum.f64 2 0) "microns")])
                fresh_state)).
Proof. vm_compute. reflexivity. Qed.

Lemma dimensions_setter_keeps_axes_before_the_failing_one_witness :
  exists before axis axis_values after,
    [("z", Example1.axis (PyNum.f64 2 0) "microns");
     ("y", PDict [("voxel_size", PInt 2)])]
    = (before ++ (axis, axis_values) :: after)%list
    /\ dimensions_setter Demo.runtime (PDict before) fresh_state
       = Returned tt
           (final (dimensions_setter Demo.runtime
                     (PDict [("z", Example1.axis (PyNum.f64 2 0) "microns")])
                     fresh_state))
    /\ dimensions_axis Demo.runtime
         (__dimensions
            (final (dimensions_setter Demo.runtime
                      (PDict [("z", Example1.axis (PyNum.f64 2 0) "microns")])
                      fresh_state)))
         axis axis_values
       = inl (Raise KeyError "").
Proof.
  exact (dimensions_setter_keeps_axes_before_the_failing_one Demo.runtime
           _ fresh_state _ _ two_axes_second_fails).
Defined.

(** ** The flags and the document *)

(** X5. Each of the two flag setters stores the truth value of its
    argument, and the getter of the same flag reads it back; the other
    flag, the axes and the layers are as before. *)
Theorem flag_setters_round_trip (v : pyval) (self : NgState) :
  let a := final (show_axis_lines_setter v self) in
  let b := final (show_scale_bar_setter v self) in
  (show_axis_lines a = ok (PBool (Builtins.py_bool v))
   /\ show_scale_bar a = show_scale_bar self
   /\ __dimensions a = __dimensions self /\ __layers a = __layers self)
  /\ (show_scale_bar b = ok (PBool (Builtins.py_bool v))
      /\ show_axis_lines b = show_axis_lines self
      /\ __dimensions b = __dimensions self /\ __layers b = __layers self).
Proof.
  cbn. unfold show_axis_lines, show_scale_bar, Builtins.getitem. cbn.
  rewrite !dict_get_set_eq.
  rewrite !dict_get_set_ne by discriminate. repeat split.
Qed.

Lemma state_dimensions (self : NgState) :
  PyDict.wf (__dimensions self) ->
  PyDict.get (state self) "dimensions" = Some (PDict (__dimensions self)).
Proof.
  intros Hwf. cbn.
  now rewrite (dict_fill (__dimensions self) [] Hwf) by (intros ? ? []).
Qed.

(** X6. The document the getter of [state] builds has five keys, in
    the order [ng_link], [dimensions], [layers], [showAxisLines],
    [showScaleBar]; [ng_link] is the link of [get_url_link], [layers]
    the list of layers and [dimensions] the axes the object holds; and
    it does not depend on the document the object has stored. *)
Theorem state_document_shape (self : NgState) (doc : pydict) :
  PyDict.keys (state self) = document_keys
  /\ PyDict.get (state self) "ng_link" = Some (PStr (get_url_link self))
  /\ PyDict.get (state self) "layers" = Some (PList (__layers self))
  /\ (PyDict.wf (__dimensions self) ->
      PyDict.get (state self) "dimensions"
      = Some (PDict (__dimensions self)))
  /\ state (with_state self doc) = state self.
Proof.
  repeat split. apply state_dimensions.
Qed.

Lemma state_document_shape_witness :
  let self :=
    final (dimensions_setter Demo.runtime Example1.dimensions fresh_state) in
  PyDict.get (state self) "dimensions" = Some (PDict (__dimensions self)).
Proof.
  cbv zeta.
  refine (proj1 (proj2 (proj2 (proj2
            (state_document_shape
               (final (dimensions_setter Demo.runtime Example1.dimensions
                         fresh_state)) [])))) _).
  vm_compute. repeat constructor; cbn; intuition discriminate.
Defined.

(** X7. Saving after a flag was set: [save_state_as_json()] hands the
    writer the stored document, with the flag as it was set, and leaves
    the object alone; [save_state_as_json(update_state=True)] replaces
    the stored document by a new one, in which the flag is true again
    whatever was set, and the getter of the flag reads true from then
    on. *)
Theorem refresh_forgets_the_flags (rt : PyRuntime) (v : pyval)
    (self : NgState) :
  let path :=
    PyPath.to_str (PyPath.joinpath (output_json self) (json_name self)) in
  let set := final (show_axis_lines_setter v self) in
  (exists doc,
      (_ <~ show_axis_lines_setter v ;; save_state_as_json false) self
      = Returned (path, doc) set
      /\ PyDict.get doc "showAxisLines" = Some (PBool (Builtins.py_bool v)))
  /\ (exists doc self',
         (_ <~ show_axis_lines_setter v ;; save_state_as_json true) self
         = Returned (path, doc) self'
         /\ PyDict.get doc "showAxisLines" = Some (PBool true)
         /\ show_axis_lines self' = ok (PBool true)).
Proof.
  cbn. split.
  - eexists. split; [reflexivity|]. apply dict_get_set_eq.
  - eexists. eexists. split; [reflexivity|]. split; reflexivity.
Qed.

(** ** What the constructor returns *)

Lemma flags_items_frame (items : pydict) :
  forall self,
  exists self',
    flags_items items self = Returned tt self'
    /\ __dimensions self' = __dimensions self
    /\ __layers self' = __layers self
    /\ get_url_link self' = get_url_link self
    /\ (forall k, k <> "showAxisLines" -> k <> "showScaleBar" ->
                  PyDict.get (__state self') k = PyDict.get (__state self) k)
    /\ (PyDict.mem (__state self) "showAxisLines" = true ->
        PyDict.mem (__state self) "showScaleBar" = true ->
        PyDict.keys (__state self') = PyDict.keys (__state self)).
Proof.
  induction items as [|[key val] items IH]; intros self.
  - exists self. cbn. repeat split; auto.
  - cbn [flags_items]. unfold mbind.
    destruct (String.eqb key "showAxisLines");
      [|destruct (String.eqb key "showScaleBar")];
      cbn [show_axis_lines_setter show_scale_bar_setter mret];
      match goal with
      | |- context [flags_items items ?s] =>
          destruct (IH s) as (self' & Hrun & Hd & Hl & Hu & Hget & Hkeys)
      end;
      exists self'; (split; [exact Hrun|]);
      cbn [__dimensions __layers __state with_state] in *;
      (split; [exact Hd|]); (split; [exact Hl|]); (split; [exact Hu|]);
      split.
    + intros k Ha Hb. rewrite Hget by assumption.
      apply dict_get_set_ne. congruence.
    + intros Ma Mb. rewrite Hkeys by (now apply dict_mem_set).
      now apply dict_keys_set_present.
    + intros k Ha Hb. rewrite Hget by assumption.
      apply dict_get_set_ne. congruence.
    + intros Ma Mb. rewrite Hkeys by (now apply dict_mem_set).
      now apply dict_keys_set_present.
    + exact Hget.
    + exact Hkeys.
Qed.

Lemma dimensions_items_keeps (rt : PyRuntime) (items : pydict) :
  forall self,
    get_url_link (final (dimensions_items rt items self)) = get_url_link self
    /\ (PyDict.wf (__dimensions self) ->
        PyDict.wf (__dimensions (final (dimensions_items rt items self)))).
Proof.
  induction items as [|[axis axis_values] items IH]; intros self.
  - now cbn.
  - cbn [dimensions_items]. unfold mbind, get_self, lift.
    destruct (dimensions_axis rt (__dimensions self) axis axis_values)
      as [e|dims] eqn:E; [now cbn|].
    cbn [put_self]. destruct (IH (with_dimensions self dims)) as [Hu Hwf].
    split; [now rewrite Hu|].
    intros H. apply Hwf. cbn.
    apply dimensions_axis_returns in E.
    destruct (recognised_axis axis); [|now subst].
    destruct E as (p & _ & ->). now apply dict_set_wf.
Qed.

(** X8. Whenever the constructor of [NgState] returns, the input's
    [layers] was the empty list and the object holds no layer; the
    document it has stored has exactly the five keys of the document, its
    [layers] is empty, its [dimensions] are the axes the object holds and
    its [ng_link] is the link [get_url_link] gives. *)
Theorem a_built_state_has_no_layers (rt : PyRuntime) (input_config : pyval)
    (mount_service bucket_path output_json : string) (verbose : bool)
    (base_url json_name : string) (self : NgState) :
  ng_state.__init__ rt input_config mount_service bucket_path output_json
    verbose base_url json_name = Returned tt self ->
  Builtins.getitem input_config "layers" = inr (PList [])
  /\ __layers self = []
  /\ PyDict.get (__state self) "layers" = Some (PList [])
  /\ PyDict.get (__state self) "dimensions" = Some (PDict (__dimensions self))
  /\ PyDict.get (__state self) "ng_link" = Some (PStr (get_url_link self))
  /\ PyDict.keys (__state self) = document_keys.
Proof.
  intros Hinit.
  unfold ng_state.__init__, initialize_attributes in Hinit.
  set (self0 := mkNgState _ _ _ _ _ _ _ _ _ _) in Hinit.
  apply mbind_returned in Hinit as (dims & s1 & Hd & Hinit).
  apply lift_returned in Hd as [Hd ->].
  apply mbind_returned in Hinit as ([] & s2 & Hdims & Hinit).
  apply mbind_returned in Hinit as (layers & s3 & Hl & Hinit).
  apply lift_returned in Hl as [Hl ->].
  apply mbind_returned in Hinit as ([] & s4 & Hlayers & Hinit).
  apply layers_setter_returned in Hlayers as [-> ->].
  apply mbind_returned in Hinit as (s5 & s6 & Hget & Hinit).
  apply mbind_returned in Hinit as (u3 & s7 & Hput & Hinit).
  inversion Hget; subst s5 s6. inversion Hput; subst s7. clear Hget Hput.
  assert (Hs2 : __layers s2 = [] /\ PyDict.wf (__dimensions s2)).
  { destruct (dimensions_setter_frame rt dims self0) as [Hlay _].
    rewrite Hdims in Hlay. cbn in Hlay. split; [exact Hlay|].
    destruct dims; try discriminate Hdims. cbn in Hdims.
    destruct (dimensions_items_keeps rt d self0) as [_ Hwf].
    rewrite Hdims in Hwf. apply Hwf. constructor. }
  destruct Hs2 as [Hlay Hwf].
  destruct input_config as [| | | | | |cfg]; try discriminate Hd.
  destruct (flags_items_frame cfg (with_state s2 (state s2)))
    as (self' & Hrun & Hdim' & Hlay' & Hurl & Hget & Hkeys).
  rewrite Hrun in Hinit. inversion Hinit; subst self'. clear Hinit.
  cbn [__dimensions __layers __state with_state] in *.
  split; [exact Hl|]. split; [congruence|].
  split; [rewrite Hget by discriminate; cbn; now rewrite Hlay|].
  split; [rewrite Hget by discriminate; rewrite Hdim';
          now apply state_dimensions|].
  split; [rewrite Hget by discriminate; now rewrite Hurl|].
  now rewrite Hkeys by reflexivity.
Qed.

Lemma empty_input_is_built :
  ng_state.__init__ Demo.runtime (empty_input [("showScaleBar", PBool false)])
    "s3" "aind-msma-data" Example1.output_json false
    default_base_url default_json_name
  = Returned tt
      (built (ng_state.__init__ Demo.runtime
                (empty_input [("showScaleBar", PBool false)])
                "s3" "aind-msma-data" Example1.output_json false
                default_base_url default_json_name)).
Proof. vm_compute. reflexivity. Qed.

Lemma a_built_state_has_no_layers_witness :
  let self :=
    built (ng_state.__init__ Demo.runtime
             (empty_input [("showScaleBar", PBool false)])
             "s3" "aind-msma-data" Example1.output_json false
             default_base_url default_json_name) in
  Builtins.getitem (empty_input [("showScaleBar", PBool false)]) "layers"
  = inr (PList [])
  /\ __layers self = []
  /\ PyDict.get (__state self) "layers" = Some (PList [])
  /\ PyDict.get (__state self) "dimensions" = Some (PDict (__dimensions self))
  /\ PyDict.get (__state self) "ng_link" = Some (PStr (get_url_link self))
  /\ PyDict.keys (__state self) = document_keys.
Proof.
  exact (a_built_state_has_no_layers Demo.runtime _ _ _ _ _ _ _ _
           empty_input_is_built).
Defined.

Lemma url_link_without_suffix_witness :
  get_url_link
    (built (ng_state.__init__ Demo.runtime (empty_input [])
              "s3" "aind-msma-data" "/results/dataset_1" false
              default_base_url "link.json"))
  = default_base_url ++ "#!" ++ "s3" ++ "://" ++ "aind-msma-data" ++ "/"
      ++ "dataset_1" ++ "/" ++ "link.json".
Proof.
  exact (url_link_without_suffix
           (built (ng_state.__init__ Demo.runtime (empty_input [])
                     "s3" "aind-msma-data" "/results/dataset_1" false
                     default_base_url "link.json"))
           "dataset_1" eq_refl eq_refl eq_refl eq_refl).
Defined.

(* ===================================================================== *)
(** * Further properties of ng_layer.py *)
(* ===================================================================== *)

(** ** The loop of [update_state] *)
Lemma update_param_dispatch (rt : PyRuntime) (self : NgLayer)
    (param : string) (value : pyval) :
  update_param rt self param value
  = (o <- stored_value rt param value ;;
     ok (match o with
         | Some v => set_state self (written_key param) v
         | None => self
         end)).
Proof.
  unfold stored_value, written_key.
  destruct (String.eqb_spec param "type") as [->|N1]; [reflexivity|].
  destruct (String.eqb_spec param "name") as [->|N2]; [reflexivity|].
  destruct (String.eqb_spec param "blend") as [->|N3]; [reflexivity|].
  destruct (String.eqb_spec param "visible") as [->|N4]; [reflexivity|].
  destruct (String.eqb_spec param "shader") as [->|N5].
  { unfold update_param. cbn.
    destruct (__create_shader rt value); reflexivity. }
  destruct (String.eqb_spec param "channel") as [->|N6].
  { unfold update_param. cbn. unfold image_channel_setter.
    destruct (Builtins.py_int rt value); reflexivity. }
  destruct (String.eqb_spec param "shaderControls") as [->|N7].
  { unfold update_param. cbn. unfold shader_control_setter.
    destruct (Builtins.py_dict rt value); reflexivity. }
  destruct (String.eqb_spec param "opacity") as [->|N8].
  { unfold update_param. cbn. unfold opacity_setter.
    destruct (Builtins.py_float rt value); reflexivity. }
  destruct (String.eqb_spec param "source") as [->|N9].
  { unfold update_param. cbn. destruct value; reflexivity. }
  unfold update_param, in_list. cbn [existsb].
  apply String.eqb_neq in N1, N2, N3, N4, N5, N6, N7, N8, N9.
  rewrite N1, N2, N3, N4. cbn [orb]. rewrite N5, N6, N7, N8, N9. reflexivity.
Qed.

Lemma written_key_other (param k : string) :
  k <> "channel" -> k <> "localDimensions" -> param <> k ->
  written_key param <> k.
Proof.
  unfold written_key. intros H1 H2 H3.
  destruct (String.eqb param "channel"); congruence.
Qed.

Lemma with_layer_state_same (self : NgLayer) :
  with_layer_state self (layer_state self) = self.
Proof. now destruct self. Qed.

(** The loop of [update_state], key by key. *)
Lemma update_items_get (rt : PyRuntime) (k : string) (items : pydict) :
  k <> "channel" -> k <> "localDimensions" ->
  PyDict.wf items ->
  forall self self',
    update_items rt self items = inr self' ->
    match PyDict.get items k with
    | Some value =>
        exists o,
          stored_value rt k value = inr o
          /\ PyDict.get (layer_state self') k
             = match o with
               | Some v => Some v
               | None => PyDict.get (layer_state self) k
               end
    | None =>
        PyDict.get (layer_state self') k = PyDict.get (layer_state self) k
    end.
Proof.
  intros Hk1 Hk2.
  induction items as [|[param value] items IH]; intros Hwf self self' Hrun.
  - cbn in Hrun. inversion Hrun. now cbn.
  - inversion Hwf as [|? ? Hnotin Hwf']; subst.
    cbn [update_items] in Hrun. rewrite update_param_dispatch in Hrun.
    destruct (stored_value rt param value) as [e|o] eqn:Eo;
      cbn [bind ok] in Hrun; [discriminate|].
    pose proof (IH Hwf' _ _ Hrun) as Hrest.
    cbn [PyDict.get]. destruct (String.eqb_spec param k) as [->|Hne].
    + rewrite (dict_get_absent items _ Hnotin) in Hrest.
      exists o. split; [exact Eo|]. rewrite Hrest.
      destruct o; [|reflexivity].
      unfold written_key.
      destruct (String.eqb_spec k "channel"); [contradiction|].
      cbn. apply dict_get_set_eq.
    + assert (Hstep :
                PyDict.get
                  (layer_state
                     match o with
                     | Some v => set_state self (written_key param) v
                     | None => self
                     end) k
                = PyDict.get (layer_state self) k).
      { destruct o; [|reflexivity]. cbn.
        apply dict_get_set_ne. now apply written_key_other. }
      destruct (PyDict.get items k).
      * destruct Hrest as (o' & Ho' & Hget). exists o'. split; [exact Ho'|].
        rewrite Hget. now destruct o'.
      * now rewrite Hrest.
Qed.

(** The loop changes the layer state and nothing else of the object. *)
Lemma update_items_frame (rt : PyRuntime) (items : pydict) :
  forall self self',
    update_items rt self items = inr self' ->
    exists ls, self' = with_layer_state self ls.
Proof.
  induction items as [|[param value] items IH]; intros self self' Hrun.
  - cbn in Hrun. inversion Hrun. exists (layer_state self').
    now rewrite with_layer_state_same.
  - cbn [update_items] in Hrun. rewrite update_param_dispatch in Hrun.
    destruct (stored_value rt param value) as [e|o];
      cbn [bind ok] in Hrun; [discriminate|].
    destruct (IH _ _ Hrun) as (ls & ->).
    exists ls. now destruct o.
Qed.

(** An item its setter refuses stops the loop. *)
Lemma update_items_refused (rt : PyRuntime) (items : pydict) (param : string)
    (value : pyval) (e : exc) :
  In (param, value) items ->
  stored_value rt param value = inl e ->
  forall self, exists e', update_items rt self items = inl e'.
Proof.
  intros Hin Hbad.
  induction items as [|[p v] items IH]; intros self; [contradiction|].
  cbn [update_items]. rewrite update_param_dispatch.
  destruct Hin as [Heq|Hin].
  - inversion Heq; subst. rewrite Hbad. cbn. eauto.
  - destruct (stored_value rt p v) as [e0|o]; cbn [bind ok]; [eauto|].
    now apply IH.
Qed.

(** ** The defaults *)

Lemma default_name_step (rt : PyRuntime) (s r : NgLayer) :
  (channel <- name_channel s ;;
   match image_source s with
   | PStr p =>
       ok (set_state s "name"
             (PStr (PyPath.stem (PyPath.parse p) ++ "_"
                      ++ Builtins.py_str rt channel)))
   | src =>
       tile <- Builtins.getitem_int src 0 ;;
       url <- Builtins.getitem tile "url" ;;
       p <- Builtins.py_path url ;;
       ok (set_state s "name"
             (PStr (PyPath.stem p ++ "_" ++ Builtins.py_str rt channel)))
   end) = inr r ->
  (exists n, r = set_state s "name" (PStr n))
  /\ exists stem, source_stem (image_source s) = Some stem.
Proof.
  destruct (name_channel s) as [e|channel]; [discriminate|]. cbn [bind].
  destruct (image_source s) as [| | | |p|[|[| | | | | |tile] l]|d];
    try discriminate.
  - intros H; inversion H. split; eexists; reflexivity.
  - cbn. destruct (PyDict.get tile "url") as [[| | | |u| |]|];
      try discriminate.
    intros H; inversion H. split; eexists; reflexivity.
Qed.

(** [set_default_values] without [overwrite], as the steps it takes. *)
Lemma set_default_values_steps (rt : PyRuntime) (self L : NgLayer)
    (cfg : pydict) :
  cfg <> [] ->
  set_default_values rt self cfg false = inr L ->
  let s1 := if PyDict.mem cfg "channel" then self
            else set_state self "localDimensions" (channel_entry 0) in
  let s2 := if PyDict.mem cfg "shaderControls" then s1
            else set_state s1 "shaderControls" default_shader_control in
  let s3 := if PyDict.mem cfg "visible" then s2
            else set_state s2 "visible" (PBool true) in
  exists s4,
    (if PyDict.mem cfg "name" then s4 = s3
     else (exists n, s4 = set_state s3 "name" (PStr n))
          /\ exists stem, source_stem (image_source self) = Some stem)
    /\ L = if PyDict.mem cfg "type" then s4
           else set_state s4 "type" (PStr (image_type self)).
Proof.
  intros Hne Hrun. unfold set_default_values in Hrun.
  destruct cfg as [|item cfg']; [contradiction|].
  cbn [length Nat.eqb negb] in Hrun.
  destruct (PyDict.mem (item :: cfg') "channel");
    destruct (PyDict.mem (item :: cfg') "shaderControls");
    destruct (PyDict.mem (item :: cfg') "visible");
    cbn [negb image_channel_setter shader_control_setter visible_setter
           default_shader_control Builtins.py_int Builtins.py_dict
           bind ok] in Hrun;
    cbv zeta;
    (destruct (PyDict.mem (item :: cfg') "name"); cbn [negb bind ok] in Hrun;
     [ idtac
     | match type of Hrun with
       | bind ?m _ = _ =>
           let E := fresh "E" in
           destruct m as [e|s4] eqn:E; [discriminate Hrun|];
           apply default_name_step in E; cbn [bind] in Hrun
       end ]);
    destruct (PyDict.mem (item :: cfg') "type"); cbn [negb] in Hrun;
    inversion Hrun; subst; clear Hrun;
    eexists; (split; [first [reflexivity | eassumption]|]);
    try reflexivity;
    match goal with
    | E : (exists _, _ = _) /\ _ |- _ => destruct E as [[? ->] _]; reflexivity
    end.
Qed.

Ltac dict_simpl :=
  cbn [layer_state set_state with_layer_state image_type image_source];
  repeat first [ rewrite dict_get_set_eq
               | rewrite dict_get_set_ne by (discriminate || congruence) ].

Lemma set_default_values_frame (rt : PyRuntime) (self L : NgLayer)
    (cfg : pydict) :
  set_default_values rt self cfg false = inr L ->
  exists ls, L = with_layer_state self ls.
Proof.
  intros Hrun. destruct cfg as [|item cfg'].
  { cbn in Hrun. inversion Hrun. exists (layer_state L).
    now rewrite with_layer_state_same. }
  destruct (set_default_values_steps rt self L (item :: cfg')
              ltac:(discriminate) Hrun) as (s4 & Hs4 & ->).
  destruct (PyDict.mem (item :: cfg') "channel");
    destruct (PyDict.mem (item :: cfg') "shaderControls");
    destruct (PyDict.mem (item :: cfg') "visible");
    (destruct (PyDict.mem (item :: cfg') "name");
     [subst s4 | destruct Hs4 as ((n & ->) & _)]);
    destruct (PyDict.mem (item :: cfg') "type");
    try (eexists; reflexivity);
    exists (layer_state self); now rewrite with_layer_state_same.
Qed.

(** What [set_default_values] leaves under a key other than that of the
    channel: its default where it has one and the configuration does not
    have the key, what was there otherwise. *)
Lemma set_default_values_get (rt : PyRuntime) (self L : NgLayer)
    (cfg : pydict) (k : string) :
  cfg <> [] ->
  k <> "localDimensions" ->
  (k = "name" -> PyDict.mem cfg "name" = true) ->
  set_default_values rt self cfg false = inr L ->
  PyDict.get (layer_state L) k
  = match default_of (image_type self) k with
    | Some v =>
        if PyDict.mem cfg k then PyDict.get (layer_state self) k else Some v
    | None => PyDict.get (layer_state self) k
    end.
Proof.
  intros Hne Hk Hname Hrun.
  destruct (set_default_values_steps rt self L cfg Hne Hrun)
    as (s4 & Hs4 & ->).
  unfold default_of.
  destruct (String.eqb_spec k "shaderControls") as [->|N1];
    [|destruct (String.eqb_spec k "visible") as [->|N2];
      [|destruct (String.eqb_spec k "type") as [->|N3]]];
    destruct (PyDict.mem cfg "channel");
    destruct (PyDict.mem cfg "shaderControls");
    destruct (PyDict.mem cfg "visible");
    destruct (PyDict.mem cfg "type");
    (destruct (PyDict.mem cfg "name") eqn:Mn;
     [subst s4 | destruct Hs4 as ((n & ->) & _)]);
    dict_simpl; try reflexivity;
    destruct (String.eqb_spec k "name") as [->|N4];
    try (specialize (Hname eq_refl); discriminate Hname);
    dict_simpl; reflexivity.
Qed.

(** What the constructor of a layer goes through when it returns. *)
Lemma init_steps (rt : PyRuntime) (cfg : pydict)
    (mount_service bucket_path image_type : string)
    (output_dimensions : pyval) (L : NgLayer) :
  ng_layer.__init__ rt (PDict cfg) mount_service bucket_path image_type
    output_dimensions = inr L ->
  exists source reversed src self1,
    PyDict.get cfg "source" = Some source
    /\ helper_reverse_dictionary output_dimensions = inr reversed
    /\ __fix_image_source rt
         (new_object (PDict cfg) mount_service bucket_path image_type reversed)
         source = inr src
    /\ update_items rt
         (mkNgLayer [] (PDict (PyDict.set cfg "source" src)) mount_service
            bucket_path image_type reversed src)
         (PyDict.set cfg "source" src) = inr self1
    /\ set_default_values rt self1 (PyDict.set cfg "source" src) false
       = inr L.
Proof.
  intros Hrun. unfold ng_layer.__init__ in Hrun.
  destruct (helper_reverse_dictionary output_dimensions) as [e|reversed];
    cbn [bind] in Hrun; [discriminate|].
  unfold Builtins.getitem in Hrun.
  destruct (PyDict.get cfg "source") as [source|];
    cbn [bind ok] in Hrun; [|discriminate].
  destruct (__fix_image_source rt _ source) as [e|src] eqn:Efix;
    cbn [bind] in Hrun; [discriminate|].
  unfold update_state in Hrun.
  destruct (update_items rt _ _) as [e|self1] eqn:Eitems;
    cbn [bind] in Hrun; [discriminate|].
  exists source, reversed, src, self1. repeat split; assumption.
Qed.

Lemma set_source_nonempty (cfg : pydict) (src : pyval) :
  PyDict.set cfg "source" src <> [].
Proof.
  intros E. pose proof (dict_get_set_eq cfg "source" src) as G.
  rewrite E in G. discriminate.
Qed.

(** The object the constructor returns: its fields are those it was
    given, with the source resolved, also in the configuration. *)
Lemma init_frame (rt : PyRuntime) (cfg : pydict)
    (mount_service bucket_path image_type : string)
    (output_dimensions : pyval) (L : NgLayer) :
  ng_layer.__init__ rt (PDict cfg) mount_service bucket_path image_type
    output_dimensions = inr L ->
  exists reversed,
    helper_reverse_dictionary output_dimensions = inr reversed
    /\ L = mkNgLayer (layer_state L)
             (PDict (PyDict.set cfg "source" (image_source L)))
             mount_service bucket_path image_type reversed (image_source L).
Proof.
  intros Hrun.
  destruct (init_steps rt cfg _ _ _ _ L Hrun)
    as (source & reversed & src & self1 & _ & Hod & _ & Hitems & Hdef).
  exists reversed. split; [exact Hod|].
  apply update_items_frame in Hitems as (ls1 & ->).
  apply set_default_values_frame in Hdef as (ls & ->).
  reflexivity.
Qed.

(** An entry of the state of a layer that was built, for the keys other
    than those of the channel and of the source. *)
Lemma init_entry (rt : PyRuntime) (cfg : pydict)
    (mount_service bucket_path image_type : string)
    (output_dimensions : pyval) (L : NgLayer) (k : string) :
  PyDict.wf cfg ->
  ng_layer.__init__ rt (PDict cfg) mount_service bucket_path image_type
    output_dimensions = inr L ->
  k <> "channel" -> k <> "localDimensions" -> k <> "source" ->
  match PyDict.get cfg k with
  | Some value =>
      exists o, stored_value rt k value = inr o
                /\ PyDict.get (layer_state L) k = o
  | None => k <> "name" -> PyDict.get (layer_state L) k = default_of image_type k
  end.
Proof.
  intros Hwf Hrun Hk1 Hk2 Hk3.
  destruct (init_steps rt cfg _ _ _ _ L Hrun)
    as (source & reversed & src & self1 & Hsrc & _ & _ & Hitems & Hdef).
  set (d := PyDict.set cfg "source" src) in *.
  assert (Hmem : PyDict.mem cfg "source" = true)
    by (unfold PyDict.mem; now rewrite Hsrc).
  assert (Hwfd : PyDict.wf d)
    by (unfold PyDict.wf, d; now rewrite dict_keys_set_present).
  assert (Hget : PyDict.get d k = PyDict.get cfg k)
    by (apply dict_get_set_ne; congruence).
  pose proof (update_items_frame rt _ _ _ Hitems) as (ls1 & Hself1).
  pose proof (update_items_get rt k d Hk1 Hk2 Hwfd _ _ Hitems) as Hup.
  cbn [layer_state] in Hup. rewrite Hget in Hup.
  assert (Htype : ng_layer.image_type self1 = image_type)
    by (now rewrite Hself1).
  destruct (PyDict.get cfg k) as [value|] eqn:Ecfg.
  - destruct Hup as (o & Ho & Hup). exists o. split; [exact Ho|].
    rewrite (set_default_values_get rt self1 L d k
               (set_source_nonempty cfg src) Hk2); [| |exact Hdef].
    + unfold PyDict.mem. rewrite Hget, Hup.
      destruct (default_of _ k); [|now destruct o]. now destruct o.
    + intros ->. unfold PyDict.mem. now rewrite Hget.
  - intros Hname.
    rewrite (set_default_values_get rt self1 L d k
               (set_source_nonempty cfg src) Hk2); [| |exact Hdef].
    + unfold PyDict.mem. rewrite Hget, Hup, Htype.
      now destruct (default_of image_type k).
    + intros ->. contradiction.
Qed.

(** No item is written under the key ["channel"]: the channel goes to
    ["localDimensions"]. *)
Lemma update_items_channel_key (rt : PyRuntime) (items : pydict) :
  forall self self',
    update_items rt self items = inr self' ->
    PyDict.get (layer_state self') "channel"
    = PyDict.get (layer_state self) "channel".
Proof.
  induction items as [|[param value] items IH]; intros self self' Hrun.
  - cbn in Hrun. now inversion Hrun.
  - cbn [update_items] in Hrun. rewrite update_param_dispatch in Hrun.
    destruct (stored_value rt param value) as [e|o];
      cbn [bind ok] in Hrun; [discriminate|].
    rewrite (IH _ _ Hrun). destruct o; [|reflexivity].
    cbn. apply dict_get_set_ne. unfold written_key.
    destruct (String.eqb_spec param "channel"); [discriminate | assumption].
Qed.

Lemma dict_in_keys_get (d : pydict) (k : string) :
  In k (PyDict.keys d) -> PyDict.get d k <> None.
Proof.
  intros Hin E. apply dict_mem_in in Hin. unfold PyDict.mem in Hin.
  rewrite E in Hin. discriminate.
Qed.

(** A key that is none of the nine keys of a layer state is not in the
    state of a layer that was built. *)
Lemma init_absent (rt : PyRuntime) (cfg : pydict)
    (mount_service bucket_path image_type : string)
    (output_dimensions : pyval) (L : NgLayer) (k : string) :
  PyDict.wf cfg ->
  ng_layer.__init__ rt (PDict cfg) mount_service bucket_path image_type
    output_dimensions = inr L ->
  ~ In k layer_keys ->
  PyDict.get (layer_state L) k = None.
Proof.
  intros Hwf Hrun Hk. unfold layer_keys in Hk. cbn [In] in Hk.
  destruct (String.eqb_spec k "channel") as [->|Hc].
  - destruct (init_steps rt cfg _ _ _ _ L Hrun)
      as (source & reversed & src & self1 & _ & _ & _ & Hitems & Hdef).
    rewrite (set_default_values_get rt self1 L _ "channel"
               (set_source_nonempty cfg src)); try discriminate;
      [|exact Hdef].
    cbn. now rewrite (update_items_channel_key rt _ _ _ Hitems).
  - pose proof (init_entry rt cfg _ _ _ _ L k Hwf Hrun Hc) as H.
    assert (N1 : k <> "localDimensions") by (intros ->; tauto).
    assert (N2 : k <> "source") by (intros ->; tauto).
    assert (N3 : k <> "name") by (intros ->; tauto).
    specialize (H N1 N2).
    assert (Hd : default_of image_type k = None).
    { unfold default_of.
      destruct (String.eqb_spec k "shaderControls") as [->|]; [tauto|].
      destruct (String.eqb_spec k "visible") as [->|]; [tauto|].
      destruct (String.eqb_spec k "type") as [->|]; [tauto|]. reflexivity. }
    destruct (PyDict.get cfg k) as [value|].
    + destruct H as (o & Ho & ->).
      unfold stored_value, in_list in Ho. cbn [existsb] in Ho.
      destruct (String.eqb_spec k "type") as [->|]; [tauto|].
      destruct (String.eqb_spec k "name") as [->|]; [tauto|].
      destruct (String.eqb_spec k "blend") as [->|]; [tauto|].
      destruct (String.eqb_spec k "visible") as [->|]; [tauto|].
      destruct (String.eqb_spec k "shader") as [->|]; [tauto|].
      destruct (String.eqb_spec k "channel") as [->|]; [tauto|].
      destruct (String.eqb_spec k "shaderControls") as [->|]; [tauto|].
      destruct (String.eqb_spec k "opacity") as [->|]; [tauto|].
      destruct (String.eqb_spec k "source") as [->|]; [tauto|].
      cbn in Ho. now inversion Ho.
    + now rewrite H.
Qed.

(** ** The layer the constructor builds *)

(** X11. The state of a layer that was built holds the items of the
    configuration as their setters coerce them: [type], [name] and
    [blend] as [str(value)], [visible] as [bool(value)], [opacity] as
    [float(value)], [shaderControls] as [dict(value)], and [shader] as
    the shader text [__create_shader] makes of the value. *)
Theorem layer_state_follows_the_configuration (rt : PyRuntime) (cfg : pydict)
    (mount_service bucket_path image_type : string)
    (output_dimensions : pyval) (L : NgLayer) :
  PyDict.wf cfg ->
  ng_layer.__init__ rt (PDict cfg) mount_service bucket_path image_type
    output_dimensions = inr L ->
  (forall k value,
      In k ["type"; "name"; "blend"] ->
      PyDict.get cfg k = Some value ->
      PyDict.get (layer_state L) k = Some (PStr (Builtins.py_str rt value)))
  /\ (forall value,
         PyDict.get cfg "visible" = Some value ->
         PyDict.get (layer_state L) "visible"
         = Some (PBool (Builtins.py_bool value)))
  /\ (forall value,
         PyDict.get cfg "opacity" = Some value ->
         exists x, Builtins.py_float rt value = inr x
                   /\ PyDict.get (layer_state L) "opacity" = Some (PFloat x))
  /\ (forall value,
         PyDict.get cfg "shaderControls" = Some value ->
         exists d, Builtins.py_dict rt value = inr d
                   /\ PyDict.get (layer_state L) "shaderControls"
                      = Some (PDict d))
  /\ (forall value,
         PyDict.get cfg "shader" = Some value ->
         exists s, __create_shader rt value = inr s
                   /\ PyDict.get (layer_state L) "shader" = Some (PStr s)).
Proof.
  intros Hwf Hrun.
  pose proof (fun k => init_entry rt cfg _ _ _ _ L k Hwf Hrun) as H.
  split; [|split; [|split; [|split]]].
  - intros k value Hin Hget.
    destruct Hin as [<-|[<-|[<-|[]]]];
      match goal with
      | |- PyDict.get _ ?k = _ =>
          specialize (H k ltac:(discriminate) ltac:(discriminate)
                        ltac:(discriminate))
      end;
      rewrite Hget in H; destruct H as (o & Ho & ->);
      cbn in Ho; now inversion Ho.
  - intros value Hget.
    specialize (H "visible" ltac:(discriminate) ltac:(discriminate)
                  ltac:(discriminate)).
    rewrite Hget in H. destruct H as (o & Ho & ->).
    cbn in Ho. now inversion Ho.
  - intros value Hget.
    specialize (H "opacity" ltac:(discriminate) ltac:(discriminate)
                  ltac:(discriminate)).
    rewrite Hget in H. destruct H as (o & Ho & ->).
    unfold stored_value in Ho. cbn [in_list existsb String.eqb Ascii.eqb
                                     Bool.eqb orb] in Ho.
    destruct (Builtins.py_float rt value) as [e|x]; [discriminate|].
    exists x. split; [reflexivity|]. now inversion Ho.
  - intros value Hget.
    specialize (H "shaderControls" ltac:(discriminate) ltac:(discriminate)
                  ltac:(discriminate)).
    rewrite Hget in H. destruct H as (o & Ho & ->).
    unfold stored_value in Ho. cbn [in_list existsb String.eqb Ascii.eqb
                                     Bool.eqb orb] in Ho.
    destruct (Builtins.py_dict rt value) as [e|d]; [discriminate|].
    exists d. split; [reflexivity|]. now inversion Ho.
  - intros value Hget.
    specialize (H "shader" ltac:(discriminate) ltac:(discriminate)
                  ltac:(discriminate)).
    rewrite Hget in H. destruct H as (o & Ho & ->).
    unfold stored_value in Ho. cbn [in_list existsb String.eqb Ascii.eqb
                                     Bool.eqb orb] in Ho.
    destruct (__create_shader rt value) as [e|s]; [discriminate|].
    exists s. split; [reflexivity|]. now inversion Ho.
Qed.

Lemma layer_state_follows_the_configuration_witness :
  PyDict.get (layer_state example_layer_0) "type"
  = Some (PStr (Builtins.py_str Demo.runtime (PStr "image")))
  /\ exists s,
       __create_shader Demo.runtime
         (PDict [("color", PStr "green"); ("emitter", PStr "RGB");
                 ("vec", PStr "vec3")]) = inr s
       /\ PyDict.get (layer_state example_layer_0) "shader" = Some (PStr s).
Proof.
  pose proof (layer_state_follows_the_configuration Demo.runtime _
                "s3" "aind-msma-data" "image" (PDict []) example_layer_0
                (example_layer_wf 0 "green") example_layer_0_built) as H.
  split.
  - exact (proj1 H "type" (PStr "image") (or_introl eq_refl) eq_refl).
  - exact (proj2 (proj2 (proj2 (proj2 H))) _ eq_refl).
Defined.

(** X12. What a configuration leaves out: a layer that was built is
    visible, has the default shader controls (the range 0 to 200) and
    the type the constructor was given; [blend], [shader] and [opacity]
    have no default and are not in the state. *)
Theorem defaults_of_a_built_layer (rt : PyRuntime) (cfg : pydict)
    (mount_service bucket_path image_type : string)
    (output_dimensions : pyval) (L : NgLayer) :
  PyDict.wf cfg ->
  ng_layer.__init__ rt (PDict cfg) mount_service bucket_path image_type
    output_dimensions = inr L ->
  (PyDict.get cfg "visible" = None ->
   PyDict.get (layer_state L) "visible" = Some (PBool true))
  /\ (PyDict.get cfg "shaderControls" = None ->
      PyDict.get (layer_state L) "shaderControls"
      = Some default_shader_control)
  /\ (PyDict.get cfg "type" = None ->
      PyDict.get (layer_state L) "type" = Some (PStr image_type))
  /\ (forall k,
         In k ["blend"; "shader"; "opacity"] ->
         PyDict.get cfg k = None -> PyDict.get (layer_state L) k = None).
Proof.
  intros Hwf Hrun.
  pose proof (fun k => init_entry rt cfg _ _ _ _ L k Hwf Hrun) as H.
  split; [|split; [|split]].
  - intros Hget.
    specialize (H "visible" ltac:(discriminate) ltac:(discriminate)
                  ltac:(discriminate)).
    rewrite Hget in H. apply H. discriminate.
  - intros Hget.
    specialize (H "shaderControls" ltac:(discriminate) ltac:(discriminate)
                  ltac:(discriminate)).
    rewrite Hget in H. apply H. discriminate.
  - intros Hget.
    specialize (H "type" ltac:(discriminate) ltac:(discriminate)
                  ltac:(discriminate)).
    rewrite Hget in H. apply H. discriminate.
  - intros k Hin Hget.
    destruct Hin as [<-|[<-|[<-|[]]]];
      match goal with
      | |- PyDict.get _ ?k = _ =>
          specialize (H k ltac:(discriminate) ltac:(discriminate)
                        ltac:(discriminate))
      end;
      rewrite Hget in H; apply H; discriminate.
Qed.

Lemma defaults_of_a_built_layer_witness :
  PyDict.get (layer_state example_layer_0) "visible" = Some (PBool true)
  /\ PyDict.get (layer_state example_layer_0) "opacity" = None.
Proof.
  pose proof (defaults_of_a_built_layer Demo.runtime _
                "s3" "aind-msma-data" "image" (PDict []) example_layer_0
                (example_layer_wf 0 "green") example_layer_0_built) as H.
  split.
  - exact (proj1 H eq_refl).
  - exact (proj2 (proj2 (proj2 H)) "opacity"
             (or_intror (or_intror (or_introl eq_refl))) eq_refl).
Defined.

(** X13. The state of a layer that was built has no key besides the
    nine keys of a layer state: a key of the configuration no branch of
    [update_state] knows is dropped, and the channel is never stored
    under [channel]. *)
Theorem layer_state_has_only_known_keys (rt : PyRuntime) (cfg : pydict)
    (mount_service bucket_path image_type : string)
    (output_dimensions : pyval) (L : NgLayer) :
  PyDict.wf cfg ->
  ng_layer.__init__ rt (PDict cfg) mount_service bucket_path image_type
    output_dimensions = inr L ->
  (forall k, In k (PyDict.keys (layer_state L)) -> In k layer_keys)
  /\ PyDict.get (layer_state L) "channel" = None.
Proof.
  intros Hwf Hrun. split.
  - intros k Hin.
    destruct (in_dec string_dec k layer_keys) as [Hk|Hk]; [exact Hk|].
    exfalso. apply (dict_in_keys_get _ _ Hin).
    now apply (init_absent rt cfg _ _ _ _ L k Hwf Hrun).
  - apply (init_absent rt cfg _ _ _ _ L "channel" Hwf Hrun).
    unfold layer_keys. cbn. intuition discriminate.
Qed.

Lemma layer_state_has_only_known_keys_witness :
  (forall k, In k (PyDict.keys (layer_state example_layer_0)) ->
             In k layer_keys)
  /\ PyDict.get (layer_state example_layer_0) "channel" = None.
Proof.
  exact (layer_state_has_only_known_keys Demo.runtime _
           "s3" "aind-msma-data" "image" (PDict []) example_layer_0
           (example_layer_wf 0 "green") example_layer_0_built).
Defined.

(** X14. The constructor resolves the source once and uses the result
    everywhere: it is the attribute [image_source], it is what the state
    has under [source] (when it is a path or a list of tiles), and it
    replaces the source in the configuration the object holds, which is
    the caller's own dict.  The other attributes are the arguments, with
    the output dimensions reversed. *)
Theorem the_source_is_stored_resolved (rt : PyRuntime) (cfg : pydict)
    (mount_service bucket_path image_type : string)
    (output_dimensions : pyval) (L : NgLayer) :
  PyDict.wf cfg ->
  ng_layer.__init__ rt (PDict cfg) mount_service bucket_path image_type
    output_dimensions = inr L ->
  exists source reversed,
    PyDict.get cfg "source" = Some source
    /\ helper_reverse_dictionary output_dimensions = inr reversed
    /\ __fix_image_source rt
         (new_object (PDict cfg) mount_service bucket_path image_type reversed)
         source = inr (image_source L)
    /\ PyDict.get (layer_state L) "source"
       = match image_source L with
         | PStr _ | PList _ => Some (image_source L)
         | _ => None
         end
    /\ image_config L = PDict (PyDict.set cfg "source" (image_source L))
    /\ ng_layer.output_dimensions L = reversed
    /\ ng_layer.mount_service L = mount_service
    /\ ng_layer.bucket_path L = bucket_path
    /\ ng_layer.image_type L = image_type.
Proof.
  intros Hwf Hrun.
  destruct (init_steps rt cfg _ _ _ _ L Hrun)
    as (source & reversed & src & self1 & Hsrc & Hod & Hfix & Hitems & Hdef).
  destruct (init_frame rt cfg _ _ _ _ L Hrun) as (reversed' & Hod' & HL).
  rewrite Hod in Hod'. inversion Hod'; subst reversed'. clear Hod'.
  assert (Hsame : image_source L = src).
  { pose proof (update_items_frame rt _ _ _ Hitems) as (ls1 & ->).
    pose proof (set_default_values_frame rt _ _ _ Hdef) as (ls & ->).
    reflexivity. }
  exists source, reversed.
  split; [exact Hsrc|]. split; [exact Hod|].
  split; [now rewrite Hsame|].
  split.
  - set (d := PyDict.set cfg "source" src) in *.
    assert (Hmem : PyDict.mem cfg "source" = true)
      by (unfold PyDict.mem; now rewrite Hsrc).
    assert (Hwfd : PyDict.wf d)
      by (unfold PyDict.wf, d; now rewrite dict_keys_set_present).
    pose proof (update_items_get rt "source" d ltac:(discriminate)
                  ltac:(discriminate) Hwfd _ _ Hitems) as Hup.
    unfold d in Hup at 1. rewrite dict_get_set_eq in Hup.
    destruct Hup as (o & Ho & Hup). cbn in Ho. inversion Ho; subst o.
    rewrite (set_default_values_get rt self1 L d "source"
               (set_source_nonempty cfg src)); try discriminate;
      [|exact Hdef].
    cbn. rewrite Hup, Hsame. now destruct src.
  - rewrite HL. cbn. repeat split; reflexivity.
Qed.

Lemma the_source_is_stored_resolved_witness :
  exists source reversed,
    PyDict.get [("source", PStr "image_path.zarr"); ("type", PStr "image");
                ("channel", PInt 0);
                ("shader", PDict [("color", PStr "green");
                                  ("emitter", PStr "RGB");
                                  ("vec", PStr "vec3")]);
                ("shaderControls",
                 PDict [("normalized",
                         PDict [("range", PList [PInt 0; PInt 500])])])]
      "source" = Some source
    /\ helper_reverse_dictionary (PDict []) = inr reversed
    /\ __fix_image_source Demo.runtime
         (new_object (Example1.layer 0 "green") "s3" "aind-msma-data" "image"
            reversed)
         source = inr (image_source example_layer_0)
    /\ PyDict.get (layer_state example_layer_0) "source"
       = match image_source example_layer_0 with
         | PStr _ | PList _ => Some (image_source example_layer_0)
         | _ => None
         end
    /\ image_config example_layer_0
       = PDict (PyDict.set
                  [("source", PStr "image_path.zarr"); ("type", PStr "image");
                   ("channel", PInt 0);
                   ("shader", PDict [("color", PStr "green");
                                     ("emitter", PStr "RGB");
                                     ("vec", PStr "vec3")]);
                   ("shaderControls",
                    PDict [("normalized",
                            PDict [("range", PList [PInt 0; PInt 500])])])]
                  "source" (image_source example_layer_0))
    /\ ng_layer.output_dimensions example_layer_0 = reversed
    /\ ng_layer.mount_service example_layer_0 = "s3"
    /\ ng_layer.bucket_path example_layer_0 = "aind-msma-data"
    /\ ng_layer.image_type example_layer_0 = "image".
Proof.
  exact (the_source_is_stored_resolved Demo.runtime _
           "s3" "aind-msma-data" "image" (PDict []) example_layer_0
           (example_layer_wf 0 "green") example_layer_0_built).
Defined.

Lemma dict_set_keeps_items (d : pydict) (k k0 : string) (v v0 : pyval) :
  In (k, v) d -> k <> k0 -> In (k, v) (PyDict.set d k0 v0).
Proof.
  intros Hin Hne. induction d as [|[k' v'] d IH]; [contradiction|].
  cbn. destruct (String.eqb_spec k' k0) as [->|Hk].
  - destruct Hin as [Heq|Hin]; [inversion Heq; congruence | now right].
  - destruct Hin as [Heq|Hin]; [now left | right; now apply IH].
Qed.

(** X15. A layer is built of all its items or not at all: when the
    configuration has an [opacity] that [float] refuses, a [channel]
    that [int] refuses, [shaderControls] that [dict] refuses, or a
    [shader] that [__create_shader] refuses, the constructor raises. *)
Theorem a_refused_item_aborts_the_layer (rt : PyRuntime) (cfg : pydict)
    (mount_service bucket_path image_type : string)
    (output_dimensions : pyval) (param : string) (value : pyval) (e : exc) :
  In (param, value) cfg ->
  (param = "opacity" /\ Builtins.py_float rt value = inl e)
  \/ (param = "channel" /\ Builtins.py_int rt value = inl e)
  \/ (param = "shaderControls" /\ Builtins.py_dict rt value = inl e)
  \/ (param = "shader" /\ __create_shader rt value = inl e) ->
  exists e',
    ng_layer.__init__ rt (PDict cfg) mount_service bucket_path image_type
      output_dimensions = inl e'.
Proof.
  intros Hin Hbad.
  assert (Hstored : stored_value rt param value = inl e /\ param <> "source").
  { destruct Hbad as [[-> H]|[[-> H]|[[-> H]|[-> H]]]];
      (split; [|discriminate]); unfold stored_value;
      cbn [in_list existsb String.eqb Ascii.eqb Bool.eqb orb];
      now rewrite H. }
  destruct Hstored as [Hstored Hne].
  destruct (ng_layer.__init__ rt (PDict cfg) mount_service bucket_path
              image_type output_dimensions) as [e'|L] eqn:Hrun; [eauto|].
  exfalso.
  destruct (init_steps rt cfg _ _ _ _ L Hrun)
    as (source & reversed & src & self1 & _ & _ & _ & Hitems & _).
  destruct (update_items_refused rt (PyDict.set cfg "source" src) param value e
              (dict_set_keeps_items cfg _ _ _ _ Hin Hne) Hstored
              (mkNgLayer [] (PDict (PyDict.set cfg "source" src))
                 mount_service bucket_path image_type reversed src))
    as (e' & He').
  rewrite He' in Hitems. discriminate.
Qed.

Lemma a_refused_item_aborts_the_layer_witness :
  exists e',
    ng_layer.__init__ Demo.runtime
      (PDict [("source", PStr "image_path.zarr");
              ("shader", PDict [("color", PStr "green");
                                ("emitter", PStr "RGB")])])
      "s3" "aind-msma-data" "image" (PDict []) = inl e'.
Proof.
  exact (a_refused_item_aborts_the_layer Demo.runtime
           [("source", PStr "image_path.zarr");
            ("shader", PDict [("color", PStr "green");
                              ("emitter", PStr "RGB")])]
           "s3" "aind-msma-data" "image" (PDict []) "shader"
           (PDict [("color", PStr "green"); ("emitter", PStr "RGB")])
           (Raise KeyError "")
           (or_intror (or_introl eq_refl))
           (or_intror (or_intror (or_intror (conj eq_refl eq_refl))))).
Defined.

(** X16. A source that is neither a path nor a list is not refused:
    [__fix_image_source] answers [None] for it.  The constructor then
    returns only for a configuration that names the layer (the default
    name needs a source), and the layer it returns has no source, neither
    as attribute nor in its state. *)
Theorem a_source_that_is_no_path_or_list (rt : PyRuntime) (cfg : pydict)
    (mount_service bucket_path image_type : string)
    (output_dimensions source : pyval) (L : NgLayer) :
  PyDict.wf cfg ->
  PyDict.get cfg "source" = Some source ->
  match source with PStr _ | PList _ => False | _ => True end ->
  ng_layer.__init__ rt (PDict cfg) mount_service bucket_path image_type
    output_dimensions = inr L ->
  image_source L = PNone
  /\ PyDict.get (layer_state L) "source" = None
  /\ exists name, PyDict.get cfg "name" = Some name.
Proof.
  intros Hwf Hsource Hkind Hrun.
  destruct (init_steps rt cfg _ _ _ _ L Hrun)
    as (source' & reversed & src & self1 & Hsrc & _ & Hfix & Hitems & Hdef).
  rewrite Hsource in Hsrc. inversion Hsrc; subst source'. clear Hsrc.
  assert (Hnone : src = PNone).
  { destruct source; try contradiction; cbn in Hfix; now inversion Hfix. }
  subst src.
  pose proof (update_items_frame rt _ _ _ Hitems) as (ls1 & Hself1).
  pose proof (set_default_values_frame rt _ _ _ Hdef) as (ls & HL).
  assert (Hsame : image_source L = PNone) by (rewrite HL, Hself1; reflexivity).
  split; [exact Hsame|]. split.
  - set (d := PyDict.set cfg "source" PNone) in *.
    assert (Hmem : PyDict.mem cfg "source" = true)
      by (unfold PyDict.mem; now rewrite Hsource).
    assert (Hwfd : PyDict.wf d)
      by (unfold PyDict.wf, d; now rewrite dict_keys_set_present).
    pose proof (update_items_get rt "source" d ltac:(discriminate)
                  ltac:(discriminate) Hwfd _ _ Hitems) as Hup.
    unfold d in Hup at 1. rewrite dict_get_set_eq in Hup.
    destruct Hup as (o & Ho & Hup). cbn in Ho. inversion Ho; subst o.
    rewrite (set_default_values_get rt self1 L d "source"
               (set_source_nonempty cfg PNone)); try discriminate;
      [|exact Hdef].
    cbn. exact Hup.
  - destruct (set_default_values_steps rt self1 L _
                (set_source_nonempty cfg PNone) Hdef) as (s4 & Hs4 & _).
    unfold PyDict.mem in Hs4.
    rewrite dict_get_set_ne in Hs4 by discriminate.
    destruct (PyDict.get cfg "name") as [name|]; [eauto|].
    destruct Hs4 as (_ & stem & Hstem).
    rewrite Hself1 in Hstem. cbn in Hstem. discriminate.
Qed.

Lemma nameless_layer_is_built :
  ng_layer.__init__ Demo.runtime
    (PDict [("source", PInt 3); ("name", PStr "no source")])
    "s3" "aind-msma-data" "image" (PDict [])
  = inr (mkNgLayer
           [("name", PStr "no source");
            ("localDimensions", PDict [("c'", PList [PInt 1; PStr ""])]);
            ("shaderControls", default_shader_control);
            ("visible", PBool true); ("type", PStr "image")]
           (PDict [("source", PNone); ("name", PStr "no source")])
           "s3" "aind-msma-data" "image" [] PNone).
Proof. vm_compute. reflexivity. Qed.

Lemma a_source_that_is_no_path_or_list_witness :
  image_source sourceless_layer = PNone
  /\ PyDict.get (layer_state sourceless_layer) "source" = None
  /\ exists name,
       PyDict.get [("source", PInt 3); ("name", PStr "no source")] "name"
       = Some name.
Proof.
  refine (a_source_that_is_no_path_or_list Demo.runtime
            [("source", PInt 3); ("name", PStr "no source")]
            "s3" "aind-msma-data" "image" (PDict []) (PInt 3)
            sourceless_layer _ eq_refl I nameless_layer_is_built).
  repeat constructor; cbn; intuition discriminate.
Defined.

(** X17. What the constructor needs before it looks at the layer:
    output dimensions that are a dict, or it raises [AttributeError], so
    a call that leaves [output_dimensions] out always raises; then a
    configuration that is a dict, or it raises [TypeError], with a key
    [source], or it raises [KeyError]. *)
Theorem constructor_needs_output_dimensions_and_source (rt : PyRuntime)
    (image_config : pyval) (mount_service bucket_path image_type : string)
    (output_dimensions : pyval) :
  match output_dimensions with
  | PDict _ =>
      match image_config with
      | PDict cfg =>
          PyDict.get cfg "source" = None ->
          ng_layer.__init__ rt image_config mount_service bucket_path
            image_type output_dimensions = raise KeyError ""
      | _ =>
          ng_layer.__init__ rt image_config mount_service bucket_path
            image_type output_dimensions = raise TypeError ""
      end
  | _ =>
      ng_layer.__init__ rt image_config mount_service bucket_path
        image_type output_dimensions = raise AttributeError ""
  end
  /\ NgLayer_call rt (Some image_config) (Some mount_service)
       (Some bucket_path) (Some image_type) None
     = raise AttributeError "".
Proof.
  split; [|reflexivity].
  destruct output_dimensions; try reflexivity.
  destruct image_config; try reflexivity.
  intros Hget. unfold ng_layer.__init__. cbn. now rewrite Hget.
Qed.

Lemma constructor_needs_output_dimensions_and_source_witness :
  ng_layer.__init__ Demo.runtime (PDict [("type", PStr "image")])
    "s3" "aind-msma-data" "image" (PDict []) = raise KeyError "".
Proof.
  exact (proj1 (constructor_needs_output_dimensions_and_source Demo.runtime
                  (PDict [("type", PStr "image")]) "s3" "aind-msma-data"
                  "image" (PDict [])) eq_refl).
Defined.

(** X18. The getters on a layer that was built: [image_channel] raises
    [KeyError], since it reads the key [c] where the setter writes [c'];
    [visible] and [shader_control] return a boolean and a dict;
    [opacity] and [shader] raise [KeyError] when the configuration did
    not give them. *)
Theorem getters_of_a_built_layer (rt : PyRuntime) (cfg : pydict)
    (mount_service bucket_path image_type : string)
    (output_dimensions : pyval) (L : NgLayer) :
  PyDict.wf cfg ->
  ng_layer.__init__ rt (PDict cfg) mount_service bucket_path image_type
    output_dimensions = inr L ->
  image_channel L = raise KeyError ""
  /\ (exists b, visible L = ok (PBool b))
  /\ (exists d, shader_control L = ok (PDict d))
  /\ (PyDict.get cfg "opacity" = None -> opacity L = raise KeyError "")
  /\ (PyDict.get cfg "shader" = None -> shader L = raise KeyError "").
Proof.
  intros Hwf Hrun.
  pose proof (fun k => init_entry rt cfg _ _ _ _ L k Hwf Hrun) as H.
  split; [|split; [|split; [|split]]].
  - destruct (init_returns rt cfg _ _ _ _ L Hwf Hrun) as (c & _ & Hc & _).
    unfold image_channel, Builtins.getitem. unfold channel_is in Hc.
    now rewrite Hc.
  - specialize (H "visible" ltac:(discriminate) ltac:(discriminate)
                  ltac:(discriminate)).
    unfold visible, Builtins.getitem.
    destruct (PyDict.get cfg "visible") as [value|].
    + destruct H as (o & Ho & ->). cbn in Ho. inversion Ho; subst.
      cbn. eexists; reflexivity.
    + rewrite H by discriminate. cbn. eexists; reflexivity.
  - specialize (H "shaderControls" ltac:(discriminate) ltac:(discriminate)
                  ltac:(discriminate)).
    unfold shader_control, Builtins.getitem.
    destruct (PyDict.get cfg "shaderControls") as [value|].
    + destruct H as (o & Ho & ->).
      unfold stored_value in Ho.
      cbn [in_list existsb String.eqb Ascii.eqb Bool.eqb orb] in Ho.
      destruct (Builtins.py_dict rt value) as [e|d]; [discriminate|].
      inversion Ho; subst. cbn. eexists; reflexivity.
    + rewrite H by discriminate. cbn. eexists; reflexivity.
  - intros Hget.
    specialize (H "opacity" ltac:(discriminate) ltac:(discriminate)
                  ltac:(discriminate)).
    rewrite Hget in H. unfold opacity, Builtins.getitem.
    now rewrite H by discriminate.
  - intros Hget.
    specialize (H "shader" ltac:(discriminate) ltac:(discriminate)
                  ltac:(discriminate)).
    rewrite Hget in H. unfold shader, Builtins.getitem.
    now rewrite H by discriminate.
Qed.

Lemma getters_of_a_built_layer_witness :
  image_channel example_layer_0 = raise KeyError ""
  /\ (exists b, visible example_layer_0 = ok (PBool b))
  /\ (exists d, shader_control example_layer_0 = ok (PDict d))
  /\ opacity example_layer_0 = raise KeyError "".
Proof.
  pose proof (getters_of_a_built_layer Demo.runtime _
                "s3" "aind-msma-data" "image" (PDict []) example_layer_0
                (example_layer_wf 0 "green") example_layer_0_built) as H.
  split; [exact (proj1 H)|].
  split; [exact (proj1 (proj2 H))|].
  split; [exact (proj1 (proj2 (proj2 H)))|].
  exact (proj1 (proj2 (proj2 (proj2 H))) eq_refl).
Defined.

(** X19. Setter, then getter, on any layer: [visible] reads back
    [bool(value)] and [shader] reads back [str(value)]; [opacity] and
    [shader_control] read back [float(value)] and [dict(value)], or the
    setter raises what [float] and [dict] raise; the setter of
    [image_channel] stores [int(value) + 1] under [c'], or raises what
    [int] raises, and its getter then raises [KeyError]; the setter of
    [layer_state] replaces the whole state by [dict(value)]. *)
Theorem setters_and_getters_round_trip (rt : PyRuntime) (self : NgLayer)
    (v : pyval) :
  visible (visible_setter self v) = ok (PBool (Builtins.py_bool v))
  /\ shader (shader_setter rt self v) = ok (PStr (Builtins.py_str rt v))
  /\ match opacity_setter rt self v with
     | inr s =>
         exists x, Builtins.py_float rt v = inr x
                   /\ opacity s = ok (PFloat x)
     | inl e => Builtins.py_float rt v = inl e
     end
  /\ match shader_control_setter rt self v with
     | inr s =>
         exists d, Builtins.py_dict rt v = inr d
                   /\ shader_control s = ok (PDict d)
     | inl e => Builtins.py_dict rt v = inl e
     end
  /\ match image_channel_setter rt self v with
     | inr s =>
         exists c, Builtins.py_int rt v = inr c
                   /\ PyDict.get (layer_state s) "localDimensions"
                      = Some (PDict [("c'", PList [PInt (c + 1); PStr ""])])
                   /\ image_channel s = raise KeyError ""
     | inl e => Builtins.py_int rt v = inl e
     end
  /\ match layer_state_setter rt self v with
     | inr s =>
         exists d, Builtins.py_dict rt v = inr d
                   /\ s = with_layer_state self d
     | inl e => Builtins.py_dict rt v = inl e
     end.
Proof.
  unfold visible, shader, opacity, shader_control, image_channel,
    visible_setter, shader_setter, opacity_setter, shader_control_setter,
    image_channel_setter, layer_state_setter, Builtins.getitem.
  cbn [layer_state set_state with_layer_state].
  repeat split.
  - now rewrite dict_get_set_eq.
  - now rewrite dict_get_set_eq.
  - destruct (Builtins.py_float rt v) as [e|x]; cbn; [reflexivity|].
    exists x. now rewrite dict_get_set_eq.
  - destruct (Builtins.py_dict rt v) as [e|d]; cbn; [reflexivity|].
    exists d. now rewrite dict_get_set_eq.
  - destruct (Builtins.py_int rt v) as [e|c]; cbn; [reflexivity|].
    exists c. now rewrite dict_get_set_eq.
  - destruct (Builtins.py_dict rt v) as [e|d]; cbn; [reflexivity|].
    exists d. now split.
Qed.

(** X20. [set_default_values] with [overwrite]: on a layer whose
    source is a single path it sets the channel entry of channel 0, the
    default shader controls, [visible], the type of the object and, as
    name, the stem of the source alone, without the channel; every other
    key of the state and the source are kept, and the configuration is
    not looked at.  On any other source it raises [TypeError]. *)
Theorem overwrite_resets_the_defaults (rt : PyRuntime) (self : NgLayer)
    (cfg : pydict) :
  match image_source self with
  | PStr p =>
      exists L,
        set_default_values rt self cfg true = inr L
        /\ PyDict.get (layer_state L) "localDimensions"
           = Some (PDict [("c'", PList [PInt 1; PStr ""])])
        /\ PyDict.get (layer_state L) "shaderControls"
           = Some default_shader_control
        /\ PyDict.get (layer_state L) "visible" = Some (PBool true)
        /\ PyDict.get (layer_state L) "name"
           = Some (PStr (PyPath.stem (PyPath.parse p)))
        /\ PyDict.get (layer_state L) "type"
           = Some (PStr (image_type self))
        /\ (forall k,
               ~ In k ["localDimensions"; "shaderControls"; "visible";
                       "name"; "type"] ->
               PyDict.get (layer_state L) k = PyDict.get (layer_state self) k)
        /\ image_source L = image_source self
  | _ => set_default_values rt self cfg true = raise TypeError ""
  end.
Proof.
  unfold set_default_values.
  cbn [image_channel_setter shader_control_setter visible_setter
         default_shader_control Builtins.py_int Builtins.py_dict bind ok
         image_source image_type set_state with_layer_state].
  destruct (image_source self) as [| | | |p| |] eqn:E; try reflexivity.
  cbn [Builtins.py_path bind ok]. eexists. split; [reflexivity|].
  unfold visible_setter. dict_simpl.
  split; [reflexivity|]. split; [reflexivity|]. split; [reflexivity|].
  split; [reflexivity|]. split; [reflexivity|]. split; [|exact E].
  intros k Hk. cbn [In] in Hk.
  repeat rewrite dict_get_set_ne by (intros Heq; subst k; apply Hk; auto 10).
  reflexivity.
Qed.

(** X21. A layer that was built stores the channel under [c'], counted
    from one: [int(channel) + 1] for the channel of the configuration,
    and 1 when the configuration gives none. *)
Theorem channel_of_a_built_layer (rt : PyRuntime) (cfg : pydict)
    (mount_service bucket_path image_type : string)
    (output_dimensions : pyval) (L : NgLayer) :
  PyDict.wf cfg ->
  ng_layer.__init__ rt (PDict cfg) mount_service bucket_path image_type
    output_dimensions = inr L ->
  exists c,
    match PyDict.get cfg "channel" with
    | Some v => Builtins.py_int rt v = inr c
    | None => c = 0%Z
    end
    /\ PyDict.get (layer_state L) "localDimensions"
       = Some (PDict [("c'", PList [PInt (c + 1); PStr ""])]).
Proof.
  intros Hwf Hrun.
  destruct (init_returns rt cfg _ _ _ _ L Hwf Hrun) as (c & Hc & Hentry & _).
  exists c. split; [exact Hc | exact Hentry].
Qed.

Lemma channel_of_a_built_layer_witness :
  exists c,
    Builtins.py_int Demo.runtime (PInt 0) = inr c
    /\ PyDict.get (layer_state example_layer_0) "localDimensions"
       = Some (PDict [("c'", PList [PInt (c + 1); PStr ""])]).
Proof.
  exact (channel_of_a_built_layer Demo.runtime _
           "s3" "aind-msma-data" "image" (PDict []) example_layer_0
           (example_layer_wf 0 "green") example_layer_0_built).
Defined.

(** ** The helpers of ng_layer.py *)
Lemma dict_get_in (d : pydict) (k : string) (v : pyval) :
  PyDict.wf d -> (PyDict.get d k = Some v <-> In (k, v) d).
Proof.
  induction d as [|[k' v'] d IH]; intros Hwf; cbn.
  - split; [discriminate | contradiction].
  - inversion Hwf as [|? ? Hnotin Hwf']; subst.
    destruct (String.eqb_spec k' k) as [->|Hne].
    + split.
      * intros H. inversion H. now left.
      * intros [H|H]; [now inversion H|].
        exfalso. apply Hnotin. change k with (fst (k, v)).
        now apply in_map.
    + rewrite (IH Hwf'). split; [now right|].
      intros [H|H]; [inversion H; contradiction | exact H].
Qed.

Lemma dict_rev_wf (d : pydict) : PyDict.wf d -> PyDict.wf (rev d).
Proof.
  unfold PyDict.wf, PyDict.keys. rewrite map_rev. apply NoDup_rev.
Qed.

Lemma dict_get_rev (d : pydict) (k : string) :
  PyDict.wf d -> PyDict.get (rev d) k = PyDict.get d k.
Proof.
  intros Hwf. destruct (PyDict.get d k) as [v|] eqn:E.
  - apply (dict_get_in _ _ _ (dict_rev_wf d Hwf)). rewrite <- in_rev.
    now apply (dict_get_in d k v Hwf).
  - apply dict_get_absent. unfold PyDict.keys. rewrite map_rev, <- in_rev.
    intros Hin. now apply dict_in_keys_get in Hin.
Qed.

(** X22. [helper_reverse_dictionary] returns the items of a dict in
    the opposite order: every key keeps its value, and reversing twice
    gives the dict back. *)
Theorem reverse_dictionary_reverses (d : pydict) :
  PyDict.wf d ->
  helper_reverse_dictionary (PDict d) = ok (rev d)
  /\ (forall k, PyDict.get (rev d) k = PyDict.get d k)
  /\ helper_reverse_dictionary (PDict (rev d)) = ok d.
Proof.
  intros Hwf. split; [|split].
  - cbn. now rewrite (dict_fill (rev d) [] (dict_rev_wf d Hwf))
      by (intros ? ? []).
  - intros k. now apply dict_get_rev.
  - cbn. rewrite rev_involutive.
    now rewrite (dict_fill d [] Hwf) by (intros ? ? []).
Qed.

Lemma reverse_dictionary_reverses_witness :
  let d := [("z", PInt 1); ("y", PInt 2); ("x", PInt 3)] in
  helper_reverse_dictionary (PDict d)
  = ok [("x", PInt 3); ("y", PInt 2); ("z", PInt 1)]
  /\ (forall k, PyDict.get (rev d) k = PyDict.get d k)
  /\ helper_reverse_dictionary (PDict (rev d)) = ok d.
Proof.
  cbv zeta.
  refine (reverse_dictionary_reverses
            [("z", PInt 1); ("y", PInt 2); ("x", PInt 3)] _).
  repeat constructor; cbn; intuition discriminate.
Defined.

(** X23. Whatever [__set_s3_path] returns starts with [zarr://]
    followed by the scheme of the mount service, and ends in [.zarr]; and
    it returns for strings only. *)
Theorem resolved_path_shape (self : NgLayer) (source : pyval) (r : string) :
  __set_s3_path self source = inr r ->
  exists p,
    source = PStr p
    /\ r = "zarr://"
             ++ scheme_prefixed (ng_layer.mount_service self)
                  (ng_layer.bucket_path self) p
    /\ PyStr.startswith r ("zarr://" ++ ng_layer.mount_service self ++ "://")
       = true
    /\ PyStr.endswith r ".zarr" = true.
Proof.
  destruct source as [| | | |p| |]; try discriminate.
  unfold __set_s3_path.
  destruct (PyStr.endswith (scheme_prefixed _ _ p) ".zarr") eqn:E;
    [|discriminate].
  intros H.
  assert (Hr : r = "zarr://"
                     ++ scheme_prefixed (ng_layer.mount_service self)
                          (ng_layer.bucket_path self) p)
    by (now inversion H).
  clear H. subst r. exists p.
  split; [reflexivity|]. split; [reflexivity|]. split.
  - unfold PyStr.startswith. rewrite prefix_append_same.
    unfold scheme_prefixed, PyStr.startswith.
    destruct (String.prefix (ng_layer.mount_service self ++ "://") p) eqn:P;
      cbn [negb]; [exact P|].
    rewrite prefix_append_same. apply prefix_append.
  - now apply endswith_append.
Qed.

Lemma resolved_path_shape_witness :
  exists p,
    PStr "image_path.zarr" = PStr p
    /\ "zarr://s3://aind-msma-data/image_path.zarr"
       = "zarr://" ++ scheme_prefixed "s3" "aind-msma-data" p
    /\ PyStr.startswith "zarr://s3://aind-msma-data/image_path.zarr"
         ("zarr://" ++ "s3" ++ "://") = true
    /\ PyStr.endswith "zarr://s3://aind-msma-data/image_path.zarr" ".zarr"
       = true.
Proof.
  exact (resolved_path_shape
           (new_object PNone "s3" "aind-msma-data" "image" [])
           (PStr "image_path.zarr")
           "zarr://s3://aind-msma-data/image_path.zarr" eq_refl).
Defined.

(** X24. For integer deltas of magnitude at most 2048 the translation
    matrix of the default size is exact: the identity with the three
    deltas, as floats, in the last column. *)
Theorem translation_matrix_is_exact_for_small_integers (rt : PyRuntime)
    (x y z : Z) :
  (-2048 <= x <= 2048)%Z ->
  (-2048 <= y <= 2048)%Z ->
  (-2048 <= z <= 2048)%Z ->
  helper_create_ng_translation_matrix rt (PInt x) (PInt y) (PInt z)
    default_n_cols default_n_rows
  = inr (identity_with_deltas (PyNum.f64 x 0) (PyNum.f64 y 0)
           (PyNum.f64 z 0)).
Proof.
  intros Hx Hy Hz.
  destruct (small_integers_are_stored_exactly rt x Hx) as (hx & Ex & Sx).
  destruct (small_integers_are_stored_exactly rt y Hy) as (hy & Ey & Sy).
  destruct (small_integers_are_stored_exactly rt z Hz) as (hz & Ez & Sz).
  rewrite (translation_matrix_default_sizes rt _ _ _ hx hy hz Ex Ey Ez).
  now rewrite Sx, Sy, Sz.
Qed.

Lemma translation_matrix_is_exact_for_small_integers_witness :
  helper_create_ng_translation_matrix Demo.runtime
    (PInt (-2048)) (PInt 7) (PInt 2048) default_n_cols default_n_rows
  = inr (identity_with_deltas (PyNum.f64 (-2048) 0) (PyNum.f64 7 0)
           (PyNum.f64 2048 0)).
Proof.
  exact (translation_matrix_is_exact_for_small_integers Demo.runtime
           (-2048) 7 2048 ltac:(lia) ltac:(lia) ltac:(lia)).
Defined.

(** X25. The translation matrix needs a column: with a negative
    number of columns the helper raises numpy's [ValueError], and with no
    column and at least four rows it raises [IndexError], at the first
    delta it writes. *)
Theorem translation_matrix_without_columns (rt : PyRuntime)
    (delta_x delta_y delta_z : pyval) (n_cols n_rows : Z) :
  ((n_cols < 0)%Z ->
   helper_create_ng_translation_matrix rt delta_x delta_y delta_z
     n_cols n_rows = raise ValueError "")
  /\ (n_cols = 0%Z -> (4 <= n_rows)%Z ->
      helper_create_ng_translation_matrix rt delta_x delta_y delta_z
        n_cols n_rows = raise IndexError "").
Proof.
  unfold helper_create_ng_translation_matrix, Numpy.zeros. split.
  - intros Hc. apply Z.ltb_lt in Hc. rewrite Hc, orb_true_r. reflexivity.
  - intros -> Hr.
    destruct (n_rows <? 0)%Z eqn:En; [apply Z.ltb_lt in En; lia|].
    cbn [orb Z.ltb Z.compare]. unfold ok at 1. cbn [bind].
    change (Z.of_nat (length [delta_x; delta_y; delta_z])) with 3%Z.
    destruct (n_rows - 1 <? 3)%Z eqn:E; [apply Z.ltb_lt in E; lia|].
    cbn [set_deltas]. unfold Numpy.setitem.
    rewrite norm_index_in_range by (cbn; lia). reflexivity.
Qed.

Lemma translation_matrix_without_columns_witness :
  helper_create_ng_translation_matrix Demo.runtime (PInt 1) (PInt 2) (PInt 3)
    (-1) 5 = raise ValueError ""
  /\ helper_create_ng_translation_matrix Demo.runtime
       (PInt 1) (PInt 2) (PInt 3) 0 5 = raise IndexError "".
Proof.
  split.
  - exact (proj1 (translation_matrix_without_columns Demo.runtime
                    (PInt 1) (PInt 2) (PInt 3) (-1) 5) ltac:(lia)).
  - exact (proj2 (translation_matrix_without_columns Demo.runtime
                    (PInt 1) (PInt 2) (PInt 3) 0 5) eq_refl ltac:(lia)).
Defined.

(** X26. [__create_shader] reads exactly the keys [color], [emitter]
    and [vec]: of a dict that has them it makes the two [#uicontrol]
    lines and the [main] that emits the color, each value as [str] gives
    it; a dict that lacks one raises [KeyError], and a value that is no
    dict raises [TypeError]. *)
Theorem shader_needs_its_three_keys (rt : PyRuntime) (shader_config : pyval) :
  match shader_config with
  | PDict d =>
      match PyDict.get d "color", PyDict.get d "emitter",
            PyDict.get d "vec" with
      | Some color, Some emitter, Some vec =>
          __create_shader rt shader_config
          = ok ("#uicontrol " ++ Builtins.py_str rt vec
                  ++ " color color(default=" ++ PyStr.dquote
                  ++ Builtins.py_str rt color ++ PyStr.dquote ++ ")"
                  ++ PyStr.newline
                  ++ "#uicontrol invlerp normalized" ++ PyStr.newline
                  ++ "void main() {" ++ PyStr.newline
                  ++ "emit" ++ Builtins.py_str rt emitter
                  ++ "(color * normalized());" ++ PyStr.newline ++ "}")
      | _, _, _ => __create_shader rt shader_config = raise KeyError ""
      end
  | _ => __create_shader rt shader_config = raise TypeError ""
  end.
Proof.
  destruct shader_config as [| | | | | |d]; try reflexivity.
  unfold __create_shader, Builtins.getitem.
  destruct (PyDict.get d "color") as [color|]; [|reflexivity].
  destruct (PyDict.get d "emitter") as [emitter|]; [|reflexivity].
  destruct (PyDict.get d "vec") as [vec|]; [|reflexivity].
  cbn [bind ok fold_left]. f_equal.
  repeat rewrite append_assoc. reflexivity.
Qed.

(** ** Sources of several tiles *)
Lemma dict_get_app (a b : pydict) (k : string) :
  PyDict.get (a ++ b)%list k
  = match PyDict.get a k with
    | Some v => Some v
    | None => PyDict.get b k
    end.
Proof.
  induction a as [|[k' v'] a IH]; cbn; [reflexivity|].
  now destruct (String.eqb k' k).
Qed.

(** Entering items one by one: the last one entered under a key is the
    one found. *)
Lemma dict_get_fold (entries : pydict) (k : string) :
  forall acc,
    PyDict.get
      (fold_left (fun a kv => PyDict.set a (fst kv) (snd kv)) entries acc) k
    = match PyDict.get (rev entries) k with
      | Some v => Some v
      | None => PyDict.get acc k
      end.
Proof.
  induction entries as [|[k1 v1] entries IH]; intros acc; cbn [fold_left rev].
  - reflexivity.
  - rewrite IH, dict_get_app. cbn [fst snd].
    destruct (PyDict.get (rev entries) k); [reflexivity|].
    cbn [PyDict.get]. destruct (String.eqb_spec k1 k) as [->|Hne].
    + apply dict_get_set_eq.
    + now apply dict_get_set_ne.
Qed.

Lemma dict_get_unique (l : pydict) (k : string) (v : pyval) :
  In (k, v) l -> (forall v', In (k, v') l -> v' = v) ->
  PyDict.get l k = Some v.
Proof.
  induction l as [|[k' v'] l IH]; intros Hin Hall; [contradiction|].
  cbn. destruct (String.eqb_spec k' k) as [->|Hne].
  - f_equal. apply Hall. now left.
  - apply IH.
    + destruct Hin as [H|H]; [inversion H; contradiction | exact H].
    + intros v0 H0. apply Hall. now right.
Qed.

Lemma dict_get_none (l : pydict) (k : string) :
  (forall v, ~ In (k, v) l) -> PyDict.get l k = None.
Proof.
  intros H. apply dict_get_absent. intros Hin.
  apply in_map_iff in Hin as ([k' v] & Hk & Hin). cbn in Hk. subst k'.
  now apply (H v).
Qed.

Lemma set_source_key_entry (rt : PyRuntime) (self : NgLayer) (t acc : pydict)
    (key : string) :
  set_source_key rt self t acc key
  = (kv <- tile_entry rt self t key ;;
     ok (PyDict.set acc (fst kv) (snd kv))).
Proof.
  unfold set_source_key, tile_entry.
  destruct (String.eqb key "transform_matrix").
  - destruct (Builtins.getitem (PDict t) "transform_matrix") as [e|tm];
      [reflexivity|].
    cbn [bind].
    destruct tm; cbn [bind ok];
      try (destruct (String.eqb key "url");
           [ destruct (Builtins.getitem (PDict t) "url") as [e|u];
             [reflexivity|]; cbn [bind];
             destruct (__set_s3_path self u); reflexivity
           | destruct (Builtins.getitem (PDict t) key); reflexivity ]);
      try reflexivity.
    destruct (Builtins.getitem (PDict d) "delta_x"); [reflexivity|].
    cbn [bind].
    destruct (Builtins.getitem (PDict d) "delta_y"); [reflexivity|].
    cbn [bind].
    destruct (Builtins.getitem (PDict d) "delta_z"); [reflexivity|].
    cbn [bind].
    destruct (helper_create_ng_translation_matrix rt _ _ _ _ _); reflexivity.
  - cbn [bind ok].
    destruct (String.eqb key "url").
    + destruct (Builtins.getitem (PDict t) "url") as [e|u]; [reflexivity|].
      cbn [bind]. destruct (__set_s3_path self u); reflexivity.
    + destruct (Builtins.getitem (PDict t) key); reflexivity.
Qed.

Lemma set_source_keys_entries (rt : PyRuntime) (self : NgLayer) (t : pydict)
    (ks : list string) :
  forall acc d,
    set_source_keys rt self t acc ks = inr d ->
    exists entries,
      Forall2 (fun key kv => tile_entry rt self t key = inr kv) ks entries
      /\ d = fold_left (fun a kv => PyDict.set a (fst kv) (snd kv))
               entries acc.
Proof.
  induction ks as [|key ks IH]; intros acc d Hrun.
  - cbn in Hrun. inversion Hrun. exists []. split; [constructor | reflexivity].
  - cbn [set_source_keys] in Hrun. rewrite set_source_key_entry in Hrun.
    destruct (tile_entry rt self t key) as [e|kv] eqn:E;
      cbn [bind ok] in Hrun; [discriminate|].
    destruct (IH _ _ Hrun) as (entries & Hall & ->).
    exists (kv :: entries). split; [now constructor | reflexivity].
Qed.

(** What one key writes. *)
Lemma tile_entry_inv (rt : PyRuntime) (self : NgLayer) (t : pydict)
    (key k : string) (v : pyval) :
  tile_entry rt self t key = inr (k, v) ->
  (key = "transform_matrix" /\ k = "transform"
   /\ exists tm, PyDict.get t "transform_matrix" = Some tm
                 /\ is_matrix tm = true
                 /\ match tm with
                    | PDict _ =>
                        exists dx dy dz m,
                          Builtins.getitem tm "delta_x" = inr dx
                          /\ Builtins.getitem tm "delta_y" = inr dy
                          /\ Builtins.getitem tm "delta_z" = inr dz
                          /\ helper_create_ng_translation_matrix rt dx dy dz
                               default_n_cols default_n_rows = inr m
                          /\ v = transform_entry self (matrix_value m)
                    | _ => v = transform_entry self tm
                    end)
  \/ (key = "url" /\ k = "url"
      /\ exists u p, PyDict.get t "url" = Some u
                     /\ __set_s3_path self u = inr p /\ v = PStr p)
  \/ (key <> "url" /\ k = key /\ PyDict.get t key = Some v
      /\ (key = "transform_matrix" -> is_matrix v = false)).
Proof.
  unfold tile_entry.
  destruct (String.eqb_spec key "transform_matrix") as [->|Htm].
  - unfold Builtins.getitem at 1.
    destruct (PyDict.get t "transform_matrix") as [tm|] eqn:Etm;
      [|discriminate].
    cbn [bind ok].
    destruct tm as [| | | | |l|d];
      try (unfold Builtins.getitem; rewrite Etm; cbn;
           intros H; inversion H; subst; right; right;
           split; [discriminate|]; split; [reflexivity|];
           split; [reflexivity | intros _; reflexivity]).
    + intros H; inversion H; subst. left.
      split; [reflexivity|]. split; [reflexivity|].
      eexists. split; [reflexivity|]. split; reflexivity.
    + destruct (Builtins.getitem (PDict d) "delta_x") as [e|dx] eqn:Ex;
        [discriminate|]. cbn [bind].
      destruct (Builtins.getitem (PDict d) "delta_y") as [e|dy] eqn:Ey;
        [discriminate|]. cbn [bind].
      destruct (Builtins.getitem (PDict d) "delta_z") as [e|dz] eqn:Ez;
        [discriminate|]. cbn [bind].
      destruct (helper_create_ng_translation_matrix rt dx dy dz _ _)
        as [e|m] eqn:Em; [discriminate|]. cbn [bind].
      intros H; inversion H; subst. left.
      split; [reflexivity|]. split; [reflexivity|].
      eexists. split; [reflexivity|]. split; [reflexivity|].
      exists dx, dy, dz, m. repeat split; assumption.
  - cbn [bind ok]. unfold Builtins.getitem.
    destruct (String.eqb_spec key "url") as [->|Hurl].
    + destruct (PyDict.get t "url") as [u|] eqn:Eu; [|discriminate].
      cbn [bind ok].
      destruct (__set_s3_path self u) as [e|p] eqn:Ep; [discriminate|].
      cbn [bind]. intros H; inversion H; subst. right. left.
      split; [reflexivity|]. split; [reflexivity|]. now exists u, p.
    + destruct (PyDict.get t key) as [v0|] eqn:Ev; [|discriminate].
      cbn [bind ok]. intros H; inversion H; subst. right. right.
      split; [assumption|]. split; [reflexivity|].
      split; [reflexivity | intros ->; contradiction].
Qed.

Lemma forall2_in_l {A B : Type} (R : A -> B -> Prop) (l : list A)
    (l' : list B) (a : A) :
  Forall2 R l l' -> In a l -> exists b, In b l' /\ R a b.
Proof.
  induction 1 as [|x y l l' Hxy _ IH]; intros Hin; [contradiction|].
  destruct Hin as [->|Hin].
  - exists y. split; [now left | exact Hxy].
  - destruct (IH Hin) as (b & Hb & Hab). exists b. split; [now right|exact Hab].
Qed.

Lemma forall2_in_r {A B : Type} (R : A -> B -> Prop) (l : list A)
    (l' : list B) (b : B) :
  Forall2 R l l' -> In b l' -> exists a, In a l /\ R a b.
Proof.
  induction 1 as [|x y l l' Hxy _ IH]; intros Hin; [contradiction|].
  destruct Hin as [->|Hin].
  - exists x. split; [now left | exact Hxy].
  - destruct (IH Hin) as (a & Ha & Hab). exists a. split; [now right|exact Hab].
Qed.

Section OneTile.

Variable rt : PyRuntime.
Variable self : NgLayer.
Variable t d : pydict.
Hypothesis Hrun :
  set_source_keys rt self t [] (PyDict.keys t) = inr d.

Lemma tile_get_some (key k : string) (v : pyval) :
  In key (PyDict.keys t) ->
  (forall kv, tile_entry rt self t key = inr kv -> kv = (k, v)) ->
  (forall key' v', tile_entry rt self t key' = inr (k, v') -> v' = v) ->
  PyDict.get d k = Some v.
Proof.
  intros Hin Hkey Huniq.
  destruct (set_source_keys_entries rt self t _ _ _ Hrun)
    as (entries & Hall & ->).
  rewrite dict_get_fold.
  rewrite (dict_get_unique (rev entries) k v); [reflexivity| |].
  - apply in_rev. rewrite rev_involutive.
    destruct (forall2_in_l _ _ _ _ Hall Hin) as (kv & Hkv & E).
    now rewrite <- (Hkey kv E).
  - intros v' Hin'. apply in_rev in Hin'.
    destruct (forall2_in_r _ _ _ _ Hall Hin') as (key' & _ & E).
    now apply (Huniq key').
Qed.

Lemma tile_get_none (k : string) :
  (forall key v, tile_entry rt self t key = inr (k, v) -> False) ->
  PyDict.get d k = None.
Proof.
  intros Hnone.
  destruct (set_source_keys_entries rt self t _ _ _ Hrun)
    as (entries & Hall & ->).
  rewrite dict_get_fold, dict_get_none; [reflexivity|].
  intros v Hin. apply in_rev in Hin.
  destruct (forall2_in_r _ _ _ _ Hall Hin) as (key & _ & E).
  now apply (Hnone key v).
Qed.

End OneTile.

Ltac inv_entry H :=
  let Hkey := fresh "Hkey" in
  let Hk := fresh "Hk" in
  let tm := fresh "tm" in
  let Htm := fresh "Htm" in
  let Hm := fresh "Hm" in
  let Hv := fresh "Hv" in
  let u := fresh "u" in
  let p := fresh "p" in
  let Hu := fresh "Hu" in
  let Hp := fresh "Hp" in
  let Hg := fresh "Hg" in
  let Hnm := fresh "Hnm" in
  apply tile_entry_inv in H;
  destruct H as [(Hkey & Hk & tm & Htm & Hm & Hv)
                |[(Hkey & Hk & u & p & Hu & Hp & Hv)
                 |(Hkey & Hk & Hg & Hnm)]];
  try discriminate; try congruence.

(** What [__set_sources_paths] makes of one tile, key by key. *)
Lemma tile_resolved (rt : PyRuntime) (self : NgLayer) (t d : pydict) :
  set_source_keys rt self t [] (PyDict.keys t) = inr d ->
  (forall k,
      k <> "url" -> k <> "transform_matrix" -> k <> "transform" ->
      PyDict.get d k = PyDict.get t k)
  /\ match PyDict.get t "url" with
     | Some u =>
         exists p, __set_s3_path self u = inr p
                   /\ PyDict.get d "url" = Some (PStr p)
     | None => PyDict.get d "url" = None
     end
  /\ (PyDict.get t "transform" = None ->
      match PyDict.get t "transform_matrix" with
      | Some (PList m) =>
          PyDict.get d "transform" = Some (transform_entry self (PList m))
          /\ PyDict.get d "transform_matrix" = None
      | Some (PDict tm) =>
          (exists dx dy dz M,
              PyDict.get tm "delta_x" = Some dx
              /\ PyDict.get tm "delta_y" = Some dy
              /\ PyDict.get tm "delta_z" = Some dz
              /\ helper_create_ng_translation_matrix rt dx dy dz
                   default_n_cols default_n_rows = inr M
              /\ PyDict.get d "transform"
                 = Some (transform_entry self (matrix_value M)))
          /\ PyDict.get d "transform_matrix" = None
      | Some v =>
          PyDict.get d "transform_matrix" = Some v
          /\ PyDict.get d "transform" = None
      | None =>
          PyDict.get d "transform" = None
          /\ PyDict.get d "transform_matrix" = None
      end).
Proof.
  intros Hrun. split; [|split].
  - intros k N1 N2 N3. destruct (PyDict.get t k) as [v0|] eqn:E.
    + apply (tile_get_some rt self t d Hrun k k v0).
      * eapply dict_get_present; eauto.
      * intros [k' v'] H. inv_entry H.
      * intros key' v' H. inv_entry H.
    + apply (tile_get_none rt self t d Hrun).
      intros key v H. inv_entry H.
  - destruct (PyDict.get t "url") as [u|] eqn:E.
    + destruct (set_source_keys_entries rt self t _ _ _ Hrun)
        as (entries & Hall & _).
      destruct (forall2_in_l _ _ _ _ Hall
                  (dict_get_present t "url" u E)) as ([k0 v0] & _ & H0).
      pose proof H0 as H1. inv_entry H1.
      exists p. split; [congruence|].
      apply (tile_get_some rt self t d Hrun "url" "url" (PStr p)).
      * eapply dict_get_present; eauto.
      * intros kv H. congruence.
      * intros key' v' H. inv_entry H.
    + apply (tile_get_none rt self t d Hrun).
      intros key v H. inv_entry H.
  - intros Hnot.
    destruct (PyDict.get t "transform_matrix") as [tm|] eqn:E.
    + destruct (set_source_keys_entries rt self t _ _ _ Hrun)
        as (entries & Hall & _).
      destruct (forall2_in_l _ _ _ _ Hall
                  (dict_get_present t "transform_matrix" tm E))
        as ([k0 v0] & _ & H0).
      pose proof H0 as H1. inv_entry H1.
      * (* converted *)
        assert (tm0 = tm) by congruence. subst tm0.
        assert (Hno : PyDict.get d "transform_matrix" = None).
        { apply (tile_get_none rt self t d Hrun).
          intros key v H. inv_entry H. subst.
          rewrite E in Hg. inversion Hg; subst.
          rewrite (Hnm eq_refl) in Hm. discriminate. }
        assert (Hyes : PyDict.get d "transform" = Some v0).
        { apply (tile_get_some rt self t d Hrun "transform_matrix").
          - eapply dict_get_present; eauto.
          - intros kv H. congruence.
          - intros key' v' H.
            assert (key' = "transform_matrix") by (inv_entry H).
            subst key'. congruence. }
        destruct tm as [| | | | |l|dm]; try discriminate Hm.
        -- subst v0. now split.
        -- split; [|exact Hno].
           destruct Hv as (dx & dy & dz & M & Hx & Hy & Hz & HM & ->).
           exists dx, dy, dz, M.
           unfold Builtins.getitem in Hx, Hy, Hz.
           destruct (PyDict.get dm "delta_x"); [|discriminate].
           destruct (PyDict.get dm "delta_y"); [|discriminate].
           destruct (PyDict.get dm "delta_z"); [|discriminate].
           inversion Hx; inversion Hy; inversion Hz; subst.
           repeat split; assumption.
      * (* kept *)
        subst k0. rewrite E in Hg. inversion Hg; subst v0.
        specialize (Hnm eq_refl).
        assert (Hyes : PyDict.get d "transform_matrix" = Some tm).
        { apply (tile_get_some rt self t d Hrun "transform_matrix").
          - eapply dict_get_present; eauto.
          - intros kv H. congruence.
          - intros key' v' H. inv_entry H. }
        assert (Hno : PyDict.get d "transform" = None).
        { apply (tile_get_none rt self t d Hrun).
          intros key v H. inv_entry H. }
        destruct tm; try discriminate Hnm; now split.
    + split; apply (tile_get_none rt self t d Hrun);
        intros key v H; inv_entry H.
Qed.

(** X27. [__set_sources_paths] returns one new tile for each tile, in
    order.  In a new tile, [url] is the URL of the tile as
    [__set_s3_path] resolves it; a [transform_matrix] that is a dict or
    a list is replaced by [transform], holding the matrix (the
    translation matrix of the three deltas, or the list as it is) and
    the output dimensions; a [transform_matrix] of another type, and
    every other key, are copied. *)
Theorem tiles_are_resolved_one_by_one (rt : PyRuntime) (self : NgLayer)
    (tiles out : list pyval) :
  __set_sources_paths rt self tiles = inr out ->
  Forall2 (fun tile new =>
             exists t d, tile = PDict t /\ new = PDict d
                         /\ resolved_tile rt self t d) tiles out
  /\ __fix_image_source rt self (PList tiles) = inr (PList out).
Proof.
  intros Hrun. split; [|cbn; now rewrite Hrun].
  revert out Hrun. induction tiles as [|tile tiles IH]; intros out Hrun.
  - cbn in Hrun. inversion Hrun. constructor.
  - cbn [__set_sources_paths] in Hrun.
    destruct tile as [| | | | | |t]; try discriminate Hrun.
    destruct (set_source_keys rt self t [] (PyDict.keys t)) as [e|d] eqn:E;
      [discriminate|]. cbn [bind] in Hrun.
    destruct (__set_sources_paths rt self tiles) as [e|rest] eqn:Er;
      [discriminate|]. cbn [bind ok] in Hrun. inversion Hrun; subst out.
    constructor; [|now apply IH].
    exists t, d. split; [reflexivity|]. split; [reflexivity|].
    now apply tile_resolved.
Qed.

Lemma example_tiles_are_resolved :
  __set_sources_paths Demo.runtime
    (new_object PNone "s3" "aind-open-data" "image" []) example_tiles
  = inr example_tiles_resolved.
Proof. vm_compute. reflexivity. Qed.

Lemma tiles_are_resolved_one_by_one_witness :
  Forall2 (fun tile new =>
             exists t d, tile = PDict t /\ new = PDict d
                         /\ resolved_tile Demo.runtime
                              (new_object PNone "s3" "aind-open-data"
                                 "image" []) t d)
    example_tiles example_tiles_resolved
  /\ __fix_image_source Demo.runtime
       (new_object PNone "s3" "aind-open-data" "image" [])
       (PList example_tiles)
     = inr (PList example_tiles_resolved).
Proof.
  exact (tiles_are_resolved_one_by_one Demo.runtime _ _ _
           example_tiles_are_resolved).
Defined.

(* ===================================================================== *)
(** * Further properties of ng_state.py, continued *)
(* ===================================================================== *)

(** ** The points of a marker file *)

Lemma cells_to_points_spec (cells : list pyval) :
  match cells_to_points cells with
  | inr points => Forall2 point_of cells points
  | inl e =>
      exists before cell after points,
        cells = (before ++ cell :: after)%list
        /\ Forall2 point_of before points
        /\ fails_with cell e
  end.
Proof.
  induction cells as [|cell cells IH]; cbn [cells_to_points].
  - constructor.
  - destruct (Builtins.getitem cell "MarkerX") as [e|x] eqn:Ex.
    { exists [], cell, cells, []. cbn.
      split; [reflexivity|]. split; [constructor|]. now left. }
    destruct (Builtins.getitem cell "MarkerY") as [e|y] eqn:Ey.
    { exists [], cell, cells, []. cbn.
      split; [reflexivity|]. split; [constructor|]. right. left. eauto. }
    destruct (Builtins.getitem cell "MarkerZ") as [e|z] eqn:Ez.
    { exists [], cell, cells, []. cbn.
      split; [reflexivity|]. split; [constructor|]. right. right. eauto. }
    cbn [bind]. destruct (cells_to_points cells) as [e|points].
    + destruct IH as (before & c & after & points & -> & Hbefore & He).
      exists (cell :: before), c, after,
        (PDict [("x", x); ("y", y); ("z", z)] :: points).
      cbn [bind]. split; [reflexivity|]. split; [|exact He].
      constructor; [|exact Hbefore].
      exists x, y, z. repeat split; assumption.
    + cbn [bind ok]. constructor; [|exact IH].
      exists x, y, z. repeat split; assumption.
Qed.


(** ** The output path *)
Lemma replace_from_skip (old new t s : string) :
  PyStr.replace_from old new (String.length t) (t ++ s)
  = PyStr.replace_from old new 0 s.
Proof.
  induction t as [|c t IH]; cbn [String.length append].
  - reflexivity.
  - cbn [PyStr.replace_from]. exact IH.
Qed.

Lemma replace_prefix (old new s : string) :
  old <> "" ->
  PyStr.replace old new (old ++ s) = new ++ PyStr.replace old new s.
Proof.
  destruct old as [|a old]; [contradiction|]. intros _.
  unfold PyStr.replace. cbn [append PyStr.replace_from].
  change (String a (old ++ s)) with (String a old ++ s).
  rewrite prefix_append. cbn [String.length].
  replace (S (String.length old) - 1) with (String.length old) by lia.
  now rewrite replace_from_skip.
Qed.

(** X29. A leading [/home/jupyter/] of the output path is dropped: the
    path the constructor keeps, and so the object it leaves, is the one
    it keeps for the rest of the path. *)
Theorem home_prefix_is_dropped (rt : PyRuntime) (input_config : pyval)
    (mount_service bucket_path p : string) (verbose : bool)
    (base_url json_name : string) :
  __fix_output_json_path ("/home/jupyter/" ++ p) = __fix_output_json_path p
  /\ ng_state.__init__ rt input_config mount_service bucket_path
       ("/home/jupyter/" ++ p) verbose base_url json_name
     = ng_state.__init__ rt input_config mount_service bucket_path p
         verbose base_url json_name.
Proof.
  assert (H : __fix_output_json_path ("/home/jupyter/" ++ p)
              = __fix_output_json_path p).
  { unfold __fix_output_json_path.
    now rewrite (replace_prefix "/home/jupyter/" "" p) by discriminate. }
  split; [exact H|]. unfold ng_state.__init__. now rewrite H.
Qed.
